(** * leettools: the search-to-docsource step, the topic planner, the add_url
    command, the inference call wrapper and the scheduler's retry settings.

    Python functions are embedded as functions of a state-and-exception monad:
    a call either returns a value or raises, and leaves a world behind.  The
    stores and services the functions call (docsource store, scheduler, web
    searcher, pipeline, vendor client) are not part of the modelled files; they
    appear as fields of a collaborator record, and every call to one of them is
    written to the trace together with what it answered. *)

From stdpp Require Import base option list strings gmap fin_maps pretty.
From Stdlib Require Import ZArith QArith Lia Ascii.

Open Scope string_scope.
Open Scope Z_scope.

(** ** Python results: a value or a raised exception *)

Module Py.

(** leettools.common.exceptions and the built-in exceptions, as far as the
    modelled files raise them, and one constructor for whatever a collaborator
    raises. *)
Inductive PyExc : Type :=
| UnexpectedCaseException (unexpected_case : string)
| MissingParametersException (missing_parameter : string)
| UnexpectedOperationFailureException (operation_desc error : string)
| ValueError (msg : string)
| KeyError (key : string)
| TypeError (msg : string)
| AttributeError (msg : string)
| RaisedByCollaborator (who msg : string).

(** str(e) inside an f-string: the text the exception carries. *)
Definition exc_str (e : PyExc) : string :=
  match e with
  | UnexpectedCaseException m => m
  | MissingParametersException p => p
  | UnexpectedOperationFailureException d m => d ++ ": " ++ m
  | ValueError m => m
  | KeyError k => k
  | TypeError m => m
  | AttributeError m => m
  | RaisedByCollaborator _ m => m
  end.

Inductive Result (A : Type) : Type :=
| Ok (a : A)
| Raise (e : PyExc).
Arguments Ok {A} a.
Arguments Raise {A} e.

(** A computation over a world [W]. *)
Definition M (W A : Type) : Type := W → W * Result A.

Definition ret {W A} (a : A) : M W A := λ w, (w, Ok a).
Definition raise {W A} (e : PyExc) : M W A := λ w, (w, Raise e).
Definition bind {W A B} (c : M W A) (k : A → M W B) : M W B :=
  λ w, match c w with
       | (w1, Ok a) => k a w1
       | (w1, Raise e) => (w1, Raise e)
       end.

(** try: c except Exception as e: h e *)
Definition try_except {W A} (c : M W A) (h : PyExc → M W A) : M W A :=
  λ w, match c w with
       | (w1, Ok a) => (w1, Ok a)
       | (w1, Raise e) => h e w1
       end.

(** try: c finally: f.  The finally block runs on both exits; when it raises
    itself, its exception replaces the pending one. *)
Definition try_finally {W A} (c : M W A) (f : M W unit) : M W A :=
  λ w, match c w with
       | (w1, r) =>
           match f w1 with
           | (w2, Ok _) => (w2, r)
           | (w2, Raise e) => (w2, Raise e)
           end
       end.

Definition modify {W} (f : W → W) : M W unit := λ w, (f w, Ok tt).

End Py.
Export Py.

Notation "'let*' x ':=' c 'in' k" := (Py.bind c (λ x, k))
  (at level 10, x pattern, c at level 100, k at level 200,
   format "'[v' 'let*'  x  ':='  c  'in' '/' k ']'").
Notation "c '>>' k" := (Py.bind c (λ _, k))
  (at level 100, k at level 200, right associativity,
   format "'[v' c  '>>' '/' k ']'").

(** ** Schemas shared by the step and the command

    The pydantic schemas of leettools.core.schemas are declared in files that
    are not modelled here; each record below holds the fields that the
    modelled functions read or write. *)

Module Schemas.

(** Modelled from the spec: core/consts/docsource_status.py is not among the
    modelled files; the data model lists the four statuses. *)
Inductive DocSourceStatus : Type := CREATED | PROCESSING | COMPLETED | FAILED.

Global Instance DocSourceStatus_eq_dec : EqDecision DocSourceStatus.
Proof. solve_decision. Defined.

(** core/consts/docsource_type.py: the types the modelled functions use. *)
Inductive DocSourceType : Type := URL | SEARCH | LOCAL.

Abbreviation FlowOptions := (gmap string string).

(** IngestConfig(flow_options=..., extra_parameters=...) *)
Record IngestConfig : Type := mkIngestConfig {
  ic_flow_options : FlowOptions;
  ic_extra_parameters : list (string * string)
}.

(** DocSourceCreate, with the keyword arguments of its two constructions. *)
Record DocSourceCreate : Type := mkDocSourceCreate {
  dsc_org_id : option string;
  dsc_kb_id : string;
  dsc_source_type : DocSourceType;
  dsc_uri : string;
  dsc_display_name : string;
  dsc_ingest_config : option IngestConfig
}.

(** Modelled from the spec: core/schemas/docsource.py is not among the
    modelled files.  A DocSource has a unique id, a knowledge-base id, a
    source type, a URI, a display name, a status and an ingest configuration;
    the functions read docsource_uuid and assign source_status. *)
Record DocSource : Type := mkDocSource {
  docsource_uuid : string;
  ds_kb_id : string;
  ds_source_type : DocSourceType;
  ds_uri : string;
  ds_display_name : string;
  source_status : DocSourceStatus;
  ds_ingest_config : option IngestConfig
}.

(** docsource.source_status = s *)
Definition set_source_status (s : DocSourceStatus) (d : DocSource) : DocSource :=
  mkDocSource (docsource_uuid d) (ds_kb_id d) (ds_source_type d) (ds_uri d)
              (ds_display_name d) s (ds_ingest_config d).

(** What the web searcher hands to the pipeline; the functions only pass it on. *)
Record DocSinkCreate : Type := mkDocSinkCreate {
  dskc_docsource_uuid : string;
  dskc_original_doc_uri : string
}.

(** A stored document: add_url prints its two ids, the document store finds it
    by its docsource. *)
Record Document : Type := mkDocument {
  document_uuid : string;
  docsink_uuid : string;
  doc_docsource_uuid : string
}.

Record ChatQueryOptions : Type := mkChatQueryOptions {
  flow_options : option FlowOptions
}.

Record ChatQueryItem : Type := mkChatQueryItem {
  query_content : string;
  chat_id : string;
  query_id : string;
  item_chat_query_options : ChatQueryOptions
}.

Record KnowledgeBase : Type := mkKnowledgeBase {
  kb_id : string;
  kb_name : string;
  auto_schedule : bool
}.

Record Org : Type := mkOrg { org_id : string; org_name : string }.

Inductive LogLevel : Type := DEBUG | INFO | WARNING | ERROR.

End Schemas.
Export Schemas.


(** ** flow/steps/step_search_to_docsource.py *)

Module SearchToDocsource.

Abbreviation Store := (gmap string DocSource).

(** What the step does to the outside, in order: the lines it logs and the
    calls it makes, each call with the answer it got. *)
Inductive Event : Type :=
| Log (level : LogLevel) (msg : string)
| CreateDocsource (dsc : DocSourceCreate) (answer : Result DocSource)
| RunScheduler (answer : Result bool)
| WaitForDocsource (d : DocSource) (timeout_in_secs : Z) (answer : Result bool)
| UpdateDocsource (d : DocSource)
| SearchAndScrape (query : string) (d : DocSource)
                  (answer : Result (option (list DocSinkCreate)))
| AdhocPipeline (docsink_create_list : list DocSinkCreate)
                (answer : Result (list Document)).

(** The docsource store (records by docsource_uuid) and the trace. *)
Record World : Type := mkWorld {
  store : Store;
  trace : list Event
}.

(** The code the step calls and that lives in other files.  A collaborator
    sees the store, may change it, and returns or raises. *)
Record Collaborators : Type := mkCollaborators {
  (* config_utils.get_str_option_value(options, FLOW_OPTION_RETRIEVER_TYPE,
     RetrieverType.GOOGLE, display_logger) *)
  get_retriever_type : FlowOptions → Result string;
  (* search_utils.get_common_search_paras(flow_options, settings, display_logger) *)
  get_common_search_paras : FlowOptions → Result (Z * Z);
  (* datetime.now().strftime("%Y-%m-%d-%H-%M-%S") *)
  now_strftime : string;
  (* docsource_store.create_docsource(org, kb, docsource_create) *)
  create_docsource : Store → DocSourceCreate → Store * Result DocSource;
  (* run_scheduler(context=context) *)
  run_scheduler : Store → Store * Result bool;
  (* docsource_store.wait_for_docsource(org, kb, docsource, timeout_in_secs) *)
  wait_for_docsource : Store → DocSource → Z → Store * Result bool;
  (* WebSearcher(context).create_docsinks_by_search_and_scrape(...) *)
  create_docsinks_by_search_and_scrape :
    Store → string → DocSource → option FlowOptions →
    Store * Result (option (list DocSinkCreate));
  (* pipeline_utils.run_adhoc_pipeline_for_docsinks(exec_info, docsink_create_list) *)
  run_adhoc_pipeline_for_docsinks :
    Store → list DocSinkCreate → Store * Result (list Document)
}.

Record ExecInfo : Type := mkExecInfo {
  org : Org;
  kb : KnowledgeBase;
  user : string;
  (* exec_info.context.scheduler_is_running *)
  scheduler_is_running : bool;
  target_chat_query_item : option ChatQueryItem;
  chat_query_options : ChatQueryOptions
}.

Definition emit (ev : Event) : M World unit :=
  modify (λ w, mkWorld (store w) (trace w ++ [ev])).

(** display_logger.info / warning / error.  exec_info.display_logger and the
    logger() that replaces it when it is None write to the same trace. *)
Definition log (level : LogLevel) (msg : string) : M World unit :=
  emit (Log level msg).

(** A call to a collaborator: it runs on the store, and the call is traced
    with its answer. *)
Definition call {A} (f : Store → Store * Result A) (ev : Result A → Event)
  : M World A :=
  λ w, match f (store w) with
       | (s1, r) => (mkWorld s1 (trace w ++ [ev r]), r)
       end.

(** docsource_store.update_docsource(org, kb, docsource): the store honours
    its update contract, so the record stored under the docsource's uuid
    becomes the object as it is now. *)
Definition update_docsource (d : DocSource) : M World unit :=
  modify (λ w, mkWorld (<[docsource_uuid d := d]> (store w))
                       (trace w ++ [UpdateDocsource d])).

Definition lift_result {A} (r : Result A) : M World A := λ w, (w, r).

(** _create_docsrc_for_search *)
Definition _create_docsrc_for_search (c : Collaborators) (exec_info : ExecInfo)
    (chat_query_item : ChatQueryItem) (search_keywords : string)
  : M World DocSource :=
  (* if flow_options is None: flow_options = {} *)
  let flow_options := default ∅ (flow_options (chat_query_options exec_info)) in
  let* retriever_type := lift_result (get_retriever_type c flow_options) in
  let* (days_limit, max_results) :=
    lift_result (get_common_search_paras c flow_options) in
  log INFO ("[Status]Searching the web with " ++ retriever_type ++ " ...") >>
  let timestamp := now_strftime c in
  let docsource_create :=
    mkDocSourceCreate None (kb_id (kb exec_info)) SEARCH
      ("search://" ++ retriever_type ++ "?q=" ++ search_keywords
         ++ "&date_range=" ++ pretty days_limit
         ++ "&max_results=" ++ pretty max_results ++ "&ts=" ++ timestamp)
      search_keywords
      (Some (mkIngestConfig flow_options
               [("chat_id", chat_id chat_query_item);
                ("query_id", query_id chat_query_item)])) in
  call (λ s, create_docsource c s docsource_create)
       (CreateDocsource docsource_create).

(** docsink_create_list is None or len(docsink_create_list) == 0 *)
Definition none_or_empty {A} (l : option (list A)) : bool :=
  match l with
  | None => true
  | Some [] => true
  | Some (_ :: _) => false
  end.

(** _run_web_search_pipeline.  The Python function assigns to the docsource
    object it was given; here the object as the function leaves it is returned
    next to the documents. *)
Definition _run_web_search_pipeline (c : Collaborators) (exec_info : ExecInfo)
    (chat_query_item : ChatQueryItem) (docsource : DocSource)
  : M World (DocSource * list Document) :=
  let query := query_content chat_query_item in
  let flow_options := flow_options (item_chat_query_options chat_query_item) in
  let* docsink_create_list :=
    call (λ s, create_docsinks_by_search_and_scrape c s query docsource flow_options)
         (SearchAndScrape query docsource) in
  if none_or_empty docsink_create_list then
    log WARNING ("No results found for the query " ++ query ++ ".") >>
    let docsource := set_source_status COMPLETED docsource in
    update_docsource docsource >>
    ret (docsource, [])
  else
    let docsink_create_list := default [] docsink_create_list in
    let* success_documents :=
      call (λ s, run_adhoc_pipeline_for_docsinks c s docsink_create_list)
           (AdhocPipeline docsink_create_list) in
    let docsource := set_source_status COMPLETED docsource in
    update_docsource docsource >>
    ret (docsource, success_documents).

(** StepSearchToDocsource.run_step *)
Definition run_step (c : Collaborators) (exec_info : ExecInfo)
    (search_keywords : option string) : M World DocSource :=
  match target_chat_query_item exec_info with
  | None => raise (UnexpectedCaseException "The chat query item is not provided.")
  | Some chat_query_item =>
    (* if search_keywords is None: the query content of the item *)
    let search_keywords :=
      default (query_content chat_query_item) search_keywords in
    log INFO ("Searching the web for query: " ++ search_keywords) >>
    let* docsource :=
      _create_docsrc_for_search c exec_info chat_query_item search_keywords in
    if auto_schedule (kb exec_info) then
      let* started :=
        if scheduler_is_running exec_info then
          log INFO "Scheduled the new DocSource to be processed ..." >>
          ret false
        else
          log INFO "Start the scheduler to process the new DocSource ..." >>
          call (run_scheduler c) RunScheduler in
      if negb started then
        let* finished :=
          call (λ s, wait_for_docsource c s docsource 300)
               (WaitForDocsource docsource 300) in
        if negb finished then
          log WARNING "The document source has not finished processing yet." >>
          ret docsource
        else
          log INFO "The document source has finished processing." >>
          let docsource := set_source_status COMPLETED docsource in
          update_docsource docsource >>
          ret docsource
      else
        ret docsource
    else
      log INFO "[Status]Start the document process pipeline ..." >>
      try_except
        (let* (docsource, success_documents) :=
           _run_web_search_pipeline c exec_info chat_query_item docsource in
         log INFO ("Successfully processed "
                     ++ pretty (length success_documents) ++ " documents.") >>
         ret docsource)
        (λ e,
          log ERROR ("Failed to run the web search pipeline: " ++ exc_str e) >>
          let docsource := set_source_status FAILED docsource in
          update_docsource docsource >>
          raise e)
  end.

(** Running the step from a store, with an empty trace: what it did, what it
    returned or raised, and the store it left. *)
Definition run (c : Collaborators) (exec_info : ExecInfo)
    (search_keywords : option string) (s0 : Store) : World * Result DocSource :=
  run_step c exec_info search_keywords (mkWorld s0 []).

Definition trace_of (c : Collaborators) (exec_info : ExecInfo)
    (search_keywords : option string) (s0 : Store) : list Event :=
  trace (run c exec_info search_keywords s0).1.

Definition result_of (c : Collaborators) (exec_info : ExecInfo)
    (search_keywords : option string) (s0 : Store) : Result DocSource :=
  (run c exec_info search_keywords s0).2.

Definition store_after (c : Collaborators) (exec_info : ExecInfo)
    (search_keywords : option string) (s0 : Store) : Store :=
  store (run c exec_info search_keywords s0).1.

(** *** Predicates on traces *)

(** The timeout of a wait event is 300; other events pass. *)
Definition waits_300_seconds (ev : Event) : Prop :=
  match ev with
  | WaitForDocsource _ t _ => t = 300
  | _ => True
  end.

(** The step writes no docsource record. *)
Definition writes_no_docsource (tr : list Event) : Prop :=
  ∀ d, ¬ In (UpdateDocsource d) tr.

(** A stage of the synchronous pipeline raised [e]. *)
Definition pipeline_stage_raised (e : PyExc) (tr : list Event) : Prop :=
  (∃ q d, In (SearchAndScrape q d (Raise e)) tr)
  ∨ (∃ l, In (AdhocPipeline l (Raise e)) tr).

End SearchToDocsource.


(** ** flow/steps/step_plan_topic.py *)

Module PlanTopic.

Inductive PromptCategory : Type := PLANNING.
Inductive PromptType : Type := USER | SYSTEM.

(** core/strategy/schemas/prompt.py: PromptBase.  prompt_variables is a dict;
    its keys are read in the order they were written. *)
Record PromptBase : Type := mkPromptBase {
  prompt_category : PromptCategory;
  prompt_type : PromptType;
  prompt_template : string;
  prompt_variables : list (string * string)
}.

(** core/schemas/chat_query_metadata.py *)
Record ChatQueryMetadata : Type := mkChatQueryMetadata {
  intention : string;
  language : option string;
  entities : option (list string);
  keywords : option (list string)
}.

(** flow/schemas/article.py: TopicList, a list of (title, prompt). *)
Record TopicList : Type := mkTopicList { topics : list (string * string) }.

Definition COMPONENT_NAME : string := "plan_topic".

(** The double quote character of the JSON sample in the template. *)
Definition dq : string := String "034"%char EmptyString.

Definition topic_plan_template_str : string :=
  "
{{ context_presentation }}, {{ num_of_section_instruction }} 
from the content as the outline for {{ article_style }} for this subject:

{{ query }}

{{ content_instruction }}

Please create the title for each topic {{ output_lang_instruction }}
For each topic, also generate a prompt {{ search_lang_instruction }}
that can guide the LLM to find the most relevant information and write a detailed section
about it. 

{{ json_format_instruction }}

{
    " ++ dq ++ "topics" ++ dq ++ ": [
        { " ++ dq ++ "title" ++ dq ++ ": " ++ dq ++ "Topic 1" ++ dq ++ ", "
    ++ dq ++ "prompt" ++ dq ++ ": " ++ dq ++ "Prompt for topic 1" ++ dq ++ " },
        { " ++ dq ++ "title" ++ dq ++ ": " ++ dq ++ "Topic 2" ++ dq ++ ", "
    ++ dq ++ "prompt" ++ dq ++ ": " ++ dq ++ "Prompt for topic 2" ++ dq ++ " }
    ]
}

Here is the related content:
{{ content }}
".

(** The PromptBase that used_prompt_templates registers. *)
Definition topic_plan_prompt : PromptBase :=
  mkPromptBase PLANNING USER topic_plan_template_str
    [("context_presentation", "The context presentation.");
     ("num_of_section_instruction", "The instruction for the number of sections.");
     ("article_style", "The style of the article.");
     ("query", "The query.");
     ("content_instruction", "The instruction for the content.");
     ("output_lang_instruction", "The output language.");
     ("search_lang_instruction", "The search language.");
     ("json_format_instruction", "The instruction for the JSON format.");
     ("content", "The content.")].

(** StepPlanTopic.used_prompt_templates *)
Definition used_prompt_templates : gmap string PromptBase :=
  {[ COMPONENT_NAME := topic_plan_prompt ]}.

(** prompt_base.prompt_variables.keys() *)
Definition declared_variables (p : PromptBase) : list string :=
  (prompt_variables p).*1.

(** The arguments of api_caller.run_inference_call. *)
Record InferenceCall : Type := mkInferenceCall {
  system_prompt : string;
  user_prompt : string;
  need_json : bool;
  call_target : string;
  override_model_name : string
}.

Inductive Event : Type :=
| Log (level : LogLevel) (msg : string)
| RenderTemplate (template : string) (vars : gmap string string)
                 (answer : Result string)
| RunInferenceCall (req : InferenceCall) (answer : Result string)
| ModelValidateJson (response_str : string) (answer : Result TopicList).

Abbreviation World := (list Event).

(** The code the step calls and that lives in other files, with the option
    names and defaults it reads from flow_option and flow_option_items. *)
Record Collaborators : Type := mkCollaborators {
  FLOW_OPTION_NUM_OF_SECTIONS : string;
  FLOW_OPTION_ARTICLE_STYLE : string;
  FLOW_OPTION_PLANNING_MODEL : string;
  FLOW_OPTION_CONTENT_INSTRUCTION : string;
  (* flow_option_items.FOI_ARTICLE_STYLE().default_value *)
  article_style_default : string;
  (* flow_option_items.FOI_PLANNING_MODEL(exec_info.context).default_value *)
  planning_model_default : string;
  (* config_utils.get_int_option_value(options, option_name, default_value, logger) *)
  get_int_option_value : FlowOptions → string → option Z → Result (option Z);
  (* config_utils.get_str_option_value(options, option_name, default_value, logger) *)
  get_str_option_value : FlowOptions → string → string → Result string;
  (* flow_util.get_search_lang / get_output_lang (exec_info, query_metadata) *)
  get_search_lang : FlowOptions → option ChatQueryMetadata → Result string;
  get_output_lang : FlowOptions → option ChatQueryMetadata → Result string;
  (* flow_util.limit_content(content, model_name, display_logger) *)
  limit_content : string → string → Result string;
  (* prompt_util *)
  context_presentation : string;
  lang_instruction : string → string;
  json_format_instruction : string;
  (* template_eval.render_template(template, variables) *)
  render_template : string → gmap string string → Result string;
  (* exec_info.get_inference_caller().run_inference_call(...), first component *)
  run_inference_call : InferenceCall → Result string;
  (* TopicList.model_validate_json(response_str) *)
  model_validate_json : string → Result TopicList
}.

Record ExecInfo : Type := mkExecInfo {
  (* Optional: the search step tests it for None *)
  target_chat_query_item : option ChatQueryItem;
  exec_flow_options : FlowOptions
}.

Definition log (level : LogLevel) (msg : string) : M World unit :=
  modify (λ tr : World, (tr ++ [Log level msg])%list).

Definition call {A} (r : Result A) (ev : Result A → Event) : M World A :=
  λ tr : World, ((tr ++ [ev r])%list, r).

Definition pure_call {A} (r : Result A) : M World A := λ tr : World, (tr, r).

(** for var in prompt_base.prompt_variables.keys():
        if var not in template_vars:
            raise exceptions.MissingParametersException(missing_parameter=var) *)
Fixpoint require_prompt_variables (vars : list string)
    (template_vars : gmap string string) : M World unit :=
  match vars with
  | [] => ret tt
  | var :: rest =>
      match template_vars !! var with
      | None => raise (MissingParametersException var)
      | Some _ => require_prompt_variables rest template_vars
      end
  end.

(** _step_plan_topic_for_style from the check of the template variables on:
    the check, the rendering, the inference call and the parsing of the answer,
    for the template_vars built just before. *)
Definition check_render_and_infer (c : Collaborators) (prompt_base : PromptBase)
    (system_prompt planning_model : string)
    (template_vars : gmap string string) : M World TopicList :=
  require_prompt_variables (declared_variables prompt_base) template_vars >>
  let user_prompt_template := prompt_template prompt_base in
  let* user_prompt :=
    call (render_template c user_prompt_template template_vars)
         (RenderTemplate user_prompt_template template_vars) in
  let req := mkInferenceCall system_prompt user_prompt true "get_topic_list"
                             planning_model in
  let* response_str := call (run_inference_call c req) (RunInferenceCall req) in
  call (model_validate_json c response_str) (ModelValidateJson response_str).

(** The num_of_section_instruction chosen from num_of_sections. *)
Definition section_instruction (num_of_sections : option Z) : string :=
  match num_of_sections with
  | None => "generate a list of most relevant topics"
  | Some n =>
      if decide (n = 0) then "generate a list of most relevant topics"
      else if decide (n = 1) then "generate a topic"
      else "generate " ++ pretty n ++ " most relevant topics"
  end.

(** The dict literal template_vars. *)
Definition make_template_vars (context_presentation num_of_section_instruction
    article_style query content_instruction output_lang_instruction
    search_lang_instruction json_format_instruction content : string)
  : gmap string string :=
  list_to_map
    [("context_presentation", context_presentation);
     ("num_of_section_instruction", num_of_section_instruction);
     ("article_style", article_style);
     ("query", query);
     ("content_instruction", content_instruction);
     ("output_lang_instruction", output_lang_instruction);
     ("search_lang_instruction", search_lang_instruction);
     ("json_format_instruction", json_format_instruction);
     ("content", content)].

(** _step_plan_topic_for_style *)
Definition _step_plan_topic_for_style (c : Collaborators) (exec_info : ExecInfo)
    (query content : string) (num_of_sections : option Z)
    (query_metadata : option ChatQueryMetadata) : M World TopicList :=
  log INFO "[Status]Planning topics for research article." >>
  let num_of_section_instruction := section_instruction num_of_sections in
  let flow_options := exec_flow_options exec_info in
  let* article_style :=
    pure_call (get_str_option_value c flow_options (FLOW_OPTION_ARTICLE_STYLE c)
                 (article_style_default c)) in
  let* planning_model :=
    pure_call (get_str_option_value c flow_options (FLOW_OPTION_PLANNING_MODEL c)
                 (planning_model_default c)) in
  let* content_instruction :=
    pure_call (get_str_option_value c flow_options
                 (FLOW_OPTION_CONTENT_INSTRUCTION c)
                 "Please only include the topics related to the above subject most.") in
  log INFO ("Using " ++ planning_model ++ " to generate the topic for research.") >>
  let* search_lang := pure_call (get_search_lang c flow_options query_metadata) in
  let* output_lang := pure_call (get_output_lang c flow_options query_metadata) in
  let* content := pure_call (limit_content c content planning_model) in
  let system_prompt :=
    "You are an expert of writing " ++ article_style ++ " for the specified query." in
  (* StepPlanTopic.used_prompt_templates()[StepPlanTopic.COMPONENT_NAME] *)
  let* prompt_base :=
    match used_prompt_templates !! COMPONENT_NAME with
    | Some p => ret p
    | None => raise (KeyError COMPONENT_NAME)
    end in
  let template_vars :=
    make_template_vars (context_presentation c) num_of_section_instruction
      article_style query content_instruction (lang_instruction c output_lang)
      (lang_instruction c search_lang) (json_format_instruction c) content in
  check_render_and_infer c prompt_base system_prompt planning_model template_vars.

(** StepPlanTopic.run_step *)
Definition run_step (c : Collaborators) (exec_info : ExecInfo) (content : string)
    (query_metadata : option ChatQueryMetadata) : M World TopicList :=
  (* query = exec_info.target_chat_query_item.query_content *)
  let* query :=
    match target_chat_query_item exec_info with
    | Some item => ret (query_content item)
    | None =>
        raise (AttributeError
                 "'NoneType' object has no attribute 'query_content'")
    end in
  let* num_of_sections :=
    pure_call (get_int_option_value c (exec_flow_options exec_info)
                 (FLOW_OPTION_NUM_OF_SECTIONS c) None) in
  _step_plan_topic_for_style c exec_info query content num_of_sections
                             query_metadata.

End PlanTopic.


(** ** settings.py: the pipeline settings of SystemSettings *)

Module Settings.

(** SystemSettings, section 4.2 (pipeline related settings). *)
Record SystemSettings : Type := mkSystemSettings {
  DOCSOURCE_RETRY_RANGE_IN_HOURS : Z;
  scheduler_default_number_worker : Z;
  scheduler_base_delay_in_seconds : Z;
  scheduler_max_delay_in_seconds : Z;
  scheduler_max_retries : Z
}.

(** The Field(...) defaults. *)
Definition default_settings : SystemSettings :=
  {| DOCSOURCE_RETRY_RANGE_IN_HOURS := 24;
     scheduler_default_number_worker := 8;
     scheduler_base_delay_in_seconds := 10;
     scheduler_max_delay_in_seconds := 60;
     scheduler_max_retries := 3 |}.

End Settings.

(** ** The scheduler's retry policy *)

Module Scheduler.
Import Settings.

(** Modelled from the spec: the scheduler (leettools.eds.scheduler) is not
    among the modelled files, only its settings are.  Retry delay for attempt
    k equals min(base_delay * 2^(k-1), max_delay). *)
Definition retry_delay (settings : SystemSettings) (k : Z) : Z :=
  Z.min (scheduler_base_delay_in_seconds settings * 2 ^ (k - 1))
        (scheduler_max_delay_in_seconds settings).

Inductive RetryDecision : Type :=
| Resubmit (delay_in_seconds : Z)
| PermanentlyFailed.

(** Modelled from the spec: the scheduler's handling of a failed task is not
    among the modelled files.  A source exceeding the configured max-retries
    is marked permanently FAILED and is not re-submitted; otherwise it is
    retried after the backoff delay of its attempt. *)
Definition after_failure (settings : SystemSettings) (attempt_count : Z)
  : RetryDecision :=
  if decide (scheduler_max_retries settings < attempt_count)
  then PermanentlyFailed
  else Resubmit (retry_delay settings attempt_count).

(** The status the decision leaves on the source. *)
Definition status_after_failure (settings : SystemSettings) (attempt_count : Z)
  : DocSourceStatus * bool :=
  match after_failure settings attempt_count with
  | PermanentlyFailed => (FAILED, false)
  | Resubmit _ => (FAILED, true)
  end.

End Scheduler.


(** ** cli/kb/kb_add_url.py *)

Module AddUrl.

Record User : Type := mkUser { username : string; user_uuid : string }.

(** The fields of the Context that the command assigns. *)
Record Context : Type := mkContext {
  is_svc : bool;
  name : string;
  scheduler_is_running : bool;
  (* context.settings.DEFAULT_CHUNK_SIZE *)
  DEFAULT_CHUNK_SIZE : Z
}.

(** The docsource store and the document store behind the repo manager. *)
Record Stores : Type := mkStores {
  docsources : gmap string DocSource;
  documents : list Document
}.

Inductive Event : Type :=
| Log (level : LogLevel) (msg : string)
| Echo (msg : string)
| SetupOrgKbUser (answer : Result (Org * KnowledgeBase * User))
| CreateDocsource (dsc : DocSourceCreate) (answer : Result DocSource)
| ProcessDocsourcesAuto (docsources : list DocSource) (answer : Result unit)
| ProcessDocsourceManual (d : DocSource) (answer : Result unit)
| GetDocumentsForDocsource (d : DocSource) (found : list Document).

Record World : Type := mkWorld {
  context : Context;
  stores : Stores;
  trace : list Event
}.

(** The code the command calls and that lives in other files. *)
Record Collaborators : Type := mkCollaborators {
  (* setup_org_kb_user(context, org_name, kb_name, username) *)
  setup_org_kb_user :
    Context → Stores → option string → option string → option string →
    Stores * Result (Org * KnowledgeBase * User);
  (* int(chunk_size) *)
  int_of_str : string → Result Z;
  (* docsource_store.create_docsource(org, kb, docsource_create) *)
  create_docsource : Stores → DocSourceCreate → Stores * Result DocSource;
  (* pipeline_utils.process_docsources_auto(org, kb, docsources, context, logger) *)
  process_docsources_auto :
    Context → Stores → list DocSource → Stores * Result unit;
  (* pipeline_utils.process_docsource_manual(org, kb, docsource, context, logger) *)
  process_docsource_manual :
    Context → Stores → DocSource → Stores * Result unit
}.

Definition tab : string := String "009"%char EmptyString.
Definition nl : string := String "010"%char EmptyString.

Definition emit (ev : Event) : M World unit :=
  modify (λ w, mkWorld (context w) (stores w) (trace w ++ [ev])).

Definition log (level : LogLevel) (msg : string) : M World unit :=
  emit (Log level msg).

(** click.echo *)
Definition echo (msg : string) : M World unit := emit (Echo msg).

Definition set_context (f : Context → Context) : M World unit :=
  modify (λ w, mkWorld (f (context w)) (stores w) (trace w)).

(** A call to a collaborator that works on the stores, traced with its answer. *)
Definition call {A} (f : Context → Stores → Stores * Result A)
    (ev : Result A → Event) : M World A :=
  λ w, match f (context w) (stores w) with
       | (s1, r) => (mkWorld (context w) s1 (trace w ++ [ev r]), r)
       end.

Definition lift_result {A} (r : Result A) : M World A := λ w, (w, r).

(** The documents of a docsource in the document store. *)
Definition documents_of (d : DocSource) (s : Stores) : list Document :=
  filter (λ doc, doc_docsource_uuid doc = docsource_uuid d) (documents s).

(** document_store.get_documents_for_docsource(org, kb, docsource): the
    documents in the store that belong to the docsource. *)
Definition get_documents_for_docsource (d : DocSource) : M World (list Document) :=
  λ w, let found := documents_of d (stores w) in
       (mkWorld (context w) (stores w)
                (trace w ++ [GetDocumentsForDocsource d found]), Ok found).

(** add_url *)
Definition add_url (c : Collaborators) (url : string)
    (org_name kb_name username : option string) (chunk_size : option string)
    (scheduler_check : bool) : M World unit :=
  set_context (λ ctx, mkContext false (name ctx) (scheduler_is_running ctx)
                                (DEFAULT_CHUNK_SIZE ctx)) >>
  set_context (λ ctx, mkContext (is_svc ctx) "add_url_to_kb"
                                (scheduler_is_running ctx)
                                (DEFAULT_CHUNK_SIZE ctx)) >>
  (if negb scheduler_check then
     set_context (λ ctx, mkContext (is_svc ctx) (name ctx) true
                                   (DEFAULT_CHUNK_SIZE ctx))
   else ret tt) >>
  let* (org, kb, user) :=
    call (λ ctx s, setup_org_kb_user c ctx s org_name kb_name username)
         SetupOrgKbUser in
  (match chunk_size with
   | Some text =>
       let* n := lift_result (int_of_str c text) in
       set_context (λ ctx, mkContext (is_svc ctx) (name ctx)
                                     (scheduler_is_running ctx) n)
   | None => ret tt
   end) >>
  let docsource_create :=
    mkDocSourceCreate (Some (org_id org)) (kb_id kb) URL url url None in
  let* docsource :=
    call (λ _ s, create_docsource c s docsource_create)
         (CreateDocsource docsource_create) in
  (if auto_schedule kb then
     call (λ ctx s, process_docsources_auto c ctx s [docsource])
          (ProcessDocsourcesAuto [docsource])
   else
     call (λ ctx s, process_docsource_manual c ctx s docsource)
          (ProcessDocsourceManual docsource)) >>
  let* documents := get_documents_for_docsource docsource in
  match documents with
  | [] =>
      (* len(documents) == 0 *)
      log ERROR ("No documents were found for the URL: " ++ url)
  | _ :: _ :: _ =>
      (* len(documents) > 1 *)
      log ERROR ("More than one document was found for the URL: " ++ url)
  | [document] =>
      (* document = documents[0] *)
      echo ("org:" ++ tab ++ Schemas.org_name org ++ nl
            ++ "kb:" ++ tab ++ Schemas.kb_name kb ++ nl
            ++ "docource_id:" ++ tab ++ docsource_uuid docsource ++ nl
            ++ "docsink_id:" ++ tab ++ docsink_uuid document ++ nl
            ++ "document_uuid:" ++ tab ++ document_uuid document)
  end.

(** Running the command in a context and on stores, with an empty trace. *)
Definition run (c : Collaborators) (url : string)
    (org_name kb_name username chunk_size : option string)
    (scheduler_check : bool) (ctx : Context) (s0 : Stores) : World * Result unit :=
  add_url c url org_name kb_name username chunk_size scheduler_check
          (mkWorld ctx s0 []).

Definition trace_of (c : Collaborators) (url : string)
    (org_name kb_name username chunk_size : option string)
    (scheduler_check : bool) (ctx : Context) (s0 : Stores) : list Event :=
  trace (run c url org_name kb_name username chunk_size scheduler_check ctx s0).1.

Definition result_of (c : Collaborators) (url : string)
    (org_name kb_name username chunk_size : option string)
    (scheduler_check : bool) (ctx : Context) (s0 : Stores) : Result unit :=
  (run c url org_name kb_name username chunk_size scheduler_check ctx s0).2.

Definition stores_after (c : Collaborators) (url : string)
    (org_name kb_name username chunk_size : option string)
    (scheduler_check : bool) (ctx : Context) (s0 : Stores) : Stores :=
  stores (run c url org_name kb_name username chunk_size scheduler_check ctx s0).1.




(** A context as the ContextManager hands it out. *)
Definition fresh_context : Context := mkContext true "leettools" false 512.

(** Collaborators for one organisation and one knowledge base, whose
    pipelines store the documents [produced] for the docsource they are
    given. *)
Definition producing (auto : bool) (produced : DocSource → list Document)
  : Collaborators :=
  {| setup_org_kb_user := λ _ s _ _ _,
       (s, Ok (mkOrg "org-default-id" "org-default",
               mkKnowledgeBase "kb-1" "kb-default" auto,
               mkUser "admin" "user-1"));
     int_of_str := λ _, Ok 512;
     create_docsource := λ s dsc,
       let d := mkDocSource "ds-1" (dsc_kb_id dsc) (dsc_source_type dsc)
                            (dsc_uri dsc) (dsc_display_name dsc) CREATED
                            (dsc_ingest_config dsc) in
       (mkStores (<[docsource_uuid d := d]> (docsources s)) (documents s), Ok d);
     process_docsources_auto := λ _ s ds,
       (mkStores (docsources s) (documents s ++ concat (map produced ds)), Ok tt);
     process_docsource_manual := λ _ s d,
       (mkStores (docsources s) (documents s ++ produced d), Ok tt) |}.

(** A page that yields one document, and a page that yields none. *)
Definition one_page (d : DocSource) : list Document :=
  [mkDocument "doc-1" "sink-1" (docsource_uuid d)].


End AddUrl.
(** ** eds/api_caller/api_utils.py: run_inference_call_direct *)

Module ApiUtils.

(** A Python float: a finite number, an infinity, or NaN. *)
Inductive PyFloat : Type :=
| Finite (q : Q)
| PosInf
| NegInf
| NaN.

(** A value of the model_options dict or of a setting: None, an int, a float
    or a str.  A setting that SystemSettings.initialize took from the
    environment is a str, whatever the type of its field. *)
Inductive PyValue : Type :=
| PyNone
| PyInt (z : Z)
| PyFlt (x : PyFloat)
| PyStr (s : string).

Record Settings : Type := mkSettings {
  DEFAULT_TEMPERATURE : PyValue;
  DEFAULT_MAX_TOKENS : PyValue
}.

(** openai: CompletionUsage and the parts of a ChatCompletion that are read. *)
Record CompletionUsage : Type := mkCompletionUsage {
  total_tokens : Z;
  prompt_tokens : Z;
  completion_tokens : Z
}.

Record ChatCompletion : Type := mkChatCompletion {
  (* completion.usage, an Optional[CompletionUsage] *)
  usage : option CompletionUsage;
  (* completion.choices[0].message.content, an Optional[str], or what the
     expression raises *)
  message_content : Result (option string);
  (* completion.choices[0].message.parsed.model_dump_json(), or what the
     expression raises *)
  message_parsed_json : Result string
}.

Inductive ResponseFormat : Type :=
| JsonSchema
| JsonObject
| Text
| PydanticModel (model : string).

Inductive Endpoint : Type :=
| BetaChatCompletionsParse
| ChatCompletionsCreate.

(** The arguments of the vendor call. *)
Record VendorRequest : Type := mkVendorRequest {
  endpoint : Endpoint;
  model : string;
  system_content : string;
  user_content : string;
  temperature : PyValue;
  max_tokens : PyValue;
  response_format : ResponseFormat
}.

(** eds/usage/schemas/usage_api_call.py: UsageAPICallCreate *)
Record UsageAPICallCreate : Type := mkUsageAPICallCreate {
  user_uuid : string;
  api_provider : string;
  target_model_name : string;
  usage_endpoint : string;
  success : bool;
  total_token_count : Z;
  start_timestamp_in_ms : Z;
  end_timestamp_in_ms : Z;
  is_batch : bool;
  usage_system_prompt : string;
  usage_user_prompt : string;
  usage_call_target : option string;
  input_token_count : Z;
  output_token_count : Z
}.

Definition API_CALL_ENDPOINT_COMPLETION : string := "completion".

Inductive Event : Type :=
| Log (level : LogLevel) (msg : string)
| VendorCall (req : VendorRequest) (answer : Result ChatCompletion).

(** The usage store, the number of clock readings so far, and the trace. *)
Record World : Type := mkWorld {
  usage_store : list UsageAPICallCreate;
  clock_reads : nat;
  trace : list Event
}.

(** The code the function calls and that lives elsewhere. *)
Record Collaborators : Type := mkCollaborators {
  (* float(n) for an int: the float, or what float() raises *)
  float_of_int : Z → Result PyFloat;
  (* float(s) for a str: the float, a ValueError, or what else float() raises *)
  float_of_str : string → Result PyFloat;
  (* int(x) for a float: the int, or what int() raises *)
  int_of_float : PyFloat → Result Z;
  (* int(s) for a str: the int, a ValueError, or what else int() raises *)
  int_of_str : string → Result Z;
  (* str(x) of a float inside an f-string *)
  str_of_float : PyFloat → string;
  (* api_client.beta.chat.completions.parse / api_client.chat.completions.create *)
  vendor : VendorRequest → Result ChatCompletion;
  (* time_utils.cur_timestamp_in_ms(), by the number of earlier readings *)
  clock : nat → Z;
  (* re.sub of the json code fences by the empty string *)
  strip_json_fences : string → string
}.

(** The vendor calls of a trace, in order. *)
Definition vendor_calls (tr : list Event)
  : list (VendorRequest * Result ChatCompletion) :=
  omap (λ ev, match ev with
              | VendorCall req answer => Some (req, answer)
              | Log _ _ => None
              end) tr.

Definition log (level : LogLevel) (msg : string) : M World unit :=
  modify (λ w, mkWorld (usage_store w) (clock_reads w) (trace w ++ [Log level msg])).

(** time_utils.cur_timestamp_in_ms() *)
Definition cur_timestamp_in_ms (c : Collaborators) : M World Z :=
  λ w, (mkWorld (usage_store w) (S (clock_reads w)) (trace w),
        Ok (clock c (clock_reads w))).

(** usage_store.record_api_call(usage_api_call) *)
Definition record_api_call (u : UsageAPICallCreate) : M World unit :=
  modify (λ w, mkWorld (usage_store w ++ [u]) (clock_reads w) (trace w)).

Definition call_vendor (c : Collaborators) (req : VendorRequest)
  : M World ChatCompletion :=
  λ w, let answer := vendor c req in
       (mkWorld (usage_store w) (clock_reads w)
                (trace w ++ [VendorCall req answer]), answer).

(** The outcome of a computation, as a value. *)
Definition outcome {A} (m : M World A) : M World (Result A) :=
  λ w, match m w with (w1, r) => (w1, Ok r) end.

Definition lift_result {A} (r : Result A) : M World A := λ w, (w, r).

Definition str_of_optional (s : option string) : string := default "None" s.

(** float(v) and int(v) for a value that is not None. *)
Definition py_float (c : Collaborators) (v : PyValue) : Result PyFloat :=
  match v with
  | PyFlt x => Ok x
  | PyInt z => float_of_int c z
  | PyStr s => float_of_str c s
  | PyNone =>
      Raise (TypeError
               "float() argument must be a string or a real number, not 'NoneType'")
  end.

Definition py_int (c : Collaborators) (v : PyValue) : Result Z :=
  match v with
  | PyInt z => Ok z
  | PyFlt x => int_of_float c x
  | PyStr s => int_of_str c s
  | PyNone =>
      Raise (TypeError
               "int() argument must be a string, a bytes-like object or a real number, not 'NoneType'")
  end.

(** A value inside an f-string. *)
Definition format_value (c : Collaborators) (v : PyValue) : string :=
  match v with
  | PyNone => "None"
  | PyInt z => pretty z
  | PyFlt x => str_of_float c x
  | PyStr s => s
  end.

(** v < 0 and v > 2: False for NaN, a TypeError for a str and for None. *)
Definition less_than_0 (v : PyValue) : Result bool :=
  match v with
  | PyInt z => Ok (z <? 0)
  | PyFlt (Finite q) => Ok (negb (Qle_bool 0 q))
  | PyFlt NegInf => Ok true
  | PyFlt PosInf | PyFlt NaN => Ok false
  | PyStr _ =>
      Raise (TypeError "'<' not supported between instances of 'str' and 'int'")
  | PyNone =>
      Raise (TypeError
               "'<' not supported between instances of 'NoneType' and 'int'")
  end.

Definition greater_than_2 (v : PyValue) : Result bool :=
  match v with
  | PyInt z => Ok (2 <? z)
  | PyFlt (Finite q) => Ok (negb (Qle_bool q 2))
  | PyFlt PosInf => Ok true
  | PyFlt NegInf | PyFlt NaN => Ok false
  | PyStr _ =>
      Raise (TypeError "'>' not supported between instances of 'str' and 'int'")
  | PyNone =>
      Raise (TypeError
               "'>' not supported between instances of 'NoneType' and 'int'")
  end.

(** temperature < 0 or temperature > 2 *)
Definition out_of_range (v : PyValue) : Result bool :=
  match less_than_0 v with
  | Ok true => Ok true
  | Ok false => greater_than_2 v
  | Raise e => Raise e
  end.

(** v == -1 *)
Definition equals_minus_1 (v : PyValue) : bool :=
  match v with
  | PyInt z => bool_decide (z = -1)
  | PyFlt (Finite q) => Qeq_bool q (-1)
  | _ => false
  end.

(** run_inference_call_direct, the temperature block: the option converted
    by float(), the default when the option is missing or float() raises
    ValueError; the default again when the value is out of range.  What else
    float() raises, and the TypeError of the comparison, leave the function. *)
Definition resolve_temperature (c : Collaborators) (settings : Settings)
    (model_options : gmap string PyValue) : M World PyValue :=
  let* temperature :=
    match model_options !! "temperature" with
    | None | Some PyNone => ret (DEFAULT_TEMPERATURE settings)
    | Some v =>
        match py_float c v with
        | Ok x => ret (PyFlt x)
        | Raise (ValueError e) =>
            log WARNING ("Error in parsing temperature " ++ format_value c v
                           ++ ": " ++ e) >>
            ret (DEFAULT_TEMPERATURE settings)
        | Raise e => raise e
        end
    end in
  let* out := lift_result (out_of_range temperature) in
  if out then
    log ERROR ("Invalid temperature " ++ format_value c temperature
                 ++ " out of range [0, 2]. Using default.") >>
    ret (DEFAULT_TEMPERATURE settings)
  else ret temperature.

(** run_inference_call_direct, the max_tokens block. *)
Definition resolve_max_tokens (c : Collaborators) (settings : Settings)
    (model_options : gmap string PyValue) : M World PyValue :=
  match model_options !! "max_tokens" with
  | None | Some PyNone =>
      if equals_minus_1 (DEFAULT_MAX_TOKENS settings) then ret PyNone
      else ret (DEFAULT_MAX_TOKENS settings)
  | Some (PyStr EmptyString) => ret PyNone
  | Some v =>
      match py_int c v with
      | Ok n => ret (PyInt n)
      | Raise (ValueError e) =>
          log ERROR ("Error in parsing max tokens " ++ format_value c v
                       ++ ": " ++ e) >>
          ret PyNone
      | Raise e => raise e
      end
  end.

(** completion.usage.<field>: an AttributeError when usage is None. *)
Definition usage_of (x : ChatCompletion) : Result CompletionUsage :=
  match usage x with
  | Some u => Ok u
  | None =>
      Raise (AttributeError
               "'NoneType' object has no attribute 'total_tokens'")
  end.

(** run_inference_call_direct, the finally block. *)
Definition record_usage (c : Collaborators) (user api_provider_name
    model_name system_prompt user_prompt : string) (call_target : option string)
    (start_timestamp_in_ms : Z) (completion : option ChatCompletion)
  : M World unit :=
  let* end_timestamp_in_ms := cur_timestamp_in_ms c in
  let* counts :=
    match completion with
    | Some x =>
        let* u := lift_result (usage_of x) in
        ret (true, total_tokens u, prompt_tokens u, completion_tokens u)
    | None => ret (false, 0, -1, -1)
    end in
  match counts with
  | (success, total_token_count, input_token_count, output_token_count) =>
      record_api_call
        (mkUsageAPICallCreate user api_provider_name model_name
           API_CALL_ENDPOINT_COMPLETION success total_token_count
           start_timestamp_in_ms end_timestamp_in_ms false
           system_prompt user_prompt call_target
           input_token_count output_token_count)
  end.

(** run_inference_call_direct, after the try statement: the string that is
    returned with the completion. *)
Definition response_of (c : Collaborators) (need_json use_parsed : bool)
    (call_target : option string) (completion : option ChatCompletion)
  : M World (option string * ChatCompletion) :=
  match completion with
  | None =>
      raise (UnexpectedOperationFailureException
               ("OpenAI completion for " ++ str_of_optional call_target)
               "Completion is None.")
  | Some completion =>
      if use_parsed then
        let* response_str := lift_result (message_parsed_json completion) in
        ret (Some response_str, completion)
      else
        let* response_str := lift_result (message_content completion) in
        log DEBUG ("Response from inference call" ++ String "010"%char EmptyString
                     ++ ": " ++ str_of_optional response_str) >>
        if need_json then
          match response_str with
          | None => raise (TypeError "expected string or bytes-like object")
          | Some s =>
              let response_str := strip_json_fences c s in
              log DEBUG ("Clean up: " ++ response_str) >>
              ret (Some response_str, completion)
          end
        else
          ret (response_str, completion)
  end.

(** run_inference_call_direct *)
Definition run_inference_call_direct (c : Collaborators) (settings : Settings)
    (user : string) (api_provider_name model_name : string)
    (model_options : gmap string PyValue)
    (system_prompt user_prompt : string) (need_json : bool)
    (call_target : option string) (response_pydantic_model : option string)
  : M World (option string * ChatCompletion) :=
  let* temperature := resolve_temperature c settings model_options in
  let* max_tokens := resolve_max_tokens c settings model_options in
  let use_parsed := need_json && bool_decide (is_Some response_pydantic_model) in
  let format_dict :=
    if need_json then
      if use_parsed then JsonSchema else JsonObject
    else Text in
  log DEBUG ("Final system prompt(first 500 chars): "
               ++ String.substring 0 (8 * 1000) system_prompt) >>
  log DEBUG ("Final user prompt (first 500 chars): "
               ++ String.substring 0 (8 * 1000) user_prompt) >>
  let* start_timestamp_in_ms := cur_timestamp_in_ms c in
  let req :=
    if use_parsed then
      mkVendorRequest BetaChatCompletionsParse model_name system_prompt
        user_prompt temperature max_tokens
        (PydanticModel (default EmptyString response_pydantic_model))
    else
      mkVendorRequest ChatCompletionsCreate model_name system_prompt
        user_prompt temperature max_tokens format_dict in
  (* completion = None; then, inside the try, completion = the vendor's answer *)
  let* answer := outcome (call_vendor c req) in
  let completion :=
    match answer with
    | Ok x => Some x
    | Raise _ => None
    end in
  try_finally
    (let* x := lift_result answer in
     let* u := lift_result (usage_of x) in
     log INFO ("(" ++ pretty (total_tokens u) ++ ") tokens used for ("
                 ++ str_of_optional call_target ++ ")."))
    (record_usage c user api_provider_name model_name system_prompt user_prompt
       call_target start_timestamp_in_ms completion) >>
  response_of c need_json use_parsed call_target completion.

End ApiUtils.


(** ** Concrete collaborators and inputs, for running the step *)

Module Scenarios.
Import SearchToDocsource.

(** The record a store creates from a DocSourceCreate. *)
Definition created_from (uuid : string) (dsc : DocSourceCreate) : DocSource :=
  mkDocSource uuid (dsc_kb_id dsc) (dsc_source_type dsc) (dsc_uri dsc)
              (dsc_display_name dsc) CREATED (dsc_ingest_config dsc).

(** Collaborators that give fixed answers: the store keeps what it creates,
    the scheduler, the wait, the search and the pipeline answer as told. *)
Definition answering (sched wait : Result bool)
    (search : Result (option (list DocSinkCreate)))
    (adhoc : Result (list Document)) : Collaborators :=
  {| get_retriever_type := λ fo, Ok (default "google" (fo !! "retriever_type"));
     get_common_search_paras := λ _, Ok (0, 10);
     now_strftime := "2025-01-01-00-00-00";
     create_docsource := λ s dsc,
       let d := created_from "ds-1" dsc in (<[docsource_uuid d := d]> s, Ok d);
     run_scheduler := λ s, (s, sched);
     wait_for_docsource := λ s _ _, (s, wait);
     create_docsinks_by_search_and_scrape := λ s _ _ _, (s, search);
     run_adhoc_pipeline_for_docsinks := λ s _, (s, adhoc) |}.

Definition the_query : ChatQueryItem :=
  mkChatQueryItem "rocq prover" "chat-1" "query-1" (mkChatQueryOptions None).

Definition exec_info_with (auto running : bool) : ExecInfo :=
  mkExecInfo (mkOrg "org-default-id" "org-default")
             (mkKnowledgeBase "kb-1" "kb-default" auto) "admin" running
             (Some the_query) (mkChatQueryOptions None).

(** The record the store of [answering] creates for [the_query]. *)
Definition the_docsource : DocSource :=
  mkDocSource "ds-1" "kb-1" SEARCH
    "search://google?q=rocq prover&date_range=0&max_results=10&ts=2025-01-01-00-00-00"
    "rocq prover" CREATED
    (Some (mkIngestConfig ∅ [("chat_id", "chat-1"); ("query_id", "query-1")])).

(** A scheduler is already running and the source is still in process when
    the wait gives up. *)
Definition still_processing : Collaborators :=
  answering (Ok false) (Ok false) (Ok None) (Ok []).

(** A scheduler is already running and finishes the source during the wait. *)
Definition finished_in_time : Collaborators :=
  answering (Ok false) (Ok true) (Ok None) (Ok []).

(** The web search raises. *)
Definition search_fails : Collaborators :=
  answering (Ok false) (Ok false)
            (Raise (RaisedByCollaborator "web_searcher" "connection refused"))
            (Ok []).

(** The web search finds nothing. *)
Definition search_finds_nothing : Collaborators :=
  answering (Ok false) (Ok false) (Ok (Some [])) (Ok []).

End Scenarios.


(** ** Python results for the embedder, the settings and the clients

    These files raise exceptions of their own (ConfigValueException,
    UnboundLocalError, TypeError, EnvironmentError and plain Exception); a
    computation over a world returns a value or raises one of them. *)

Module PyMore.

Inductive Exc : Type :=
| ConfigValueException (config_item msg : string)
| UnboundLocalError (name : string)
| KeyError (key : string)
| TypeError (msg : string)
| EnvironmentError (msg : string)
| Exception (msg : string)
| Raised (who msg : string).

Inductive Outcome (A : Type) : Type :=
| Returns (a : A)
| Raises (e : Exc).
Arguments Returns {A} a.
Arguments Raises {A} e.

Definition E (W A : Type) : Type := W → W * Outcome A.

Definition ret {W A} (a : A) : E W A := λ w, (w, Returns a).
Definition raise {W A} (e : Exc) : E W A := λ w, (w, Raises e).
Definition bind {W A B} (c : E W A) (k : A → E W B) : E W B :=
  λ w, match c w with
       | (w1, Returns a) => k a w1
       | (w1, Raises e) => (w1, Raises e)
       end.

(** try: c except Exception as e: h e *)
Definition try_except {W A} (c : E W A) (h : Exc → E W A) : E W A :=
  λ w, match c w with
       | (w1, Returns a) => (w1, Returns a)
       | (w1, Raises e) => h e w1
       end.

(** try: c finally: f.  The finally block runs on both exits; when it raises
    itself, its exception replaces the pending one. *)
Definition try_finally {W A} (c : E W A) (f : E W unit) : E W A :=
  λ w, match c w with
       | (w1, r) =>
           match f w1 with
           | (w2, Returns _) => (w2, r)
           | (w2, Raises e) => (w2, Raises e)
           end
       end.

Definition modify {W} (f : W → W) : E W unit := λ w, (f w, Returns tt).

(** An expression that returns or raises without touching the world. *)
Definition lift {W A} (r : Outcome A) : E W A := λ w, (w, r).

End PyMore.

Declare Scope more_scope.
Delimit Scope more_scope with more.
Notation "'let*' x ':=' c 'in' k" := (PyMore.bind c (λ x, k))
  (at level 10, x pattern, c at level 100, k at level 200,
   format "'[v' 'let*'  x  ':='  c  'in' '/' k ']'") : more_scope.
Notation "c '>>' k" := (PyMore.bind c (λ _, k))
  (at level 100, k at level 200, right associativity,
   format "'[v' c  '>>' '/' k ']'") : more_scope.


(** ** More ways to read a trace of the search-to-docsource step *)

Module SearchToDocsourceTraces.
Import SearchToDocsource.

(** The create_docsource calls of a trace, in order. *)
Definition creations (tr : list Event)
  : list (DocSourceCreate * Result DocSource) :=
  omap (λ ev, match ev with
              | CreateDocsource dsc answer => Some (dsc, answer)
              | _ => None
              end) tr.

(** Neither the scheduler nor the wait, the search or the pipeline was called. *)
Definition calls_no_service (tr : list Event) : Prop :=
  (∀ a, ¬ In (RunScheduler a) tr)
  ∧ (∀ d t a, ¬ In (WaitForDocsource d t a) tr)
  ∧ (∀ q d a, ¬ In (SearchAndScrape q d a) tr)
  ∧ (∀ l a, ¬ In (AdhocPipeline l a) tr).

(** The step waited for no docsource. *)
Definition waits_for_nothing (tr : list Event) : Prop :=
  ∀ d t a, ¬ In (WaitForDocsource d t a) tr.

(** The scheduler or the wait raised [e]. *)
Definition scheduling_raised (e : PyExc) (tr : list Event) : Prop :=
  In (RunScheduler (Raise e)) tr
  ∨ (∃ d t, In (WaitForDocsource d t (Raise e)) tr).

(** Collaborators like [Scenarios.answering], with a scheduler that the step
    starts itself. *)
Definition the_other_query : ChatQueryItem :=
  mkChatQueryItem "what is a proof assistant" "chat-2" "query-2"
                  (mkChatQueryOptions None).

Definition exec_info_for (item : option ChatQueryItem) (auto running : bool)
  : ExecInfo :=
  mkExecInfo (mkOrg "org-default-id" "org-default")
             (mkKnowledgeBase "kb-1" "kb-default" auto) "admin" running
             item (mkChatQueryOptions None).

End SearchToDocsourceTraces.


(** ** More ways to read a run of the add_url command *)

Module AddUrlTraces.
Import AddUrl.

Definition context_after (c : Collaborators) (url : string)
    (org_name kb_name username chunk_size : option string)
    (scheduler_check : bool) (ctx : Context) (s0 : Stores) : Context :=
  context (run c url org_name kb_name username chunk_size scheduler_check ctx s0).1.

(** A pipeline raised [e]. *)
Definition pipeline_raised (e : PyExc) (tr : list Event) : Prop :=
  (∃ d, In (ProcessDocsourceManual d (Raise e)) tr)
  ∨ (∃ ds, In (ProcessDocsourcesAuto ds (Raise e)) tr).

(** Nothing was printed and no error line was logged. *)
Definition reports_nothing (tr : list Event) : Prop :=
  (∀ msg, ¬ In (Echo msg) tr) ∧ (∀ msg, ¬ In (Log ERROR msg) tr).

(** The collaborators of [producing], with an int() that accepts no text. *)
Definition rejecting_chunk_size : Collaborators :=
  {| setup_org_kb_user := setup_org_kb_user (producing false one_page);
     int_of_str := λ text,
       Raise (ValueError ("invalid literal for int() with base 10: " ++ text));
     create_docsource := create_docsource (producing false one_page);
     process_docsources_auto := process_docsources_auto (producing false one_page);
     process_docsource_manual := process_docsource_manual (producing false one_page) |}.

(** The collaborators of [producing], with pipelines that raise. *)
Definition failing_pipeline (auto : bool) : Collaborators :=
  {| setup_org_kb_user := setup_org_kb_user (producing auto one_page);
     int_of_str := int_of_str (producing auto one_page);
     create_docsource := create_docsource (producing auto one_page);
     process_docsources_auto := λ _ s _,
       (s, Raise (RaisedByCollaborator "pipeline" "fetch failed"));
     process_docsource_manual := λ _ s _,
       (s, Raise (RaisedByCollaborator "pipeline" "fetch failed")) |}.

End AddUrlTraces.


(** ** More ways to read a run of run_inference_call_direct *)

Module ApiUtilsTraces.
Import ApiUtils.

(** A computation that writes no usage entry, does not read the clock and
    calls no vendor, whether it returns or raises. *)
Definition silent {A} (m : M World A) : Prop :=
  ∀ w, usage_store (m w).1 = usage_store w
       ∧ clock_reads (m w).1 = clock_reads w
       ∧ vendor_calls (trace (m w).1) = vendor_calls (trace w).

(** One of the two option blocks raised [e]: the temperature block, or,
    after it, the max_tokens block. *)
Definition option_block_raised (c : Collaborators) (settings : Settings)
    (model_options : gmap string PyValue) (w : World) (e : PyExc) : Prop :=
  (resolve_temperature c settings model_options w).2 = Raise e
  ∨ ∃ w1 t, resolve_temperature c settings model_options w = (w1, Ok t)
            ∧ (resolve_max_tokens c settings model_options w1).2 = Raise e.

(** A number between 0 and 2. *)
Definition in_range (v : PyValue) : Prop :=
  match v with
  | PyInt z => 0 ≤ z ≤ 2
  | PyFlt (Finite q) => (0 <= q)%Q ∧ (q <= 2)%Q
  | _ => False
  end.

(** Whether the structured-output endpoint is used: need_json and a response
    model. *)
Definition uses_parse (need_json : bool) (response_pydantic_model : option string)
  : bool :=
  need_json && bool_decide (is_Some response_pydantic_model).

(** The response format a request is expected to carry. *)
Definition expected_format (need_json : bool)
    (response_pydantic_model : option string) : ResponseFormat :=
  match need_json, response_pydantic_model with
  | true, Some m => PydanticModel m
  | true, None => JsonObject
  | false, _ => Text
  end.

(** The string a call is expected to return for a completion, or what
    reading it raises. *)
Definition expected_response (c : Collaborators) (need_json : bool)
    (response_pydantic_model : option string) (x : ChatCompletion)
  : Result (option string) :=
  match need_json, response_pydantic_model with
  | true, Some _ =>
      match message_parsed_json x with
      | Ok s => Ok (Some s)
      | Raise e => Raise e
      end
  | true, None =>
      match message_content x with
      | Ok (Some s) => Ok (Some (strip_json_fences c s))
      | Ok None => Raise (TypeError "expected string or bytes-like object")
      | Raise e => Raise e
      end
  | false, _ => message_content x
  end.

(** The request a call is expected to send, for the temperature and the
    max_tokens that the option blocks resolved. *)
Definition expected_request (model_name system_prompt user_prompt : string)
    (need_json : bool) (response_pydantic_model : option string)
    (t mt : PyValue) : VendorRequest :=
  mkVendorRequest
    (if uses_parse need_json response_pydantic_model
     then BetaChatCompletionsParse else ChatCompletionsCreate)
    model_name system_prompt user_prompt t mt
    (expected_format need_json response_pydantic_model).

(** The usage entry of a completion that carries the usage [u], and the
    entry of a vendor call that raised. *)
Definition success_entry (user api_provider_name model_name : string)
    (system_prompt user_prompt : string) (call_target : option string)
    (started ended : Z) (u : CompletionUsage) : UsageAPICallCreate :=
  mkUsageAPICallCreate user api_provider_name model_name
    API_CALL_ENDPOINT_COMPLETION true (total_tokens u)
    started ended false system_prompt user_prompt call_target
    (prompt_tokens u) (completion_tokens u).

Definition failure_entry (user api_provider_name model_name : string)
    (system_prompt user_prompt : string) (call_target : option string)
    (started ended : Z) : UsageAPICallCreate :=
  mkUsageAPICallCreate user api_provider_name model_name
    API_CALL_ENDPOINT_COMPLETION false 0
    started ended false system_prompt user_prompt call_target (-1) (-1).

(** A run from a world whose trace is empty. *)
Definition run_fresh (c : Collaborators) (settings : Settings)
    (user api_provider_name model_name : string)
    (model_options : gmap string PyValue)
    (system_prompt user_prompt : string) (need_json : bool)
    (call_target response_pydantic_model : option string)
    (entries : list UsageAPICallCreate) (reads : nat)
  : World * Result (option string * ChatCompletion) :=
  run_inference_call_direct c settings user api_provider_name model_name
    model_options system_prompt user_prompt need_json call_target
    response_pydantic_model (mkWorld entries reads []).

(** float() and int() on the texts of the examples: nan is a float, other
    texts are no numbers. *)
Definition answering (answer : Result ChatCompletion) : Collaborators :=
  {| float_of_int := λ z, Ok (Finite (inject_Z z));
     float_of_str := λ s,
       if decide (s = "nan") then Ok NaN
       else Raise (ValueError ("could not convert string to float: " ++ s));
     int_of_float := λ x,
       match x with
       | Finite q => Ok (Z.quot (Qnum q) (Z.pos (Qden q)))
       | _ => Raise (ValueError "cannot convert float NaN to integer")
       end;
     int_of_str := λ s,
       Raise (ValueError ("invalid literal for int() with base 10: " ++ s));
     str_of_float := λ _, "0.0";
     vendor := λ _, answer;
     clock := λ n, 1000 + 7 * Z.of_nat n;
     strip_json_fences := λ s, s |}.

(** A vendor whose completions carry 12 + 30 = 42 tokens, a vendor whose
    completions carry no usage, and a vendor that is down. *)
Definition vendor_up : Collaborators :=
  answering (Ok (mkChatCompletion (Some (mkCompletionUsage 42 12 30))
                   (Ok (Some "{}")) (Ok "{}"))).

Definition completion_without_usage : ChatCompletion :=
  mkChatCompletion None (Ok (Some "{}")) (Ok "{}").

Definition vendor_without_usage : Collaborators :=
  answering (Ok completion_without_usage).

Definition vendor_down : Collaborators :=
  answering (Raise (RaisedByCollaborator "openai" "APIConnectionError")).

(** The settings as the class declares them, and as they are after
    initialize has read EDS_DEFAULT_TEMPERATURE=0.2 from the environment. *)
Definition declared_settings : Settings :=
  mkSettings (PyFlt (Finite 0)) (PyInt (-1)).

Definition settings_from_environment : Settings :=
  mkSettings (PyStr "0.2") (PyInt (-1)).

End ApiUtilsTraces.


(** ** Tactics: symbolic execution of the embedded functions *)

Module Tactics.

(** Split on the innermost test or answer of the goal. *)
Ltac case_step :=
  match goal with
  | |- context [match ?x with _ => _ end] =>
      lazymatch x with
      | context [match _ with _ => _ end] => fail
      | _ => destruct x eqn:?
      end
  end.

(** An event known to be in a listed trace: one case per position. *)
Ltac in_cases H :=
  repeat (destruct H as [H | H]; [try discriminate H | ]); try contradiction.

(** An event to be found in a listed trace. *)
Ltac pick_event := solve [ repeat first [ left; reflexivity | right ] ].

(** The search-to-docsource step: unfold the monad, then split on every answer
    a collaborator can give and on every test of the code. *)
Ltac unfold_step :=
  cbv beta iota zeta delta
    [SearchToDocsource.trace_of SearchToDocsource.result_of
     SearchToDocsource.store_after SearchToDocsource.run
     SearchToDocsource.run_step SearchToDocsource._run_web_search_pipeline
     SearchToDocsource._create_docsrc_for_search
     SearchToDocsource.update_docsource SearchToDocsource.call
     SearchToDocsource.log SearchToDocsource.emit SearchToDocsource.lift_result
     Py.bind Py.ret Py.raise Py.try_except Py.modify
     SearchToDocsource.store SearchToDocsource.trace fst snd].

Ltac step_paths := unfold_step; repeat (case_step; unfold_step); cbn [app In].

(** The add_url command, in the same way. *)
Ltac unfold_command :=
  cbv beta iota zeta delta
    [AddUrl.trace_of AddUrl.result_of AddUrl.stores_after AddUrl.run AddUrl.add_url
     AddUrl.get_documents_for_docsource AddUrl.call AddUrl.set_context
     AddUrl.echo AddUrl.log AddUrl.emit AddUrl.lift_result
     Py.bind Py.ret Py.raise Py.modify
     AddUrl.context AddUrl.stores AddUrl.trace fst snd
     AddUrl.is_svc AddUrl.name AddUrl.scheduler_is_running
     AddUrl.DEFAULT_CHUNK_SIZE].

Ltac command_paths :=
  unfold_command; repeat (case_step; unfold_command); cbn [app In].

End Tactics.


(** ** More ways to read a trace of the topic planning step *)

Module PlanTopicTraces.
Import PlanTopic.

(** The calls of a trace, in order: the trace without its log lines. *)
Definition calls (tr : list Event) : list Event :=
  omap (λ ev, match ev with
              | Log _ _ => None
              | _ => Some ev
              end) tr.

(** The inference calls of a trace, in order. *)
Definition inference_calls (tr : list Event)
  : list (InferenceCall * Result string) :=
  omap (λ ev, match ev with
              | RunInferenceCall req answer => Some (req, answer)
              | _ => None
              end) tr.

(** The trace and the result of a run of the step that starts with an empty
    trace. *)
Definition trace_of {A} (m : M World A) : list Event := (m []).1.
Definition result_of {A} (m : M World A) : Result A := (m []).2.

(** Collaborators that read options from the flow options, fall back on the
    default, render by listing the query and the content, and answer the
    inference call and the validation as given. *)
Definition answering (inference : Result string) (validation : Result TopicList)
  : Collaborators :=
  mkCollaborators "num_of_sections" "article_style" "planning_model"
    "content_instruction" "research report" "gpt-4o-mini"
    (λ _ _ d, Ok d)
    (λ options name d, Ok (default d (options !! name)))
    (λ _ _, Ok "en") (λ _ _, Ok "en")
    (λ content _, Ok content)
    "Given the following content" (λ lang, "in " ++ lang) "Return JSON"
    (λ _ vars, Ok (default "" (vars !! "query") ++ ": "
                   ++ default "" (vars !! "content")))
    (λ _, inference)
    (λ _, validation).

Definition the_exec_info : ExecInfo :=
  mkExecInfo (Some (mkChatQueryItem "what is rocq" "chat-1" "query-1"
                                    (mkChatQueryOptions None)))
             {[ "planning_model" := "o1-mini" ]}.

(** A collaborator of the step answered a call with the exception [e]: one of
    the option lookups, a language lookup or the content limit, none of which
    is traced. *)
Definition lookup_raised (c : Collaborators) (exec_info : ExecInfo)
    (content : string) (query_metadata : option ChatQueryMetadata)
    (e : PyExc) : Prop :=
  let options := exec_flow_options exec_info in
  get_int_option_value c options (FLOW_OPTION_NUM_OF_SECTIONS c) None = Raise e
  ∨ get_str_option_value c options (FLOW_OPTION_ARTICLE_STYLE c)
      (article_style_default c) = Raise e
  ∨ get_str_option_value c options (FLOW_OPTION_PLANNING_MODEL c)
      (planning_model_default c) = Raise e
  ∨ get_str_option_value c options (FLOW_OPTION_CONTENT_INSTRUCTION c)
      "Please only include the topics related to the above subject most."
    = Raise e
  ∨ get_search_lang c options query_metadata = Raise e
  ∨ get_output_lang c options query_metadata = Raise e
  ∨ (∃ planning_model,
       get_str_option_value c options (FLOW_OPTION_PLANNING_MODEL c)
         (planning_model_default c) = Ok planning_model
       ∧ limit_content c content planning_model = Raise e).

Definition two_topics : TopicList :=
  mkTopicList [("History", "Write about the history");
               ("Tactics", "Write about the tactics")].

End PlanTopicTraces.


(** ** eds/str_embedder/_impl/dense_embedder_qwen.py *)

Module DenseEmbedderQwen.
Import PyMore.
Local Open Scope more_scope.

(** A value of kb.dense_embedder_params, a Dict[str, Any]. *)
Inductive ParamValue : Type := PNone | PStr (s : string) | PInt (n : Z).

(** dashscope.TextEmbedding.Models *)
Inductive DashscopeModel : Type := text_embedding_v1 | text_embedding_v2.

Definition EMBEDDER_MODEL_MAPPNG : gmap string DashscopeModel :=
  {[ "text-embedding-v1" := text_embedding_v1;
     "text-embedding-v2" := text_embedding_v2 ]}.

Abbreviation Embedding := (list Q).

(** HTTPStatus.OK *)
Definition HTTPStatus_OK : Z := 200.

(** What dashscope.TextEmbedding.call answers, as far as embed reads it; the
    two subscript expressions raise when the response lacks the entry. *)
Record Response : Type := mkResponse {
  status_code : Z;
  (* resp["output"]["embeddings"][0]["embedding"] *)
  first_embedding : Outcome Embedding;
  (* resp["usage"]["total_tokens"] *)
  usage_total_tokens : Outcome Z;
  (* str(resp) *)
  resp_str : string
}.

(** UsageAPICallCreate, with the keyword arguments of embed. *)
Record UsageAPICallCreate : Type := mkUsageAPICallCreate {
  usage_user_uuid : string;
  api_provider : string;
  target_model_name : ParamValue;
  endpoint : string;
  success : bool;
  total_token_count : Z;
  start_timestamp_in_ms : Z;
  end_timestamp_in_ms : Z;
  is_batch : bool;
  system_prompt : string;
  user_prompt : string;
  call_target : string;
  input_token_count : Z;
  output_token_count : Z
}.

Inductive Event : Type :=
| Log (level : LogLevel) (msg : string)
| DashscopeCall (model : DashscopeModel) (api_key : option string)
                (input : string) (answer : Outcome Response).

(** The usage store, the number of clock readings so far, and the trace. *)
Record World : Type := mkWorld {
  usage_store : list UsageAPICallCreate;
  clock_reads : nat;
  trace : list Event
}.

(** The inputs sent to dashscope, in order. *)
Definition dashscope_inputs (tr : list Event) : list string :=
  omap (λ ev, match ev with
              | DashscopeCall _ _ input _ => Some input
              | Log _ _ => None
              end) tr.

(** The names and the code that live in other files. *)
Record Collaborators : Type := mkCollaborators {
  (* eds/str_embedder/dense_embedder.py *)
  DENSE_EMBED_PARAM_MODEL : string;
  DENSE_EMBED_PARAM_DIM : string;
  (* eds/usage/schemas/usage_api_call.py *)
  API_CALL_ENDPOINT_EMBED : string;
  (* dashscope.TextEmbedding.call(model, api_key, input), by the number of
     earlier calls *)
  dashscope_call : nat → DashscopeModel → option string → string
                   → Outcome Response;
  (* time_utils.cur_timestamp_in_ms(), by the number of earlier readings *)
  clock : nat → Z;
  (* str(e) inside an f-string *)
  str_of_exc : Exc → string
}.

(** The attributes of a DenseEmbedderQwen that its methods read. *)
Record Embedder : Type := mkEmbedder {
  user_uuid : string;
  QWEN_API_PROVIDER_NAME : string;
  DASHSCORE_API_KEY : option string;
  model_name : ParamValue;
  QWEN_EMBEDDING_MODEL_DIMENSION : ParamValue
}.

(** DenseEmbedderQwen.__init__, for os.environ, the uuid of the user and
    kb.dense_embedder_params. *)
Definition __init__ (c : Collaborators) (environ : gmap string string)
    (uuid : string) (params : option (gmap string ParamValue))
  : Outcome Embedder :=
  let provider := default "aliyuncs" (environ !! "QWEN_API_PROVIDER_NAME") in
  let api_key := environ !! "DEFAULT_DASHSCOPE_API_KEY" in
  match params ≫= (λ p, p !! DENSE_EMBED_PARAM_MODEL c) with
  | None =>
      Returns (mkEmbedder uuid provider api_key
                 (PStr (default "text-embedding-v2"
                          (environ !! "DEFAULT_EMBEDDING_QWEN_MODEL")))
                 (PInt 1536))
  | Some model =>
      match params ≫= (λ p, p !! DENSE_EMBED_PARAM_DIM c), model with
      | None, _ | _, PNone =>
          Raises (ConfigValueException (DENSE_EMBED_PARAM_DIM c)
                    "Qwen embedding model dim not specified.")
      | Some dim, _ => Returns (mkEmbedder uuid provider api_key model dim)
      end
  end.

(** DenseEmbedderQwen.get_dimension *)
Definition get_dimension (self : Embedder) : ParamValue :=
  QWEN_EMBEDDING_MODEL_DIMENSION self.

(** DenseEmbedderQwen.get_default_params *)
Definition get_default_params (c : Collaborators) (environ : gmap string string)
  : gmap string ParamValue :=
  <[ DENSE_EMBED_PARAM_DIM c := PInt 1536 ]>
    (<[ DENSE_EMBED_PARAM_MODEL c :=
          PStr (default "text-embedding-v2"
                  (environ !! "DEFAULT_EMBEDDING_QWEN_MODEL")) ]> ∅).

(** One call of embed: the world and the local variables that the finally
    block and the return statement read.  resp is unbound until the first
    call to dashscope has returned. *)
Record Frame : Type := mkFrame {
  world : World;
  resp : option Response;
  rtn_list : list Embedding
}.

Definition in_world (f : World → World) : E Frame unit :=
  modify (λ fr, mkFrame (f (world fr)) (resp fr) (rtn_list fr)).

Definition log (level : LogLevel) (msg : string) : E Frame unit :=
  in_world (λ w, mkWorld (usage_store w) (clock_reads w)
                         (trace w ++ [Log level msg])).

(** time_utils.cur_timestamp_in_ms() *)
Definition cur_timestamp_in_ms (c : Collaborators) : E Frame Z :=
  λ fr, let w := world fr in
        (mkFrame (mkWorld (usage_store w) (S (clock_reads w)) (trace w))
                 (resp fr) (rtn_list fr),
         Returns (clock c (clock_reads w))).

(** self.usage_store.record_api_call(usage_api_call) *)
Definition record_api_call (u : UsageAPICallCreate) : E Frame unit :=
  in_world (λ w, mkWorld (usage_store w ++ [u]) (clock_reads w) (trace w)).

(** EMBEDDER_MODEL_MAPPNG[self.model_name] *)
Definition mapped_model (name : ParamValue) : Outcome DashscopeModel :=
  match name with
  | PStr s =>
      match EMBEDDER_MODEL_MAPPNG !! s with
      | Some m => Returns m
      | None => Raises (KeyError s)
      end
  | PNone => Raises (KeyError "None")
  | PInt n => Raises (KeyError (pretty n))
  end.

(** resp = dashscope.TextEmbedding.call(model=..., api_key=..., input=...):
    the call is traced, and resp is bound when it returns. *)
Definition call_dashscope (c : Collaborators) (model : DashscopeModel)
    (api_key : option string) (input : string) : E Frame Response :=
  λ fr, let w := world fr in
        let answer :=
          dashscope_call c (length (dashscope_inputs (trace w))) model api_key
                         input in
        let w1 := mkWorld (usage_store w) (clock_reads w)
                          (trace w ++ [DashscopeCall model api_key input answer]) in
        match answer with
        | Returns r => (mkFrame w1 (Some r) (rtn_list fr), Returns r)
        | Raises e => (mkFrame w1 (resp fr) (rtn_list fr), Raises e)
        end.

(** rtn_list.append(e) *)
Definition append (e : Embedding) : E Frame unit :=
  modify (λ fr, mkFrame (world fr) (resp fr) (rtn_list fr ++ [e])).

(** Reading the local variable resp. *)
Definition read_resp : E Frame Response :=
  λ fr, match resp fr with
        | Some r => (fr, Returns r)
        | None => (fr, Raises (UnboundLocalError "resp"))
        end.

(** embed, the loop:
      for sentence in embed_requests.sentences:
          resp = dashscope.TextEmbedding.call(...)
          if resp.status_code == HTTPStatus.OK: rtn_list.append(...)
          else: logger().error(...); raise Exception(...) *)
Fixpoint for_sentence_in (c : Collaborators) (self : Embedder)
    (sentences : list string) : E Frame unit :=
  match sentences with
  | [] => ret tt
  | sentence :: rest =>
      let* model := lift (mapped_model (model_name self)) in
      let* r := call_dashscope c model (DASHSCORE_API_KEY self) sentence in
      (if decide (status_code r = HTTPStatus_OK) then
         let* e := lift (first_embedding r) in
         append e
       else
         log ERROR ("Qwen embedding failed: " ++ resp_str r) >>
         raise (Exception ("Qwen embedding failed: " ++ resp_str r))) >>
      for_sentence_in c self rest
  end.

(** The newline of the join. *)
Definition newline : string := String "010"%char EmptyString.

(** embed, the finally block. *)
Definition record_usage (c : Collaborators) (self : Embedder)
    (sentences : list string) (start_timestamp_in_ms : Z) : E Frame unit :=
  let* end_timestamp_in_ms := cur_timestamp_in_ms c in
  let* r := read_resp in
  let* counts :=
    if decide (status_code r = HTTPStatus_OK) then
      let* total_token_count := lift (usage_total_tokens r) in
      let input_token_count := total_token_count in
      let output_token_count := total_token_count - input_token_count in
      ret (true, total_token_count, input_token_count, output_token_count)
    else ret (false, 0, -1, -1) in
  let '(success, total_token_count, input_token_count, output_token_count) :=
    counts in
  record_api_call
    (mkUsageAPICallCreate (user_uuid self) (QWEN_API_PROVIDER_NAME self)
       (model_name self) (API_CALL_ENDPOINT_EMBED c) success total_token_count
       start_timestamp_in_ms end_timestamp_in_ms false ""
       (String.concat newline sentences) "embed"
       input_token_count output_token_count).

(** DenseEmbedderQwen.embed, in its frame: rtn_list is the empty list from the
    first statement of the try block on. *)
Definition embed_frame (c : Collaborators) (self : Embedder)
    (sentences : list string) : E Frame (list Embedding) :=
  let* start_timestamp_in_ms := cur_timestamp_in_ms c in
  try_finally
    (try_except
       (for_sentence_in c self sentences)
       (λ e, log ERROR ("Qwen embedding failed: " ++ str_of_exc c e) >>
             raise e))
    (record_usage c self sentences start_timestamp_in_ms) >>
  λ fr, (fr, Returns (rtn_list fr)).

(** DenseEmbedderQwen.embed: the sentences of the request in, the list of
    embeddings of DenseEmbeddings out. *)
Definition embed (c : Collaborators) (self : Embedder)
    (sentences : list string) : E World (list Embedding) :=
  λ w, let (fr, r) := embed_frame c self sentences (mkFrame w None []) in
       (world fr, r).

End DenseEmbedderQwen.


(** ** Ways to read a run of the Qwen embedder *)

Module DenseEmbedderQwenTraces.
Import PyMore DenseEmbedderQwen.

(** The number of calls to dashscope made so far. *)
Definition calls_before (w : World) : nat :=
  length (dashscope_inputs (trace w)).

(** What dashscope answers to the sentences when they are sent one after the
    other, the first of them as call number n. *)
Fixpoint answers (c : Collaborators) (model : DashscopeModel)
    (api_key : option string) (n : nat) (sentences : list string)
  : list (Outcome Response) :=
  match sentences with
  | [] => []
  | sentence :: rest =>
      dashscope_call c n model api_key sentence
      :: answers c model api_key (S n) rest
  end.

(** A response that embed accepts, and the embedding it takes from it. *)
Definition accepted (re : Response * Embedding) : Prop :=
  status_code re.1 = HTTPStatus_OK ∧ first_embedding re.1 = Returns re.2.

(** The answers are these responses. *)
Definition returned (res : list (Response * Embedding))
  : list (Outcome Response) :=
  map (λ re, Returns re.1) res.

(** The trace of the sentences sent and answered by the responses. *)
Fixpoint call_events (model : DashscopeModel) (api_key : option string)
    (sentences : list string) (rs : list Response) : list Event :=
  match sentences, rs with
  | sentence :: sentences, r :: rs =>
      DashscopeCall model api_key sentence (Returns r)
      :: call_events model api_key sentences rs
  | _, _ => []
  end.

(** The usage entry of a call of embed on the sentences by the embedder, for
    the two clock readings and the counts. *)
Definition usage_entry (c : Collaborators) (self : Embedder)
    (sentences : list string) (started ended : Z) (ok : bool)
    (total input output : Z) : UsageAPICallCreate :=
  mkUsageAPICallCreate (user_uuid self) (QWEN_API_PROVIDER_NAME self)
    (model_name self) (API_CALL_ENDPOINT_EMBED c) ok total started ended false ""
    (String.concat newline sentences) "embed" input output.

(** The entry of a call whose last response was accepted and reported [t]
    tokens, and the entry of a call whose last response was rejected. *)
Definition entry_of_success c self sentences (w : World) (t : Z) :=
  usage_entry c self sentences (clock c (clock_reads w))
              (clock c (S (clock_reads w))) true t t 0.

Definition entry_of_failure c self sentences (w : World) :=
  usage_entry c self sentences (clock c (clock_reads w))
              (clock c (S (clock_reads w))) false 0 (-1) (-1).

(** A dashscope that answers every call with status OK, an embedding that
    holds the number of the call, and as many tokens as the sentence is long;
    from call number [bad] on it answers as [failure] says. *)
Definition up_to (bad : nat) (failure : Outcome Response) : Collaborators :=
  mkCollaborators "model_name" "model_dimension" "embed"
    (λ n _ _ sentence,
       if (n <? bad)%nat then
         Returns (mkResponse 200 (Returns [inject_Z (Z.of_nat n)])
                    (Returns (Z.of_nat (String.length sentence))) "ok")
       else failure)
    (λ n, 5000 + 3 * Z.of_nat n)
    (λ e, match e with
          | KeyError k => k
          | Exception m | TypeError m | EnvironmentError m
          | ConfigValueException _ m | Raised _ m => m
          | UnboundLocalError n => n
          end).

Definition rejected_response : Response :=
  mkResponse 429 (Raises (KeyError "output")) (Raises (KeyError "usage"))
             "Throttling".

Definition the_embedder : Embedder :=
  mkEmbedder "user-1" "aliyuncs" (Some "sk-key") (PStr "text-embedding-v2")
             (PInt 1536).

Definition fresh : World := mkWorld [] 0 [].

End DenseEmbedderQwenTraces.


(** ** Tactics for the further properties *)

Module MoreTactics.
Import Tactics.

(** An event that is in no position of a listed trace. *)
Ltac absent :=
  repeat intro;
  match goal with
  | H : _ ∨ _ |- _ => in_cases H
  | H : False |- _ => destruct H
  end.

End MoreTactics.


(** ** settings.py *)

Module SettingsPy.
Import PyMore.
Local Open Scope more_scope.

Definition DOCX_EXT : string := ".docx".
Definition HTML_EXT : string := ".html".
Definition MD_EXT : string := ".md".
Definition PDF_EXT : string := ".pdf".
Definition PPTX_EXT : string := ".pptx".
Definition TXT_EXT : string := ".txt".
Definition XLSX_EXT : string := ".xlsx".
Definition XLS_EXT : string := ".xls".

Definition supported_file_extensions : list string :=
  [DOCX_EXT; HTML_EXT; MD_EXT; PDF_EXT; PPTX_EXT; TXT_EXT; XLSX_EXT; XLS_EXT].

Definition supported_audio_file_extensions : list string :=
  ["mp3"; "wav"; "flac"; "ogg"; "m4a"; "aac"; "wma"; "aiff"; "alac"].

Definition supported_image_file_extensions : list string :=
  ["jpg"; "jpeg"; "png"; "gif"; "bmp"; "webp"; "tiff"; "svg"].

Definition supported_video_file_extensions : list string :=
  ["mp4"; "avi"; "flv"; "wmv"; "mov"; "mkv"; "webm"; "m4v"; "3gp"; "3g2"].

Definition supported_media_file_extensions : list string :=
  (supported_audio_file_extensions
   ++ supported_image_file_extensions
   ++ supported_video_file_extensions)%list.

(** s.lstrip("."), on the characters of s. *)
Fixpoint lstrip_dots (s : list ascii) : list ascii :=
  match s with
  | a :: rest => if decide (a = "."%char) then lstrip_dots rest else s
  | [] => []
  end.

(** s.strip("."): the dots at both ends are removed. *)
Definition strip_dots (s : string) : string :=
  String.string_of_list_ascii
    (rev (lstrip_dots (rev (lstrip_dots (String.list_ascii_of_string s))))).

(** is_media_file *)
Definition is_media_file (file_ext : string) : bool :=
  bool_decide (strip_dots file_ext ∈ supported_media_file_extensions).

(** A value of an attribute of the settings object. *)
Inductive Value : Type :=
| VNone
| VStr (s : string)
| VInt (n : Z)
| VBool (b : bool)
| VFloat (q : Q)
| VPath (p : string).

(** The settings object: its attributes by name. *)
Abbreviation Attrs := (string → Value).

(** setattr(self, name, v); a pydantic model without validate_assignment
    stores the value as it is. *)
Definition setattr (self : Attrs) (name : string) (v : Value) : Attrs :=
  λ n, if decide (n = name) then v else self n.

Definition REQUIRED_ENV_VARS : list string := ["EDS_DATA_ROOT"; "EDS_LOG_ROOT"].

(** SystemSettings.__class_vars__: the ClassVar annotations of the class. *)
Definition class_vars : list string :=
  ["REQUIRED_ENV_VARS"; "API_V1_STR"; "PROJECT_NAME"; "LEETAPI_PROJECT_NAME"].

(** SystemSettings.model_fields.keys(): the fields in the order of their
    declaration. *)
Definition model_fields : list string :=
  ["DATA_ROOT"; "LOG_ROOT"; "AUTH_ENABLED"; "DOC_STORE_TYPE";
   "RDBMS_STORE_TYPE"; "GRAPH_STORE_TYPE"; "VECTOR_STORE_TYPE";
   "WEB_RETRIEVER"; "GOOGLE_SEARCH_URL"; "FALLBACK_SCRAPER";
   "WEB_SITE_CRAWL_DEPTH"; "WEB_SITE_CRAWL_MAX_URLS";
   "SEARCH_MAX_RESULTS_FROM_RETRIEVER"; "RELEVANCE_THRESHOLD";
   "DEFAULT_PARSER"; "CONVERTER_API_URL"; "DEFAULT_CHUNKER";
   "DEFAULT_CHUNK_SIZE"; "DEFAULT_CHUNK_OVERLAP";
   "ENABLE_CONTEXTUAL_RETRIEVAL"; "DEFAULT_SEGMENT_EMBEDDER_TYPE";
   "DEFAULT_SPARSE_EMBEDDER"; "DEFAULT_DENSE_EMBEDDER";
   "DEFAULT_DENSE_EMBEDDING_LOCAL_MODEL_NAME";
   "DEFAULT_SPLADE_EMBEDDING_MODEL"; "DEFAULT_SEARCH_TOP_K";
   "DEFAULT_RERANK_STRATEGY"; "DEFAULT_RERANK_MODEL";
   "DEFAULT_OPENAI_BASE_URL"; "DEFAULT_EMBEDDING_OPENAI_BASE_URL";
   "COHERE_BASE_URL"; "DEFAULT_CONTEXT_LIMIT"; "DEFAULT_TEMPERATURE";
   "DEFAULT_MAX_TOKENS"; "DEFAULT_OPENAI_MODEL"; "DEFAULT_SUMMARIZING_MODEL";
   "DEFAULT_PLANNING_MODEL"; "DEFAULT_WRITING_MODEL";
   "DEFAULT_EMBEDDING_OPENAI_MODEL"; "EMBEDDING_OPENAI_MODEL_DIMENSION";
   "DEFAULT_LANGUAGE"; "SHARE_SAMPLES_FROM_USERS"; "CODE_ROOT_PATH";
   "EXTENSION_PATH"; "DOCSINK_LOCAL_DIR"; "DOCUMENT_LOCAL_DIR";
   "STRATEGY_PATH"; "OPENAI_API_KEY"; "COHERE_API_KEY"; "BING_SEARCH_API_KEY";
   "EMBEDDING_OPENAI_API_KEY"; "OPENAI_UTILS_ENABLED"; "STRIPE_SECRET_KEY";
   "STRIPE_PAYMENT_LINK"; "STRIPE_ENDPOINT_SECRET"; "DEFAULT_BOOKKEEPER";
   "DEFAULT_TOKEN_CONVERTER"; "DEFAULT_FLOW_TYPE"; "API_SERVICE_HOST";
   "API_SERVICE_PORT"; "DEFAULT_DENSE_EMBEDDING_SERVICE_HOST";
   "DEFAULT_DENSE_EMBEDDING_SERVICE_PORT";
   "DEFAULT_DENSE_EMBEDDING_SERVICE_ENDPOINT"; "DEFAULT_EMAILER";
   "INIT_STRATEGY_STORE"; "DOCSOURCE_RETRY_RANGE_IN_HOURS";
   "scheduler_default_number_worker"; "scheduler_base_delay_in_seconds";
   "scheduler_max_delay_in_seconds"; "scheduler_max_retries";
   "DEFAULT_ORG_NAME"; "DEFAULT_ORG_ID"; "DEFAULT_KNOWLEDGEBASE_NAME";
   "DB_COMMOM"; "DB_USAGE"; "DB_TASKS"; "COLLECTION_PROMPT";
   "COLLECTION_STRATEGY"; "COLLECTION_INTENTIONS"; "COLLECTION_USER_SETTINGS";
   "COLLECTION_API_PROVIDERS"; "COLLECTION_CHAT_HISTORY"; "COLLECTION_TASKS";
   "COLLECTION_JOBS"; "COLLECTION_KB"; "COLLECTION_KB_METADATA";
   "COLLECTION_ORG"; "COLLECTION_USERS"; "COLLECTION_LOCKS";
   "BALANCE_LOCK_NAME"; "COLLECTION_BALANCE_CHANGE"; "DUCKDB_PATH";
   "DUCKDB_FILE"].

(** c.upper() for a character of a field name. *)
Definition upper_ascii (a : ascii) : ascii :=
  let n := nat_of_ascii a in
  if ((97 <=? n) && (n <=? 122))%nat then ascii_of_nat (n - 32) else a.

(** field_name.upper(); the field names are ASCII. *)
Fixpoint upper (s : string) : string :=
  match s with
  | EmptyString => EmptyString
  | String a rest => String (upper_ascii a) (upper rest)
  end.

(** The names and the code that live in other files. *)
Record Collaborators : Type := mkCollaborators {
  (* common/utils/obj_utils.py *)
  ENV_VAR_PREFIX : string;
  (* dotenv.load_dotenv(dotenv_path, override), as what it makes of os.environ *)
  load_dotenv : string → bool → gmap string string → gmap string string;
  (* pathlib: path / name *)
  path_join : string → string → string
}.

(** os.environ, the settings object, and the debug log. *)
Record World : Type := mkWorld {
  environ : gmap string string;
  self : Attrs;
  trace : list string
}.

(** logger().debug(msg) *)
Definition debug (msg : string) : E World unit :=
  modify (λ w, mkWorld (environ w) (self w) (trace w ++ [msg])).

(** os.environ.get(name, None) *)
Definition environ_get (name : string) : E World (option string) :=
  λ w, (w, Returns (environ w !! name)).

Definition getattr (name : string) : E World Value :=
  λ w, (w, Returns (self w name)).

Definition set_attr (name : string) (v : Value) : E World unit :=
  modify (λ w, mkWorld (environ w) (setattr (self w) name v) (trace w)).

(** SystemSettings.check_required_env_vars, the loop. *)
Fixpoint for_var_in (vars : list string) : E World unit :=
  match vars with
  | [] => ret tt
  | var :: rest =>
      let* value := environ_get var in
      match value with
      | None =>
          raise (EnvironmentError
                   ("Required environment variable " ++ var ++ " is not set."))
      | Some _ => for_var_in rest
      end
  end.

(** SystemSettings.check_required_env_vars *)
Definition check_required_env_vars : E World unit :=
  for_var_in REQUIRED_ENV_VARS.

(** initialize, the loop over the fields. *)
Fixpoint for_field_name_in (c : Collaborators) (fields : list string)
  : E World unit :=
  match fields with
  | [] => ret tt
  | field_name :: rest =>
      (if bool_decide (field_name ∈ class_vars) then ret tt
       else
         let env_var_name := ENV_VAR_PREFIX c ++ upper field_name in
         let* env_var := environ_get env_var_name in
         match env_var with
         | Some value =>
             debug ("Setting from environment variable: " ++ field_name
                      ++ "=" ++ value) >>
             set_attr field_name (VStr value)
         | None => ret tt
         end) >>
      for_field_name_in c rest
  end.

(** x + suffix for a str suffix: defined on a str x only. *)
Definition plus_str (x : Value) (suffix : string) : Outcome Value :=
  match x with
  | VStr s => Returns (VStr (s ++ suffix))
  | _ => Raises (TypeError "unsupported operand type(s) for +")
  end.

(** Path(x / name) for a str name: defined on a Path x only. *)
Definition div_str (c : Collaborators) (x : Value) (name : string)
  : Outcome Value :=
  match x with
  | VPath p => Returns (VPath (path_join c p name))
  | _ => Raises (TypeError "unsupported operand type(s) for /")
  end.

(** if self.<name> is None: self.<name> = <value> *)
Definition if_none (name : string) (value : E World Value) : E World unit :=
  let* current := getattr name in
  match current with
  | VNone => let* v := value in set_attr name v
  | _ => ret tt
  end.

(** self.DATA_ROOT + suffix *)
Definition under_data_root (suffix : string) : E World Value :=
  let* root := getattr "DATA_ROOT" in lift (plus_str root suffix).

(** initialize, the derived values: those that the environment has not set
    and that are still None. *)
Definition set_derived_values (c : Collaborators) : E World unit :=
  if_none "EXTENSION_PATH"
    (let* root := getattr "CODE_ROOT_PATH" in lift (div_str c root "extensions")) >>
  if_none "DOCSINK_LOCAL_DIR" (under_data_root "/docsink") >>
  if_none "DOCUMENT_LOCAL_DIR" (under_data_root "/document") >>
  if_none "STRATEGY_PATH" (under_data_root "/strategy") >>
  if_none "DUCKDB_PATH" (under_data_root "/duckdb").

(** SystemSettings.initialize *)
Definition initialize (c : Collaborators) (env_file_path : string)
    (override : bool) : E World Attrs :=
  debug "Initializing settings with default values." >>
  debug ("Loading environment variables from .env file: " ++ env_file_path) >>
  modify (λ w, mkWorld (load_dotenv c env_file_path override (environ w))
                       (self w) (trace w)) >>
  check_required_env_vars >>
  for_field_name_in c model_fields >>
  set_derived_values c >>
  debug "Finished initializing settings." >>
  λ w, (w, Returns (self w)).

End SettingsPy.


(** ** Ways to read a run of initialize *)

Module SettingsPyTraces.
Import PyMore SettingsPy.

(** A run of n dots. *)
Fixpoint dots (n : nat) : string :=
  match n with
  | O => EmptyString
  | S n => String "."%char (dots n)
  end.

(** A step that leaves the environment alone, changes no attribute that has
    a value, and raises nothing but a TypeError. *)
Definition keeps_values (m : E World unit) : Prop :=
  ∀ w, environ (m w).1 = environ w
       ∧ (∀ f, self w f ≠ VNone → self (m w).1 f = self w f)
       ∧ ((m w).2 = Returns tt ∨ ∃ msg, (m w).2 = Raises (TypeError msg)).

(** The directories that default to a place under DATA_ROOT. *)
Definition directories_under_data_root : list (string * string) :=
  [("DOCSINK_LOCAL_DIR", "/docsink"); ("DOCUMENT_LOCAL_DIR", "/document");
   ("STRATEGY_PATH", "/strategy"); ("DUCKDB_PATH", "/duckdb")].

(** A dotenv that adds nothing, the prefix EDS_, and paths joined by a slash. *)
Definition plain : Collaborators :=
  mkCollaborators "EDS_" (λ _ _ env, env) (λ p name, p ++ "/" ++ name).

(** A settings object for the examples: the two integer fields below, the
    two paths, and None elsewhere. *)
Definition some_settings : Attrs :=
  λ f, if decide (f = "WEB_SITE_CRAWL_DEPTH") then VInt 3
       else if decide (f = "scheduler_max_retries") then VInt 3
       else if decide (f = "CODE_ROOT_PATH") then VPath "/opt/leettools/src"
       else if decide (f = "EXTENSION_PATH")
            then VPath "/opt/leettools/src/extensions"
       else VNone.

Definition start_with (env : gmap string string) : World :=
  mkWorld env some_settings [].

End SettingsPyTraces.


(** ** eds/api_caller/api_utils.py: the rerank client *)

Module ApiClients.
Import PyMore.
Local Open Scope more_scope.

(** core/schemas/api_provider_config.py, as far as the functions build and
    read it. *)
Inductive APIFunction : Type := INFERENCE | EMBED | RERANK.

Record APIEndpointInfo : Type := mkAPIEndpointInfo {
  path : string;
  default_model : string;
  supported_models : list string
}.

Record APIProviderConfig : Type := mkAPIProviderConfig {
  api_provider : string;
  api_key : option string;
  base_url : option string;
  endpoints : list (APIFunction * APIEndpointInfo)
}.

(** A cohere.Client, by the arguments it was built with. *)
Record CohereClient : Type := mkCohereClient {
  client_api_key : option string;
  client_base_url : option string
}.

Inductive Event : Type :=
| Log (level : LogLevel) (msg : string)
| GetSettingsForUser (user : string)
| GetValueFromSettings (default_env first_key : string) (allow_empty : bool)
                       (answer : Outcome (option string))
| NewCohereClient (client : CohereClient) (answer : Outcome unit).

Abbreviation World := (list Event).

(** The names and the code that live in other files. *)
Record Collaborators (UserSettings : Type) : Type := mkCollaborators {
  (* User.get_admin_user() *)
  admin_user : string;
  (* context.settings.DEFAULT_RERANK_MODEL *)
  DEFAULT_RERANK_MODEL : string;
  (* context.get_user_settings_store().get_settings_for_user(user) *)
  get_settings_for_user : string → Outcome UserSettings;
  (* get_value_from_settings(context, user_settings, default_env, first_key,
     second_key=None, allow_empty) *)
  get_value_from_settings : UserSettings → string → string → bool
                            → Outcome (option string);
  (* url_utils.get_first_level_domain_from_url(url) *)
  get_first_level_domain_from_url : string → Outcome string;
  (* cohere.Client(api_key=..., base_url=...): whether it accepts its
     arguments *)
  cohere_Client : CohereClient → Outcome unit
}.
Arguments admin_user {UserSettings} c.
Arguments DEFAULT_RERANK_MODEL {UserSettings} c.
Arguments get_settings_for_user {UserSettings} c user.
Arguments get_value_from_settings {UserSettings} c user_settings default_env
  first_key allow_empty.
Arguments get_first_level_domain_from_url {UserSettings} c url.
Arguments cohere_Client {UserSettings} c client.

Definition log (level : LogLevel) (msg : string) : E World unit :=
  modify (λ tr : World, (tr ++ [Log level msg])%list).

Definition traced {A} (r : Outcome A) (ev : Event) : E World A :=
  λ tr : World, ((tr ++ [ev])%list, r).

(** api_key[:5] and api_key[-5:] *)
Definition first_five (s : string) : string := String.substring 0 5 s.
Definition last_five (s : string) : string :=
  String.substring (String.length s - 5) 5 s.

(** f"{api_key[:5]}******{api_key[-5:]}"; None cannot be sliced. *)
Definition key_preview (api_key : option string) : Outcome string :=
  match api_key with
  | Some key => Returns (first_five key ++ "******" ++ last_five key)
  | None => Raises (TypeError "'NoneType' object is not subscriptable")
  end.

Section Functions.
Context {UserSettings : Type} (c : Collaborators UserSettings).

Definition value_from_settings (user_settings : UserSettings)
    (default_env first_key : string) (allow_empty : bool)
  : E World (option string) :=
  let answer := get_value_from_settings c user_settings default_env first_key
                                        allow_empty in
  traced answer (GetValueFromSettings default_env first_key allow_empty answer).

(** get_default_rerank_api_provider_config *)
Definition get_default_rerank_api_provider_config (user : option string)
  : E World APIProviderConfig :=
  let user := default (admin_user c) user in
  let* user_settings :=
    traced (get_settings_for_user c user) (GetSettingsForUser user) in
  let* api_key :=
    value_from_settings user_settings "COHERE_API_KEY" "COHERE_API_KEY" false in
  let* base_url :=
    value_from_settings user_settings "COHERE_BASE_URL" "COHERE_BASE_URL" true in
  match base_url with
  | None =>
      raise (ConfigValueException "COHERE_BASE_URL"
               "COHERE_BASE_URL is not set. Please set COHERE_BASE_URL in the environment or user settings.")
  | Some url =>
      let* tld := lift (get_first_level_domain_from_url c url) in
      ret (mkAPIProviderConfig tld api_key (Some url)
             [(RERANK,
               mkAPIEndpointInfo "rerank" (DEFAULT_RERANK_MODEL c)
                                 [DEFAULT_RERANK_MODEL c])])
  end.

(** get_rerank_client_for_user *)
Definition get_rerank_client_for_user (user : string)
    (api_provider_config : option APIProviderConfig) : E World CohereClient :=
  let* api_provider_config :=
    match api_provider_config with
    | None => get_default_rerank_api_provider_config (Some user)
    | Some config => ret config
    end in
  let api_key := api_key api_provider_config in
  let base_url := base_url api_provider_config in
  match base_url with
  | Some url =>
      let cohere_client := mkCohereClient api_key (Some url) in
      traced (cohere_Client c cohere_client)
             (NewCohereClient cohere_client (cohere_Client c cohere_client)) >>
      let* preview := lift (key_preview api_key) in
      log INFO ("Creating Cohere client with API key: " ++ preview
                  ++ " and base_url " ++ url) >>
      ret cohere_client
  | None =>
      let cohere_client := mkCohereClient api_key None in
      traced (cohere_Client c cohere_client)
             (NewCohereClient cohere_client (cohere_Client c cohere_client)) >>
      let* preview := lift (key_preview api_key) in
      log INFO ("Creating Cohere client with API key: " ++ preview
                  ++ " and default base_url") >>
      ret cohere_client
  end.

End Functions.

(** The clients that were built in a trace, in order. *)
Definition clients (tr : list Event) : list CohereClient :=
  omap (λ ev, match ev with
              | NewCohereClient client (Returns _) => Some client
              | _ => None
              end) tr.

End ApiClients.


(** * Properties of the search-to-docsource step *)

Module SearchToDocsourceFacts.
Import SearchToDocsource Scenarios Tactics.

(** Assigning the status twice keeps the last one: the FAILED of the except
    branch stands whatever the pipeline had assigned to the same object. *)
Lemma set_source_status_last_wins (s s' : DocSourceStatus) (d : DocSource) :
  set_source_status s (set_source_status s' d) = set_source_status s d.
Proof. reflexivity. Qed.

(** When the pipeline raises it has not yet assigned to the docsource object
    nor written it: the exception left it at one of its two collaborators. *)
Lemma pipeline_raises_before_assignment c ei item d w w' e :
  _run_web_search_pipeline c ei item d w = (w', Raise e) →
  ∃ events, trace w' = (trace w ++ events)%list
            ∧ ∀ d', ¬ In (UpdateDocsource d') events.
Proof.
  unfold _run_web_search_pipeline, call, log, emit, update_docsource.
  unfold Py.bind, Py.modify, Py.ret.
  destruct (create_docsinks_by_search_and_scrape _ _ _ _ _) as [s1 [found | e1]].
  - destruct (none_or_empty found); [discriminate |].
    destruct (run_adhoc_pipeline_for_docsinks _ _ _) as [s2 [docs | e2]];
      [discriminate |].
    intros [= <- <-]. cbn. rewrite <- app_assoc. eexists. split; [reflexivity |].
    intros d' H. in_cases H.
  - intros [= <- <-]. cbn. eexists. split; [reflexivity |].
    intros d' H. in_cases H.
Qed.

(** C1: every wait the step makes on the docsource store is given 300
    seconds, on every path; in particular, with auto_schedule set and a
    scheduler already running the step waits 300 seconds for the docsource it
    created, and 300 seconds are five minutes, not the ten of the docstring. *)
Theorem run_step_wait_timeout_is_300_seconds :
  (∀ c ei kw s0, Forall waits_300_seconds (trace_of c ei kw s0))
  ∧ In (WaitForDocsource the_docsource 300 (Ok false))
       (trace_of still_processing (exec_info_with true true) None ∅)
  ∧ (∀ t a, In (WaitForDocsource the_docsource t a)
               (trace_of still_processing (exec_info_with true true) None ∅) →
            t ≠ 10 * 60)
  ∧ 300 = 5 * 60.
Proof.
  split; [| split; [| split]].
  - intros c ei kw s0. step_paths.
    all: repeat constructor.
  - vm_compute. pick_event.
  - intros t a H. vm_compute in H. in_cases H. injection H as <- _. lia.
  - reflexivity.
Qed.




(** C3: when the wait on the docsource store answers false, the step logs the
    warning, writes nothing to the store and returns, without raising, the
    docsource that was created. *)
Theorem run_step_wait_timed_out c ei kw s0 d t :
  In (WaitForDocsource d t (Ok false)) (trace_of c ei kw s0) →
  result_of c ei kw s0 = Ok d
  ∧ (∃ dsc, In (CreateDocsource dsc (Ok d)) (trace_of c ei kw s0))
  ∧ last (trace_of c ei kw s0)
    = Some (Log WARNING "The document source has not finished processing yet.")
  ∧ writes_no_docsource (trace_of c ei kw s0).
Proof.
  unfold writes_no_docsource. step_paths.
  all: intros H; in_cases H.
  all: simplify_eq.
  all: try discriminate.
  all: split; [reflexivity |]; split; [eexists; pick_event |].
  all: split; [reflexivity |].
  all: intros d' H'; in_cases H'.
Qed.

Lemma run_step_wait_timed_out_witness :
  let tr := trace_of still_processing (exec_info_with true true) None ∅ in
  In (WaitForDocsource the_docsource 300 (Ok false)) tr
  ∧ result_of still_processing (exec_info_with true true) None ∅
    = Ok the_docsource
  ∧ (∃ dsc, In (CreateDocsource dsc (Ok the_docsource)) tr)
  ∧ last tr
    = Some (Log WARNING "The document source has not finished processing yet.")
  ∧ writes_no_docsource tr.
Proof.
  assert (H : In (WaitForDocsource the_docsource 300 (Ok false))
                 (trace_of still_processing (exec_info_with true true) None ∅))
    by (vm_compute; pick_event).
  split; [exact H |].
  exact (run_step_wait_timed_out
           still_processing (exec_info_with true true) None ∅ _ _ H).
Defined.

(** C4: with auto_schedule off, when the web search or the ad-hoc pipeline
    raises e, the step ends by storing the created docsource with status
    FAILED and raises the same e; the store holds the FAILED record, and the
    step has stored no record with another status. *)
Theorem run_step_pipeline_raises c ei kw s0 e :
  auto_schedule (kb ei) = false →
  pipeline_stage_raised e (trace_of c ei kw s0) →
  ∃ dsc d0,
    In (CreateDocsource dsc (Ok d0)) (trace_of c ei kw s0)
    ∧ result_of c ei kw s0 = Raise e
    ∧ last (trace_of c ei kw s0)
      = Some (UpdateDocsource (set_source_status FAILED d0))
    ∧ store_after c ei kw s0 !! docsource_uuid d0
      = Some (set_source_status FAILED d0)
    ∧ (∀ d, In (UpdateDocsource d) (trace_of c ei kw s0) →
            source_status d = FAILED).
Proof.
  unfold pipeline_stage_raised. step_paths.
  all: intros Hauto Hraised; try discriminate Hauto.
  all: destruct Hraised as [(q & d & H) | (l & H)]; in_cases H.
  all: simplify_eq.
  all: do 2 eexists; split; [pick_event |]; split; [reflexivity |].
  all: split; [reflexivity |]; split; [apply lookup_insert_eq |].
  all: intros d' H'; in_cases H'; by injection H' as <-.
Qed.

Lemma run_step_pipeline_raises_witness :
  let e := RaisedByCollaborator "web_searcher" "connection refused" in
  let tr := trace_of search_fails (exec_info_with false false) None ∅ in
  auto_schedule (kb (exec_info_with false false)) = false
  ∧ pipeline_stage_raised e tr
  ∧ ∃ dsc d0,
      In (CreateDocsource dsc (Ok d0)) tr
      ∧ result_of search_fails (exec_info_with false false) None ∅ = Raise e
      ∧ last tr = Some (UpdateDocsource (set_source_status FAILED d0))
      ∧ store_after search_fails (exec_info_with false false) None ∅
          !! docsource_uuid d0
        = Some (set_source_status FAILED d0)
      ∧ (∀ d, In (UpdateDocsource d) tr → source_status d = FAILED).
Proof.
  assert (Hauto : auto_schedule (kb (exec_info_with false false)) = false)
    by reflexivity.
  assert (Hraised : pipeline_stage_raised
                      (RaisedByCollaborator "web_searcher" "connection refused")
                      (trace_of search_fails (exec_info_with false false) None ∅)).
  { left. exists "rocq prover", the_docsource. vm_compute. pick_event. }
  split; [exact Hauto |]. split; [exact Hraised |].
  exact (run_step_pipeline_raises
           search_fails (exec_info_with false false) None ∅ _ Hauto Hraised).
Defined.

(** C5: with auto_schedule set and the context reporting a running scheduler,
    a step that gets its search parameters and whose docsource the store
    creates does not call run_scheduler: right after the creation it logs
    that the docsource is scheduled and then waits for that docsource on the
    docsource store, with the answer of wait_for_docsource; it runs neither
    the web search nor the ad-hoc pipeline. *)
Theorem run_step_scheduler_already_running c ei kw s0 item retriever paras :
  auto_schedule (kb ei) = true →
  scheduler_is_running ei = true →
  target_chat_query_item ei = Some item →
  get_retriever_type c (default ∅ (flow_options (chat_query_options ei)))
  = Ok retriever →
  get_common_search_paras c (default ∅ (flow_options (chat_query_options ei)))
  = Ok paras →
  (∀ dsc, ∃ s1 d, create_docsource c s0 dsc = (s1, Ok d)) →
  ∃ dsc s1 d s2 answer before after,
    create_docsource c s0 dsc = (s1, Ok d)
    ∧ dsc_display_name dsc = default (query_content item) kw
    ∧ wait_for_docsource c s1 d 300 = (s2, answer)
    ∧ trace_of c ei kw s0
      = (before
         ++ [CreateDocsource dsc (Ok d);
             Log INFO "Scheduled the new DocSource to be processed ...";
             WaitForDocsource d 300 answer]
         ++ after)%list
    ∧ (∀ a, ¬ In (RunScheduler a) (trace_of c ei kw s0))
    ∧ (∀ q d' a, ¬ In (SearchAndScrape q d' a) (trace_of c ei kw s0))
    ∧ (∀ l a, ¬ In (AdhocPipeline l a) (trace_of c ei kw s0)).
Proof.
  step_paths.
  all: intros Hauto Hrunning Hitem Hretriever Hparas Hcreate.
  all: try discriminate.
  all: match goal with
       | H : create_docsource _ _ ?dsc = _ |- _ =>
           destruct (Hcreate dsc) as (s1 & d1 & Hd); rewrite Hd in H
       end.
  all: try discriminate.
  all: simplify_eq.
  all: match goal with
       | Hw : wait_for_docsource _ ?s1 ?d 300 = (?s2, ?answer)
         |- context [CreateDocsource ?dsc (Ok ?d)] =>
           exists dsc, s1, d, s2, answer
       end.
  all: eexists [_; _], _.
  all: split; [assumption |]; split; [reflexivity |]; split; [assumption |].
  all: split; [reflexivity |].
  all: split; [intros ? H; in_cases H |].
  all: split; [intros ? ? ? H; in_cases H | intros ? ? H; in_cases H].
Qed.

Lemma run_step_scheduler_already_running_witness :
  let ei := exec_info_with true true in
  let tr := trace_of still_processing ei None ∅ in
  auto_schedule (kb ei) = true
  ∧ scheduler_is_running ei = true
  ∧ ∃ dsc s1 d s2 answer before after,
      create_docsource still_processing ∅ dsc = (s1, Ok d)
      ∧ dsc_display_name dsc = default (query_content the_query) None
      ∧ wait_for_docsource still_processing s1 d 300 = (s2, answer)
      ∧ tr = (before
              ++ [CreateDocsource dsc (Ok d);
                  Log INFO "Scheduled the new DocSource to be processed ...";
                  WaitForDocsource d 300 answer]
              ++ after)%list
      ∧ (∀ a, ¬ In (RunScheduler a) tr)
      ∧ (∀ q d' a, ¬ In (SearchAndScrape q d' a) tr)
      ∧ (∀ l a, ¬ In (AdhocPipeline l a) tr).
Proof.
  split; [reflexivity |]. split; [reflexivity |].
  exact (run_step_scheduler_already_running
           still_processing (exec_info_with true true) None ∅ the_query
           "google" (0, 10) eq_refl eq_refl eq_refl eq_refl eq_refl
           (λ dsc, ex_intro _ _ (ex_intro _ _ eq_refl))).
Defined.

(** C6: when the web search answers None or an empty list, the pipeline logs
    the warning, sets the docsource to COMPLETED, stores it and returns no
    documents; the ad-hoc pipeline is not run and the stored record is
    COMPLETED, not FAILED. *)
Theorem web_search_pipeline_no_results c ei item d w s1 found :
  create_docsinks_by_search_and_scrape c (store w) (query_content item) d
    (flow_options (item_chat_query_options item)) = (s1, Ok found) →
  none_or_empty found = true →
  let done := set_source_status COMPLETED d in
  _run_web_search_pipeline c ei item d w
  = (mkWorld (<[docsource_uuid d := done]> s1)
             (trace w ++ [SearchAndScrape (query_content item) d (Ok found);
                          Log WARNING ("No results found for the query "
                                         ++ query_content item ++ ".");
                          UpdateDocsource done]),
     Ok (done, []))
  ∧ store (_run_web_search_pipeline c ei item d w).1 !! docsource_uuid d
    = Some done
  ∧ source_status done = COMPLETED
  ∧ source_status done ≠ FAILED.
Proof.
  intros Hsearch Hempty done.
  assert (Hrun : _run_web_search_pipeline c ei item d w
                 = (mkWorld (<[docsource_uuid d := done]> s1)
                      (trace w ++ [SearchAndScrape (query_content item) d (Ok found);
                                   Log WARNING ("No results found for the query "
                                                  ++ query_content item ++ ".");
                                   UpdateDocsource done]),
                    Ok (done, []))).
  { unfold _run_web_search_pipeline, Py.bind at 1, call.
    rewrite Hsearch, Hempty.
    unfold Py.bind, log, emit, update_docsource, Py.modify, Py.ret. cbn.
    by rewrite <- !app_assoc. }
  rewrite Hrun. cbn. split; [reflexivity |].
  split; [apply lookup_insert_eq |]. split; [reflexivity | discriminate].
Qed.

Lemma web_search_pipeline_no_results_witness :
  let w := mkWorld ∅ [] in
  let done := set_source_status COMPLETED the_docsource in
  create_docsinks_by_search_and_scrape search_finds_nothing (store w)
    (query_content the_query) the_docsource
    (flow_options (item_chat_query_options the_query)) = (∅, Ok (Some []))
  ∧ none_or_empty (Some ([] : list DocSinkCreate)) = true
  ∧ _run_web_search_pipeline search_finds_nothing (exec_info_with false false)
      the_query the_docsource w
    = (mkWorld (<[docsource_uuid the_docsource := done]> ∅)
               (trace w ++ [SearchAndScrape (query_content the_query)
                              the_docsource (Ok (Some []));
                            Log WARNING ("No results found for the query "
                                           ++ query_content the_query ++ ".");
                            UpdateDocsource done]),
       Ok (done, []))
  ∧ store (_run_web_search_pipeline search_finds_nothing
             (exec_info_with false false) the_query the_docsource w).1
      !! docsource_uuid the_docsource
    = Some done
  ∧ source_status done = COMPLETED
  ∧ source_status done ≠ FAILED.
Proof.
  split; [reflexivity |]. split; [reflexivity |].
  exact (web_search_pipeline_no_results search_finds_nothing
           (exec_info_with false false) the_query the_docsource
           (mkWorld ∅ []) ∅ (Some []) eq_refl eq_refl).
Defined.

(** The same through run_step: when the search of the synchronous pipeline
    answers with no result, the step returns the docsource as COMPLETED, the
    store holds it as COMPLETED and the ad-hoc pipeline was not run. *)
Lemma run_step_no_results c ei kw s0 q d found :
  In (SearchAndScrape q d (Ok found)) (trace_of c ei kw s0) →
  none_or_empty found = true →
  result_of c ei kw s0 = Ok (set_source_status COMPLETED d)
  ∧ store_after c ei kw s0 !! docsource_uuid d
    = Some (set_source_status COMPLETED d)
  ∧ (∀ l a, ¬ In (AdhocPipeline l a) (trace_of c ei kw s0))
  ∧ (∀ d', In (UpdateDocsource d') (trace_of c ei kw s0) →
           source_status d' = COMPLETED).
Proof.
  step_paths.
  all: intros H Hempty; in_cases H.
  all: simplify_eq.
  all: try congruence.
  all: split; [reflexivity |]; split; [apply lookup_insert_eq |].
  all: split; [intros ? ? H; in_cases H |].
  all: intros d' H'; in_cases H'; by injection H' as <-.
Qed.

End SearchToDocsourceFacts.


(** * Properties of the topic planning step *)

Module PlanTopicFacts.
Import PlanTopic.

(** The check stops at the first declared variable that has no value. *)
Lemma require_first_unresolved (resolved rest : list string) (var : string)
    (template_vars : gmap string string) (tr : World) :
  (∀ v, v ∈ resolved → is_Some (template_vars !! v)) →
  template_vars !! var = None →
  require_prompt_variables (resolved ++ var :: rest) template_vars tr
  = (tr, Raise (MissingParametersException var)).
Proof.
  intros Hres Hvar. induction resolved as [| v0 resolved IH]; cbn.
  - by rewrite Hvar.
  - destruct (Hres v0) as [x ->]; [by left |].
    apply IH. intros v Hv. apply Hres. by right.
Qed.

(** The check passes when every declared variable has a value. *)
Lemma require_all_resolved (vars : list string)
    (template_vars : gmap string string) (tr : World) :
  (∀ v, v ∈ vars → is_Some (template_vars !! v)) →
  require_prompt_variables vars template_vars tr = (tr, Ok tt).
Proof.
  intros Hres. induction vars as [| v0 vars IH]; cbn; [reflexivity |].
  destruct (Hres v0) as [x ->]; [by left |].
  apply IH. intros v Hv. apply Hres. by right.
Qed.

(** A list with an unresolved variable splits at its first unresolved one. *)
Lemma first_unresolved (vars : list string) (template_vars : gmap string string)
    (v : string) :
  v ∈ vars → template_vars !! v = None →
  ∃ resolved m rest,
    vars = (resolved ++ m :: rest)%list
    ∧ (∀ v', v' ∈ resolved → is_Some (template_vars !! v'))
    ∧ template_vars !! m = None.
Proof.
  induction vars as [| v0 vars IH]; intros Hin Hv; [by apply elem_of_nil in Hin |].
  destruct (template_vars !! v0) as [x |] eqn:Hv0.
  - apply elem_of_cons in Hin as [-> | Hin]; [congruence |].
    destruct (IH Hin Hv) as (resolved & m & rest & -> & Hres & Hm).
    exists (v0 :: resolved), m, rest. split; [reflexivity |]. split; [| exact Hm].
    intros v' Hv'. apply elem_of_cons in Hv' as [-> | Hv']; [by rewrite Hv0 | auto].
  - exists [], v0, vars. split; [reflexivity |]. split; [| exact Hv0].
    intros v' Hv'. by apply elem_of_nil in Hv'.
Qed.

(** What the check answers decides what the rest of the step does. *)
Lemma check_render_and_infer_raises c p sp pm tv tr m :
  require_prompt_variables (declared_variables p) tv tr
  = (tr, Raise (MissingParametersException m)) →
  check_render_and_infer c p sp pm tv tr
  = (tr, Raise (MissingParametersException m)).
Proof. intros H. unfold check_render_and_infer, Py.bind at 1. by rewrite H. Qed.

(** C7: the prompt registered under the step's name declares nine variables.
    For any template-variable map: when a declared variable has no value, the
    step raises MissingParametersException for a declared variable without
    value (the first one in declaration order, so the variable itself when no
    earlier one is missing), and the trace is as before the check: nothing was
    rendered and no inference call was made; when every declared variable has a
    value the check passes.  The map the step builds gives a value to every
    declared variable, so the check of the step itself always passes. *)
Theorem plan_topic_missing_parameter :
  used_prompt_templates !! COMPONENT_NAME = Some topic_plan_prompt
  ∧ (∀ c sp pm (tv : gmap string string) (tr : World) v,
       v ∈ declared_variables topic_plan_prompt →
       tv !! v = None →
       ∃ m, check_render_and_infer c topic_plan_prompt sp pm tv tr
            = (tr, Raise (MissingParametersException m))
            ∧ m ∈ declared_variables topic_plan_prompt
            ∧ tv !! m = None
            ∧ ((∀ v', v' ∈ declared_variables topic_plan_prompt → v' ≠ v →
                      is_Some (tv !! v')) → m = v))
  ∧ (∀ (tv : gmap string string) (tr : World),
       (∀ v, v ∈ declared_variables topic_plan_prompt → is_Some (tv !! v)) →
       require_prompt_variables (declared_variables topic_plan_prompt) tv tr
       = (tr, Ok tt))
  ∧ (∀ cp nsi style query ci oli sli jfi content v,
       v ∈ declared_variables topic_plan_prompt →
       is_Some (make_template_vars cp nsi style query ci oli sli jfi content !! v))
  ∧ (∀ cp nsi style query ci oli sli jfi content (tr : World),
       require_prompt_variables (declared_variables topic_plan_prompt)
         (make_template_vars cp nsi style query ci oli sli jfi content) tr
       = (tr, Ok tt)).
Proof.
  split; [apply lookup_singleton_eq |]. split; [| split; [| split]]; cycle 3.
  { intros. vm_compute. reflexivity. }
  - intros c sp pm tv tr v Hin Hv.
    destruct (first_unresolved _ tv v Hin Hv) as (resolved & m & rest & Heq & Hres & Hm).
    exists m. split; [| split; [| split]].
    + apply check_render_and_infer_raises. rewrite Heq.
      by apply require_first_unresolved.
    + rewrite Heq. apply elem_of_app. right. by left.
    + exact Hm.
    + intros Hothers. destruct (decide (m = v)) as [-> | Hne]; [reflexivity |].
      assert (Hmin : m ∈ declared_variables topic_plan_prompt).
      { rewrite Heq. apply elem_of_app. right. by left. }
      destruct (Hothers m Hmin Hne) as [x Hx]. congruence.
  - intros tv tr Hall. by apply require_all_resolved.
  - intros cp nsi style query ci oli sli jfi content v Hin.
    cbn in Hin.
    repeat (apply elem_of_cons in Hin as [-> | Hin]; [vm_compute; by eexists |]).
    by apply elem_of_nil in Hin.
Qed.

(** The check on a map that lacks "query" and "content": the first of the two
    in declaration order is named. *)
Example plan_topic_names_first_missing :
  let tv := delete "content" (delete "query"
              (make_template_vars "cp" "nsi" "style" "q" "ci" "oli" "sli" "jfi" "c")) in
  require_prompt_variables (declared_variables topic_plan_prompt) tv []
  = ([], Raise (MissingParametersException "query")).
Proof. vm_compute. reflexivity. Qed.

End PlanTopicFacts.


(** * Properties of the retry policy under the settings of settings.py *)

Module SchedulerFacts.
Import Settings Scheduler.

Lemma pow2_pos (n : Z) : 0 ≤ n → 1 ≤ 2 ^ n.
Proof. intros Hn. assert (0 < 2 ^ n) by (apply Z.pow_pos_nonneg; lia). lia. Qed.

(** From the fourth attempt on the default delay is the cap. *)
Lemma default_delay_capped (k : Z) :
  4 ≤ k → retry_delay default_settings k = 60.
Proof.
  intros Hk. unfold retry_delay. cbn.
  assert (H8 : 2 ^ 3 ≤ 2 ^ (k - 1)) by (apply Z.pow_le_mono_r; lia).
  change (2 ^ 3) with 8 in H8. lia.
Qed.

(** C8: the settings default to a base delay of 10 seconds, a cap of 60
    seconds and 3 retries.  For every attempt k >= 1 the retry delay is
    min(base_delay * 2^(k-1), max_delay): under the defaults
    min(10 * 2^(k-1), 60), that is 10, 20, 40 and then 60 seconds; it never
    exceeds the cap and never decreases with k.  A source whose attempt count
    exceeds the max retries is permanently failed and not re-submitted; up to
    the max it is re-submitted after the delay of its attempt. *)
Theorem retry_delay_and_max_retries (settings : SystemSettings) (k : Z) :
  1 ≤ k →
  scheduler_base_delay_in_seconds default_settings = 10
  ∧ scheduler_max_delay_in_seconds default_settings = 60
  ∧ scheduler_max_retries default_settings = 3
  ∧ retry_delay settings k
    = Z.min (scheduler_base_delay_in_seconds settings * 2 ^ (k - 1))
            (scheduler_max_delay_in_seconds settings)
  ∧ retry_delay default_settings k = Z.min (10 * 2 ^ (k - 1)) 60
  ∧ map (retry_delay default_settings) [1; 2; 3; 4; 5] = [10; 20; 40; 60; 60]
  ∧ 10 ≤ retry_delay default_settings k ≤ 60
  ∧ retry_delay default_settings k ≤ retry_delay default_settings (k + 1)
  ∧ (scheduler_max_retries settings < k →
     after_failure settings k = PermanentlyFailed
     ∧ status_after_failure settings k = (FAILED, false))
  ∧ (k ≤ scheduler_max_retries settings →
     after_failure settings k = Resubmit (retry_delay settings k))
  ∧ (3 < k → after_failure default_settings k = PermanentlyFailed).
Proof.
  intros Hk.
  assert (Hpow : 1 ≤ 2 ^ (k - 1)) by (apply pow2_pos; lia).
  assert (Hmono : 2 ^ (k - 1) ≤ 2 ^ (k + 1 - 1)) by (apply Z.pow_le_mono_r; lia).
  repeat split; try reflexivity.
  - unfold retry_delay. cbn. lia.
  - unfold retry_delay. cbn. lia.
  - unfold retry_delay. cbn. lia.
  - unfold after_failure. by rewrite decide_True.
  - unfold status_after_failure, after_failure. by rewrite decide_True.
  - intros Hle. unfold after_failure. rewrite decide_False; [reflexivity | lia].
  - intros Hgt. unfold after_failure. by rewrite decide_True.
Qed.

Lemma retry_delay_and_max_retries_witness :
  1 ≤ 2
  ∧ retry_delay default_settings 2 = 20
  ∧ after_failure default_settings 2 = Resubmit 20
  ∧ retry_delay default_settings 2 = Z.min (10 * 2 ^ (2 - 1)) 60.
Proof.
  assert (H : 1 ≤ 2) by lia.
  split; [exact H |].
  pose proof (retry_delay_and_max_retries default_settings 2 H) as T.
  split; [reflexivity |]. split; [reflexivity |].
  exact (proj1 (proj2 (proj2 (proj2 (proj2 T))))).
Defined.

End SchedulerFacts.


(** * Properties of the add_url command *)

Module AddUrlFacts.
Import AddUrl Tactics.




End AddUrlFacts.


(** * Properties of run_inference_call_direct *)

Module ApiUtilsFacts.
Import ApiUtils ApiUtilsTraces.

Lemma vendor_calls_app (l1 l2 : list Event) :
  vendor_calls (l1 ++ l2) = (vendor_calls l1 ++ vendor_calls l2)%list.
Proof. apply omap_app. Qed.

Lemma silent_ret {A} (a : A) : silent (Py.ret a).
Proof. by intros w. Qed.

Lemma silent_raise {A} (e : PyExc) : silent (Py.raise (A := A) e).
Proof. by intros w. Qed.

Lemma silent_lift_result {A} (r : Result A) : silent (lift_result r).
Proof. by intros w. Qed.

Lemma silent_log level msg : silent (log level msg).
Proof.
  intros w. cbn. split; [reflexivity |]. split; [reflexivity |].
  rewrite vendor_calls_app. cbn. by rewrite app_nil_r.
Qed.

Lemma silent_bind {A B} (m : M World A) (k : A → M World B) :
  silent m → (∀ a, silent (k a)) → silent (Py.bind m k).
Proof.
  intros Hm Hk w. unfold Py.bind. destruct (Hm w) as (Hs & Hc & Hv).
  destruct (m w) as [w1 [a | e]]; cbn [fst] in *; [| done].
  destruct (Hk a w1) as (Hs1 & Hc1 & Hv1). split; [congruence |].
  split; congruence.
Qed.

Create HintDb silent.
#[local] Hint Resolve silent_ret silent_raise silent_lift_result silent_log
  : silent.

Lemma silent_resolve_temperature c settings opts :
  silent (resolve_temperature c settings opts).
Proof.
  unfold resolve_temperature. apply silent_bind.
  - destruct (opts !! "temperature") as [v |]; [| auto with silent].
    destruct v; auto with silent.
    all: match goal with |- context [py_float ?c ?v] =>
           destruct (py_float c v) as [? | []] end.
    all: auto with silent.
    all: apply silent_bind; auto with silent.
  - intros t. apply silent_bind; [auto with silent |].
    intros [|]; auto with silent. apply silent_bind; auto with silent.
Qed.

Lemma silent_resolve_max_tokens c settings opts :
  silent (resolve_max_tokens c settings opts).
Proof.
  unfold resolve_max_tokens.
  destruct (opts !! "max_tokens") as [[| z | x | [| a s]] |].
  all: try (destruct (equals_minus_1 _); by auto with silent).
  all: try by auto with silent.
  all: match goal with |- context [py_int ?c ?v] =>
         destruct (py_int c v) as [? | []] end.
  all: auto with silent.
  all: apply silent_bind; auto with silent.
Qed.

(** The temperature that the temperature block returns: what float() made of
    the option, if that passes the range test, or the default. *)
Lemma resolve_temperature_returns c settings opts w w1 t :
  resolve_temperature c settings opts w = (w1, Ok t) →
  t = DEFAULT_TEMPERATURE settings
  ∨ ∃ v x, opts !! "temperature" = Some v
           ∧ py_float c v = Ok x
           ∧ t = PyFlt x
           ∧ out_of_range (PyFlt x) = Ok false.
Proof.
  unfold resolve_temperature.
  destruct (opts !! "temperature") as [v |] eqn:Hv;
    [destruct (py_float c v) as [x | e] eqn:Hx;
     [| destruct e]; destruct v as [| z | y | s] |].
  all: unfold Py.bind, Py.ret, Py.raise, lift_result, log, Py.modify.
  all: cbn [py_float].
  all: try (cbn [py_float] in Hx; first [discriminate Hx | rewrite Hx]).
  all: repeat match goal with
              | |- context [out_of_range ?v] =>
                  destruct (out_of_range v) as [[|] | ?] eqn:?
              end.
  all: intros H; try discriminate H; injection H as <- <-.
  all: try (by left).
  all: right; eexists _, _; split; [reflexivity |]; split; [exact Hx |];
    by split.
Qed.

(** The call, by what its two option blocks and the vendor answer.  Either an
    option block raised, and nothing else happened; or the one request was
    sent between two clock readings, and the usage entry and the result are
    as the answer of the vendor decides. *)
Lemma run_shape c settings user api_provider_name model_name model_options
    system_prompt user_prompt need_json call_target response_pydantic_model w :
  let run := run_inference_call_direct c settings user api_provider_name
               model_name model_options system_prompt user_prompt need_json
               call_target response_pydantic_model w in
  (∃ e, run.2 = Raise e
        ∧ option_block_raised c settings model_options w e
        ∧ usage_store run.1 = usage_store w
        ∧ clock_reads run.1 = clock_reads w
        ∧ vendor_calls (trace run.1) = vendor_calls (trace w))
  ∨ (∃ t mt w1 w2,
       resolve_temperature c settings model_options w = (w1, Ok t)
       ∧ resolve_max_tokens c settings model_options w1 = (w2, Ok mt)
       ∧ let req := expected_request model_name system_prompt user_prompt
                      need_json response_pydantic_model t mt in
         let started := clock c (clock_reads w) in
         let ended := clock c (S (clock_reads w)) in
         vendor_calls (trace run.1)
         = (vendor_calls (trace w) ++ [(req, vendor c req)])%list
         ∧ clock_reads run.1 = S (S (clock_reads w))
         ∧ match vendor c req with
           | Raise e =>
               run.2 = Raise e
               ∧ usage_store run.1
                 = (usage_store w
                    ++ [failure_entry user api_provider_name model_name
                          system_prompt user_prompt call_target started ended])%list
           | Ok x =>
               match usage x with
               | None =>
                   run.2 = Raise (AttributeError
                              "'NoneType' object has no attribute 'total_tokens'")
                   ∧ usage_store run.1 = usage_store w
               | Some u =>
                   run.2 = match expected_response c need_json
                                   response_pydantic_model x with
                           | Ok s => Ok (s, x)
                           | Raise e => Raise e
                           end
                   ∧ usage_store run.1
                     = (usage_store w
                        ++ [success_entry user api_provider_name model_name
                              system_prompt user_prompt call_target started ended
                              u])%list
               end
           end).
Proof.
  cbv zeta.
  remember (run_inference_call_direct c settings user api_provider_name
              model_name model_options system_prompt user_prompt need_json
              call_target response_pydantic_model w) as run eqn:Hrun.
  unfold run_inference_call_direct in Hrun. unfold Py.bind at 1 in Hrun.
  destruct (silent_resolve_temperature c settings model_options w)
    as (Hs1 & Hc1 & Hv1).
  destruct (resolve_temperature c settings model_options w) as [w1 [t | e]]
    eqn:Htemp; cbn [fst snd] in Hs1, Hc1, Hv1;
    [| left; exists e; subst run; split; [reflexivity |];
       split; [left; by rewrite Htemp | by repeat split]].
  unfold Py.bind at 1 in Hrun.
  destruct (silent_resolve_max_tokens c settings model_options w1)
    as (Hs2 & Hc2 & Hv2).
  destruct (resolve_max_tokens c settings model_options w1) as [w2 [mt | e]]
    eqn:Hmax; cbn [fst snd] in Hs2, Hc2, Hv2;
    [| left; exists e; subst run; cbn [fst snd]; split; [reflexivity |];
       split; [right; exists w1, t; by rewrite Hmax |];
       split; [congruence |]; split; congruence].
  right. exists t, mt, w1, w2.
  split; [first [reflexivity | assumption] |].
  split; [first [reflexivity | assumption] |].
  assert (Hreq :
    (if need_json && bool_decide (is_Some response_pydantic_model)
     then mkVendorRequest BetaChatCompletionsParse model_name system_prompt
            user_prompt t mt
            (PydanticModel (default EmptyString response_pydantic_model))
     else mkVendorRequest ChatCompletionsCreate model_name system_prompt
            user_prompt t mt
            (if need_json
             then if need_json && bool_decide (is_Some response_pydantic_model)
                  then JsonSchema else JsonObject
             else Text))
    = expected_request model_name system_prompt user_prompt need_json
        response_pydantic_model t mt).
  { unfold expected_request, expected_format, uses_parse.
    by destruct need_json, response_pydantic_model. }
  cbv zeta in Hrun. rewrite Hreq in Hrun.
  set (req := expected_request model_name system_prompt user_prompt need_json
                response_pydantic_model t mt) in *.
  destruct w2 as [us cr tr]. cbn [usage_store clock_reads trace] in Hs2, Hc2, Hv2.
  unfold record_usage, response_of, record_api_call in Hrun.
  unfold Py.bind, Py.try_finally, log, Py.modify, cur_timestamp_in_ms, outcome,
    call_vendor, lift_result, Py.ret, Py.raise in Hrun.
  cbn [usage_store clock_reads trace fst snd] in Hrun.
  rewrite <- Hs1, <- Hs2, <- Hc1, <- Hc2, <- Hv1, <- Hv2.
  destruct (vendor c req) as [x | e] eqn:Hvendor.
  - unfold usage_of in Hrun. destruct (usage x) as [u |] eqn:Hu.
    + unfold expected_response.
      destruct need_json, response_pydantic_model as [m |];
        cbn [andb] in Hrun;
        rewrite ?(bool_decide_true (is_Some (Some _))) in Hrun by eauto;
        rewrite ?(bool_decide_false (is_Some None)) in Hrun
          by apply is_Some_None;
        cbn [usage_store clock_reads trace fst snd] in Hrun;
        repeat match type of Hrun with
               | context [message_parsed_json x] =>
                   destruct (message_parsed_json x) as [? | ?]
               | context [message_content x] =>
                   destruct (message_content x) as [[? |] | ?]
               end; subst run; cbn [fst snd usage_store clock_reads trace].
      all: split; [rewrite !vendor_calls_app; cbn; by rewrite !app_nil_r |].
      all: by repeat split.
    + subst run. cbn [fst snd usage_store clock_reads trace].
      split; [rewrite !vendor_calls_app; cbn; by rewrite !app_nil_r |].
      by repeat split.
  - subst run. cbn [fst snd usage_store clock_reads trace].
    split; [rewrite !vendor_calls_app; cbn; by rewrite !app_nil_r |].
    by repeat split.
Qed.

(** C10: not every call to run_inference_call_direct records a usage entry.
    When the vendor returns a completion that carries no usage (usage is
    Optional in the vendor's ChatCompletion), completion.usage.total_tokens
    raises AttributeError at line 155 inside the try, and again at line 161
    inside the finally block, before the entry is built: the request has been
    sent, the call raises AttributeError, and the usage store is left as it
    was.  This holds for every such call, and the first example evaluates one.
    The second example is a call that never reaches the try: a default
    temperature that initialize took from the environment is a str, the
    comparison of line 80 raises TypeError, no request is sent and no entry
    is written. *)
Theorem run_inference_call_direct_completion_without_usage :
  (∀ c settings user api_provider_name model_name model_options system_prompt
     user_prompt need_json call_target response_pydantic_model w w1 w2 t mt x,
     resolve_temperature c settings model_options w = (w1, Ok t) →
     resolve_max_tokens c settings model_options w1 = (w2, Ok mt) →
     let req := expected_request model_name system_prompt user_prompt
                  need_json response_pydantic_model t mt in
     vendor c req = Ok x →
     usage x = None →
     let run := run_inference_call_direct c settings user api_provider_name
                  model_name model_options system_prompt user_prompt need_json
                  call_target response_pydantic_model w in
     run.2 = Raise (AttributeError
                      "'NoneType' object has no attribute 'total_tokens'")
     ∧ usage_store run.1 = usage_store w
     ∧ vendor_calls (trace run.1)
       = (vendor_calls (trace w) ++ [(req, Ok x)])%list)
  ∧ (let run := run_fresh vendor_without_usage declared_settings "user-1"
                  "openai" "gpt-4o-mini" ∅ "system" "user" true (Some "plan")
                  None [] 0 in
     run.2 = Raise (AttributeError
                      "'NoneType' object has no attribute 'total_tokens'")
     ∧ usage_store run.1 = []
     ∧ vendor_calls (trace run.1)
       = [(mkVendorRequest ChatCompletionsCreate "gpt-4o-mini" "system" "user"
             (PyFlt (Finite 0)) PyNone JsonObject,
           Ok completion_without_usage)])
  ∧ (let run := run_fresh vendor_up settings_from_environment "user-1"
                  "openai" "gpt-4o-mini" ∅ "system" "user" true (Some "plan")
                  None [] 0 in
     run.2 = Raise (TypeError
                      "'<' not supported between instances of 'str' and 'int'")
     ∧ usage_store run.1 = []
     ∧ vendor_calls (trace run.1) = []).
Proof.
  split; [| split; by vm_compute].
  intros c settings user api_provider_name model_name model_options
    system_prompt user_prompt need_json call_target response_pydantic_model
    w w1 w2 t mt x Htemp Hmax req Hvendor Husage run.
  destruct (run_shape c settings user api_provider_name model_name
              model_options system_prompt user_prompt need_json call_target
              response_pydantic_model w)
    as [(e & _ & [Hraised | (w1' & t' & Ht' & Hraised)] & _)
       | (t' & mt' & w1' & w2' & Ht' & Hmt' & Hcalls & _ & Hanswer)].
  - rewrite Htemp in Hraised. discriminate Hraised.
  - rewrite Htemp in Ht'. injection Ht' as <- <-.
    rewrite Hmax in Hraised. discriminate Hraised.
  - rewrite Htemp in Ht'. injection Ht' as <- <-.
    rewrite Hmax in Hmt'. injection Hmt' as <- <-.
    cbv zeta in Hcalls, Hanswer. fold req run in Hcalls, Hanswer.
    rewrite Hvendor in Hcalls, Hanswer. rewrite Husage in Hanswer.
    destruct Hanswer as [Hres Hstore]. by repeat split.
Qed.

End ApiUtilsFacts.


(** * More properties of the search-to-docsource step *)

Module SearchToDocsourceMoreFacts.
Import SearchToDocsource Scenarios SearchToDocsourceTraces Tactics MoreTactics.

(** X1: a run asks the store to create at most one docsource; when no
    docsource was created the run raises, and it has then neither called the
    scheduler, the wait, the search or the pipeline, nor written to the
    store. *)
Theorem run_step_creates_at_most_once c ei kw s0 :
  (length (creations (trace_of c ei kw s0)) ≤ 1)%nat
  ∧ ((∀ dsc d, ¬ In (CreateDocsource dsc (Ok d)) (trace_of c ei kw s0)) →
     (∃ e, result_of c ei kw s0 = Raise e)
     ∧ calls_no_service (trace_of c ei kw s0)
     ∧ writes_no_docsource (trace_of c ei kw s0)).
Proof.
  unfold calls_no_service, writes_no_docsource, creations. step_paths.
  all: split; [cbn; lia |].
  all: intros Hnone.
  all: try (exfalso; eapply Hnone; pick_event).
  all: split; [by eexists |].
  all: repeat split; absent.
Qed.

(** X2: the synchronous pipeline always searches the web for the query
    content of the chat query item.  The search_keywords argument only names
    the docsource: the created docsource is displayed under the keywords (the
    query content when no keywords are given) and its uri carries them, but
    they never reach the search. *)
Theorem run_step_searches_for_query_content c ei kw s0 item q d a :
  target_chat_query_item ei = Some item →
  In (SearchAndScrape q d a) (trace_of c ei kw s0) →
  q = query_content item
  ∧ ∃ dsc, In (CreateDocsource dsc (Ok d)) (trace_of c ei kw s0)
           ∧ dsc_display_name dsc = default (query_content item) kw
           ∧ dsc_source_type dsc = SEARCH
           ∧ dsc_kb_id dsc = kb_id (kb ei)
           ∧ ∃ retriever_type (days_limit max_results : Z),
               dsc_uri dsc
               = "search://" ++ retriever_type ++ "?q="
                 ++ default (query_content item) kw
                 ++ "&date_range=" ++ pretty days_limit
                 ++ "&max_results=" ++ pretty max_results
                 ++ "&ts=" ++ now_strftime c.
Proof.
  step_paths.
  all: intros Hitem H; in_cases H.
  all: simplify_eq.
  all: split; [reflexivity |].
  all: eexists; split; [pick_event |].
  all: cbn [dsc_display_name dsc_source_type dsc_kb_id dsc_uri].
  all: repeat (split; [reflexivity |]).
  all: by eexists _, _, _.
Qed.

Lemma run_step_searches_for_query_content_witness :
  let ei := exec_info_for (Some the_query) false false in
  let tr := trace_of search_finds_nothing ei (Some "coq") ∅ in
  let d := created_from "ds-1"
             (mkDocSourceCreate None "kb-1" SEARCH
                "search://google?q=coq&date_range=0&max_results=10&ts=2025-01-01-00-00-00"
                "coq"
                (Some (mkIngestConfig ∅ [("chat_id", "chat-1");
                                          ("query_id", "query-1")]))) in
  target_chat_query_item ei = Some the_query
  ∧ In (SearchAndScrape "rocq prover" d (Ok (Some []))) tr
  ∧ ∃ dsc, In (CreateDocsource dsc (Ok d)) tr ∧ dsc_display_name dsc = "coq".
Proof.
  intros ei tr d.
  assert (Hitem : target_chat_query_item ei = Some the_query) by reflexivity.
  assert (H : In (SearchAndScrape "rocq prover" d (Ok (Some []))) tr)
    by (vm_compute; pick_event).
  split; [exact Hitem |]. split; [exact H |].
  destruct (run_step_searches_for_query_content
              search_finds_nothing ei (Some "coq") ∅ the_query _ _ _ Hitem H)
    as (_ & dsc & Hin & Hname & _).
  exists dsc. split; [exact Hin | exact Hname].
Defined.

(** X3: when the step starts the scheduler itself and run_scheduler returns
    True, the step returns the created docsource at once: run_scheduler is
    the last thing it calls, it does not wait for the docsource and writes
    nothing to the store. *)
Theorem run_step_scheduler_started c ei kw s0 :
  In (RunScheduler (Ok true)) (trace_of c ei kw s0) →
  (∃ dsc d, In (CreateDocsource dsc (Ok d)) (trace_of c ei kw s0)
            ∧ result_of c ei kw s0 = Ok d)
  ∧ last (trace_of c ei kw s0) = Some (RunScheduler (Ok true))
  ∧ waits_for_nothing (trace_of c ei kw s0)
  ∧ writes_no_docsource (trace_of c ei kw s0)
  ∧ scheduler_is_running ei = false.
Proof.
  unfold waits_for_nothing, writes_no_docsource. step_paths.
  all: intros H; in_cases H.
  all: simplify_eq.
  all: split; [do 2 eexists; split; [pick_event | reflexivity] |].
  all: split; [reflexivity |].
  all: repeat split; try absent.
Qed.

Lemma run_step_scheduler_started_witness :
  let c := answering (Ok true) (Ok false) (Ok None) (Ok []) in
  let tr := trace_of c (exec_info_with true false) None ∅ in
  In (RunScheduler (Ok true)) tr
  ∧ result_of c (exec_info_with true false) None ∅ = Ok the_docsource
  ∧ last tr = Some (RunScheduler (Ok true))
  ∧ waits_for_nothing tr.
Proof.
  intros c tr.
  assert (H : In (RunScheduler (Ok true)) tr) by (vm_compute; pick_event).
  split; [exact H |].
  destruct (run_step_scheduler_started c (exec_info_with true false) None ∅ H)
    as (_ & Hlast & Hwait & _).
  split; [reflexivity |]. split; [exact Hlast | exact Hwait].
Defined.

(** X4: when the wait on the docsource store answers True, the step sets the
    docsource to COMPLETED, stores it as its last action and returns it; the
    store then holds the COMPLETED record. *)
Theorem run_step_wait_finished c ei kw s0 d t :
  In (WaitForDocsource d t (Ok true)) (trace_of c ei kw s0) →
  result_of c ei kw s0 = Ok (set_source_status COMPLETED d)
  ∧ last (trace_of c ei kw s0)
    = Some (UpdateDocsource (set_source_status COMPLETED d))
  ∧ store_after c ei kw s0 !! docsource_uuid d
    = Some (set_source_status COMPLETED d)
  ∧ In (Log INFO "The document source has finished processing.")
       (trace_of c ei kw s0)
  ∧ auto_schedule (kb ei) = true.
Proof.
  step_paths.
  all: intros H; in_cases H.
  all: simplify_eq.
  all: try discriminate.
  all: split; [reflexivity |]; split; [reflexivity |].
  all: split; [apply lookup_insert_eq |]; split; [pick_event | reflexivity].
Qed.

Lemma run_step_wait_finished_witness :
  let tr := trace_of finished_in_time (exec_info_with true true) None ∅ in
  In (WaitForDocsource the_docsource 300 (Ok true)) tr
  ∧ result_of finished_in_time (exec_info_with true true) None ∅
    = Ok (set_source_status COMPLETED the_docsource)
  ∧ last tr = Some (UpdateDocsource (set_source_status COMPLETED the_docsource)).
Proof.
  intros tr.
  assert (H : In (WaitForDocsource the_docsource 300 (Ok true)) tr)
    by (vm_compute; pick_event).
  split; [exact H |].
  destruct (run_step_wait_finished
              finished_in_time (exec_info_with true true) None ∅ _ _ H)
    as (Hres & Hlast & _).
  split; [exact Hres | exact Hlast].
Defined.

(** X5: with auto_schedule set the step never marks a docsource FAILED.  What
    it stores, if anything, is COMPLETED; when run_scheduler or the wait
    raises, the exception reaches the caller as it is and nothing was
    written, so the docsource stays as the store created it. *)
Theorem run_step_scheduled_never_marks_failed c ei kw s0 :
  auto_schedule (kb ei) = true →
  (∀ d, In (UpdateDocsource d) (trace_of c ei kw s0) →
        source_status d = COMPLETED)
  ∧ (∀ e, scheduling_raised e (trace_of c ei kw s0) →
          result_of c ei kw s0 = Raise e
          ∧ writes_no_docsource (trace_of c ei kw s0))
  ∧ (∀ q d a, ¬ In (SearchAndScrape q d a) (trace_of c ei kw s0))
  ∧ (∀ l a, ¬ In (AdhocPipeline l a) (trace_of c ei kw s0)).
Proof.
  unfold scheduling_raised, writes_no_docsource. step_paths.
  all: intros Hauto; try discriminate Hauto.
  all: split; [intros d' H'; in_cases H'; by injection H' as <- |].
  all: split; [| split; absent].
  all: intros e' [H | (d' & t' & H)]; in_cases H.
  all: simplify_eq.
  all: split; [reflexivity | absent].
Qed.

Lemma run_step_scheduled_never_marks_failed_witness :
  let e := RaisedByCollaborator "docsource_store" "timeout" in
  let c := answering (Ok false) (Raise e) (Ok None) (Ok []) in
  let ei := exec_info_with true true in
  auto_schedule (kb ei) = true
  ∧ scheduling_raised e (trace_of c ei None ∅)
  ∧ result_of c ei None ∅ = Raise e
  ∧ writes_no_docsource (trace_of c ei None ∅).
Proof.
  intros e c ei.
  assert (Hauto : auto_schedule (kb ei) = true) by reflexivity.
  assert (Hraised : scheduling_raised e (trace_of c ei None ∅)).
  { right. exists the_docsource, 300. vm_compute. pick_event. }
  split; [exact Hauto |]. split; [exact Hraised |].
  exact (proj1 (proj2 (run_step_scheduled_never_marks_failed c ei None ∅ Hauto))
           e Hraised).
Defined.

(** X6: the ad-hoc pipeline is only run on a non-empty list of docsinks; when
    it returns, the step logs how many documents were processed, stores the
    docsource as COMPLETED as its last write and returns it. *)
Theorem run_step_pipeline_done c ei kw s0 l docs :
  In (AdhocPipeline l (Ok docs)) (trace_of c ei kw s0) →
  l ≠ []
  ∧ (∃ q d, In (SearchAndScrape q d (Ok (Some l))) (trace_of c ei kw s0)
            ∧ result_of c ei kw s0 = Ok (set_source_status COMPLETED d)
            ∧ store_after c ei kw s0 !! docsource_uuid d
              = Some (set_source_status COMPLETED d)
            ∧ (∀ d', In (UpdateDocsource d') (trace_of c ei kw s0) →
                     d' = set_source_status COMPLETED d))
  ∧ last (trace_of c ei kw s0)
    = Some (Log INFO ("Successfully processed " ++ pretty (length docs)
                        ++ " documents.")).
Proof.
  step_paths.
  all: intros H; in_cases H.
  all: simplify_eq.
  all: match goal with
       | Hne : none_or_empty ?o = false |- _ =>
           destruct o as [[| x xs] |]; try discriminate Hne
       end.
  all: cbn [default from_option id] in *.
  all: split; [discriminate |].
  all: split; [| reflexivity].
  all: do 2 eexists; split; [pick_event |]; split; [reflexivity |].
  all: split; [apply lookup_insert_eq |].
  all: intros d' H'; in_cases H'; by injection H' as <-.
Qed.

Lemma run_step_pipeline_done_witness :
  let sinks := [mkDocSinkCreate "ds-1" "https://rocq-prover.org"] in
  let docs := [mkDocument "doc-1" "sink-1" "ds-1"] in
  let c := answering (Ok false) (Ok false) (Ok (Some sinks)) (Ok docs) in
  let tr := trace_of c (exec_info_with false false) None ∅ in
  In (AdhocPipeline sinks (Ok docs)) tr
  ∧ sinks ≠ []
  ∧ last tr = Some (Log INFO "Successfully processed 1 documents.").
Proof.
  intros sinks docs c tr.
  assert (H : In (AdhocPipeline sinks (Ok docs)) tr) by (vm_compute; pick_event).
  split; [exact H |].
  destruct (run_step_pipeline_done c (exec_info_with false false) None ∅ _ _ H)
    as (Hne & _ & Hlast).
  split; [exact Hne | exact Hlast].
Defined.

End SearchToDocsourceMoreFacts.


(** * More properties of the add_url command *)

Module AddUrlMoreFacts.
Import AddUrl AddUrlTraces Tactics MoreTactics.

(** X7: a chunk size that int() rejects stops the command after the
    organisation, knowledge base and user were set up: the ValueError reaches
    the caller, and no docsource was created, no pipeline run and nothing
    printed. *)
Theorem add_url_rejects_chunk_size c url org_name kb_name username text
    scheduler_check ctx s0 e who :
  int_of_str c text = Raise e →
  In (SetupOrgKbUser (Ok who))
     (trace_of c url org_name kb_name username (Some text) scheduler_check ctx s0) →
  result_of c url org_name kb_name username (Some text) scheduler_check ctx s0
  = Raise e
  ∧ trace_of c url org_name kb_name username (Some text) scheduler_check ctx s0
    = [SetupOrgKbUser (Ok who)]
  ∧ DEFAULT_CHUNK_SIZE
      (context_after c url org_name kb_name username (Some text)
                     scheduler_check ctx s0)
    = DEFAULT_CHUNK_SIZE ctx.
Proof.
  unfold context_after. intros Hint. command_paths.
  all: intros H; in_cases H.
  all: simplify_eq.
  all: by repeat split.
Qed.

Lemma add_url_rejects_chunk_size_witness :
  let e := ValueError "invalid literal for int() with base 10: 5k" in
  let who := (mkOrg "org-default-id" "org-default",
              mkKnowledgeBase "kb-1" "kb-default" false,
              mkUser "admin" "user-1") in
  let tr := trace_of rejecting_chunk_size "https://example.org" None None None
                     (Some "5k") true fresh_context (mkStores ∅ []) in
  int_of_str rejecting_chunk_size "5k" = Raise e
  ∧ In (SetupOrgKbUser (Ok who)) tr
  ∧ result_of rejecting_chunk_size "https://example.org" None None None
              (Some "5k") true fresh_context (mkStores ∅ []) = Raise e
  ∧ tr = [SetupOrgKbUser (Ok who)].
Proof.
  intros e who tr.
  assert (Hint : int_of_str rejecting_chunk_size "5k" = Raise e) by reflexivity.
  assert (H : In (SetupOrgKbUser (Ok who)) tr) by (vm_compute; pick_event).
  split; [exact Hint |]. split; [exact H |].
  destruct (add_url_rejects_chunk_size rejecting_chunk_size
              "https://example.org" None None None "5k" true fresh_context
              (mkStores ∅ []) e who Hint H) as (Hres & Htr & _).
  split; [exact Hres | exact Htr].
Defined.

(** X8: the command always leaves the context with is_svc False and the name
    add_url_to_kb; it marks a scheduler as running exactly when
    scheduler_check is False (otherwise it keeps the flag), and it keeps the
    default chunk size when no chunk size is given.  A pipeline that was run
    was run in that same context. *)
Theorem add_url_context c url org_name kb_name username chunk_size
    scheduler_check ctx s0 :
  let ctx1 := context_after c url org_name kb_name username chunk_size
                            scheduler_check ctx s0 in
  let tr := trace_of c url org_name kb_name username chunk_size
                     scheduler_check ctx s0 in
  is_svc ctx1 = false
  ∧ name ctx1 = "add_url_to_kb"
  ∧ scheduler_is_running ctx1
    = (if scheduler_check then scheduler_is_running ctx else true)
  ∧ (chunk_size = None → DEFAULT_CHUNK_SIZE ctx1 = DEFAULT_CHUNK_SIZE ctx)
  ∧ (∀ text n, chunk_size = Some text → int_of_str c text = Ok n →
               (∃ who, In (SetupOrgKbUser (Ok who)) tr) →
               DEFAULT_CHUNK_SIZE ctx1 = n)
  ∧ (∀ d a, In (ProcessDocsourceManual d a) tr →
            ∃ s, a = (process_docsource_manual c ctx1 s d).2)
  ∧ (∀ ds a, In (ProcessDocsourcesAuto ds a) tr →
             ∃ s, a = (process_docsources_auto c ctx1 s ds).2).
Proof.
  unfold context_after. destruct scheduler_check. all: command_paths.
  all: try match goal with H : negb _ = _ |- _ => by cbn in H end.
  all: split; [reflexivity |]; split; [reflexivity |]; split; [reflexivity |].
  all: split; [intros Hnone; first [reflexivity | discriminate Hnone] |].
  all: split; [intros text n Htext Hn [who H]; in_cases H; congruence |].
  all: split; intros ? ? H; in_cases H; simplify_eq.
  all: match goal with
       | Heq : process_docsource_manual _ _ ?s _ = _ |- _ =>
           exists s; cbn; by rewrite Heq
       | Heq : process_docsources_auto _ _ ?s _ = _ |- _ =>
           exists s; cbn; by rewrite Heq
       end.
Qed.

(** X9: the docsource the command asks for is a URL source whose uri and
    display name are both the url, in the organisation and knowledge base
    that the setup returned and without ingest configuration.  With
    auto_schedule on, the created docsource goes to the scheduled pipeline,
    alone in its list, and the manual pipeline is not run. *)
Theorem add_url_scheduled c url org_name kb_name username chunk_size
    scheduler_check ctx s0 org kb user dsc d :
  let tr := trace_of c url org_name kb_name username chunk_size
                     scheduler_check ctx s0 in
  In (SetupOrgKbUser (Ok (org, kb, user))) tr →
  In (CreateDocsource dsc (Ok d)) tr →
  dsc = mkDocSourceCreate (Some (org_id org)) (kb_id kb) URL url url None
  ∧ (auto_schedule kb = true →
     (∃ a, In (ProcessDocsourcesAuto [d] a) tr)
     ∧ (∀ d' a, ¬ In (ProcessDocsourceManual d' a) tr)
     ∧ (∀ ds a, In (ProcessDocsourcesAuto ds a) tr → ds = [d])).
Proof.
  command_paths.
  all: intros Hsetup Hcreate; in_cases Hsetup; in_cases Hcreate.
  all: simplify_eq.
  all: split; [reflexivity |].
  all: intros Hauto; first [congruence | idtac].
  all: split; [eexists; pick_event |].
  all: split; [absent |].
  all: intros ? ? H; in_cases H; by simplify_eq.
Qed.

Lemma add_url_scheduled_witness :
  let c := producing true one_page in
  let url := "https://example.org" in
  let org := mkOrg "org-default-id" "org-default" in
  let kb := mkKnowledgeBase "kb-1" "kb-default" true in
  let user := mkUser "admin" "user-1" in
  let dsc := mkDocSourceCreate (Some "org-default-id") "kb-1" URL url url None in
  let d := mkDocSource "ds-1" "kb-1" URL url url CREATED None in
  let tr := trace_of c url None None None None true fresh_context
                     (mkStores ∅ []) in
  In (SetupOrgKbUser (Ok (org, kb, user))) tr
  ∧ In (CreateDocsource dsc (Ok d)) tr
  ∧ (∃ a, In (ProcessDocsourcesAuto [d] a) tr)
  ∧ (∀ d' a, ¬ In (ProcessDocsourceManual d' a) tr).
Proof.
  intros c url org kb user dsc d tr.
  assert (Hsetup : In (SetupOrgKbUser (Ok (org, kb, user))) tr)
    by (vm_compute; pick_event).
  assert (Hcreate : In (CreateDocsource dsc (Ok d)) tr)
    by (vm_compute; pick_event).
  split; [exact Hsetup |]. split; [exact Hcreate |].
  destruct (add_url_scheduled c url None None None None true fresh_context
              (mkStores ∅ []) org kb user dsc d Hsetup Hcreate)
    as (_ & Hauto).
  destruct (Hauto eq_refl) as (Hin & Hno & _).
  split; [exact Hin | exact Hno].
Defined.

(** X10: when a pipeline raises, the command raises the same exception; the
    pipeline call is the last thing it did: it does not read the document
    store, prints nothing and logs no error line. *)
Theorem add_url_pipeline_raises c url org_name kb_name username chunk_size
    scheduler_check ctx s0 e :
  let tr := trace_of c url org_name kb_name username chunk_size
                     scheduler_check ctx s0 in
  pipeline_raised e tr →
  result_of c url org_name kb_name username chunk_size scheduler_check ctx s0
  = Raise e
  ∧ (∀ d found, ¬ In (GetDocumentsForDocsource d found) tr)
  ∧ reports_nothing tr
  ∧ ((∃ d, last tr = Some (ProcessDocsourceManual d (Raise e)))
     ∨ (∃ ds, last tr = Some (ProcessDocsourcesAuto ds (Raise e)))).
Proof.
  unfold pipeline_raised, reports_nothing. command_paths.
  all: intros [[? H] | [? H]]; in_cases H.
  all: simplify_eq.
  all: split; [reflexivity |]; split; [absent |]; split; [split; absent |].
  all: first [left; by eexists | right; by eexists].
Qed.

Lemma add_url_pipeline_raises_witness :
  let e := RaisedByCollaborator "pipeline" "fetch failed" in
  let c := failing_pipeline false in
  let tr := trace_of c "https://example.org" None None None None true
                     fresh_context (mkStores ∅ []) in
  pipeline_raised e tr
  ∧ result_of c "https://example.org" None None None None true
              fresh_context (mkStores ∅ []) = Raise e
  ∧ reports_nothing tr.
Proof.
  intros e c tr.
  assert (H : pipeline_raised e tr).
  { left. exists (mkDocSource "ds-1" "kb-1" URL "https://example.org"
                    "https://example.org" CREATED None).
    vm_compute. pick_event. }
  split; [exact H |].
  destruct (add_url_pipeline_raises c "https://example.org" None None None None
              true fresh_context (mkStores ∅ []) e H) as (Hres & _ & Hrep & _).
  split; [exact Hres | exact Hrep].
Defined.

End AddUrlMoreFacts.


(** * More properties of run_inference_call_direct *)

Module ApiUtilsMoreFacts.
Import ApiUtils ApiUtilsTraces.

(** A float that passes the range test of line 80 is NaN or lies between 0
    and 2. *)
Lemma passes_range_test (x : PyFloat) :
  out_of_range (PyFlt x) = Ok false →
  x = NaN ∨ in_range (PyFlt x).
Proof.
  unfold out_of_range. destruct x as [q | | |]; cbn; try discriminate.
  - destruct (Qle_bool 0 q) eqn:H0; cbn; [| discriminate].
    destruct (Qle_bool q 2) eqn:H2; cbn; [| discriminate].
    intros _. right. split; by apply Qle_bool_iff.
  - by left.
Qed.

(** The vendor calls of a run from an empty trace: none, or the one request
    with the temperature and the max_tokens that the option blocks returned. *)
Lemma run_fresh_calls c settings user api_provider_name model_name
    model_options system_prompt user_prompt need_json call_target
    response_pydantic_model entries reads :
  let w := mkWorld entries reads [] in
  let run := run_fresh c settings user api_provider_name model_name
               model_options system_prompt user_prompt need_json call_target
               response_pydantic_model entries reads in
  vendor_calls (trace run.1) = []
  ∨ ∃ t mt w1 w2,
      resolve_temperature c settings model_options w = (w1, Ok t)
      ∧ resolve_max_tokens c settings model_options w1 = (w2, Ok mt)
      ∧ let req := expected_request model_name system_prompt user_prompt
                     need_json response_pydantic_model t mt in
        vendor_calls (trace run.1) = [(req, vendor c req)].
Proof.
  intros w run. subst run. unfold run_fresh. fold w.
  destruct (ApiUtilsFacts.run_shape c settings user api_provider_name
              model_name model_options system_prompt user_prompt need_json
              call_target response_pydantic_model w)
    as [(e & _ & _ & _ & _ & Hcalls)
       | (t & mt & w1 & w2 & Ht & Hmt & Hcalls & _)].
  - left. exact Hcalls.
  - right. exists t, mt, w1, w2. split; [exact Ht |]. split; [exact Hmt |].
    exact Hcalls.
Qed.

(** X11: the temperature of a request that is sent is the default, or what
    float() made of the temperature option when that float is NaN or lies
    between 0 and 2.  So a value outside the range, and a text that float()
    rejects with ValueError, are replaced by the default, and when the default
    is itself a number between 0 and 2 the temperature sent is a number
    between 0 and 2 or is NaN: float('nan') is a float for which both tests
    of line 80 are False, and it is sent to the vendor as it is. *)
Theorem request_temperature_in_range_or_nan c settings user api_provider_name
    model_name model_options system_prompt user_prompt need_json call_target
    response_pydantic_model entries reads req answer :
  in_range (DEFAULT_TEMPERATURE settings) →
  In (req, answer)
     (vendor_calls
        (trace (run_fresh c settings user api_provider_name model_name
                  model_options system_prompt user_prompt need_json call_target
                  response_pydantic_model entries reads).1)) →
  (temperature req = DEFAULT_TEMPERATURE settings
   ∨ ∃ v x, model_options !! "temperature" = Some v
            ∧ py_float c v = Ok x
            ∧ temperature req = PyFlt x
            ∧ (x = NaN ∨ in_range (PyFlt x)))
  ∧ (temperature req = PyFlt NaN ∨ in_range (temperature req)).
Proof.
  intros Hdefault Hin.
  destruct (run_fresh_calls c settings user api_provider_name model_name
              model_options system_prompt user_prompt need_json call_target
              response_pydantic_model entries reads)
    as [Hcalls | (t & mt & w1 & w2 & Ht & _ & Hcalls)];
    cbv zeta in Hcalls; rewrite Hcalls in Hin; [destruct Hin |].
  destruct Hin as [[= <- _] | []]. cbn [temperature expected_request].
  destruct (ApiUtilsFacts.resolve_temperature_returns _ _ _ _ _ _ Ht)
    as [-> | (v & x & Hv & Hx & -> & Hrange)];
    [split; [by left | by right] |].
  pose proof (passes_range_test x Hrange) as Hpass.
  split; [right; by exists v, x |].
  destruct Hpass as [-> | Hx']; [by left | by right].
Qed.

Lemma request_temperature_in_range_or_nan_witness :
  let options : gmap string PyValue := {[ "temperature" := PyStr "nan" ]} in
  let req := mkVendorRequest ChatCompletionsCreate "gpt-4o-mini" "system" "user"
                             (PyFlt NaN) PyNone JsonObject in
  in_range (DEFAULT_TEMPERATURE declared_settings)
  ∧ In (req, vendor vendor_up req)
       (vendor_calls
          (trace (run_fresh vendor_up declared_settings "user-1" "openai"
                    "gpt-4o-mini" options "system" "user" true None None [] 0).1))
  ∧ (temperature req = DEFAULT_TEMPERATURE declared_settings
     ∨ ∃ v x, options !! "temperature" = Some v
              ∧ py_float vendor_up v = Ok x
              ∧ temperature req = PyFlt x
              ∧ (x = NaN ∨ in_range (PyFlt x)))
  ∧ (temperature req = PyFlt NaN ∨ in_range (temperature req)).
Proof.
  intros options req.
  assert (Hdefault : in_range (DEFAULT_TEMPERATURE declared_settings))
    by (split; vm_compute; discriminate).
  assert (Hin : In (req, vendor vendor_up req)
                  (vendor_calls
                     (trace (run_fresh vendor_up declared_settings "user-1"
                               "openai" "gpt-4o-mini" options "system" "user"
                               true None None [] 0).1)))
    by (vm_compute; left; reflexivity).
  split; [exact Hdefault |]. split; [exact Hin |].
  exact (request_temperature_in_range_or_nan vendor_up declared_settings
           "user-1" "openai" "gpt-4o-mini" options "system" "user" true None
           None [] 0 req _ Hdefault Hin).
Defined.

(** X12: a call sends at most one request, and none only when one of the two
    option blocks raised, which is then what the call raises.  The request
    goes to the structured-output endpoint, with the response model as format,
    exactly when need_json is set and a response model is given; otherwise it
    goes to chat.completions.create with the json_object format when need_json
    is set and the text format when it is not.  The json_schema format is
    never sent.  When the call returns, it returns the completion that the
    vendor gave for this request together with, in the same three cases, the
    parsed JSON, the content with the json fences stripped, or the content as
    it is; and for a completion that carries usage the call returns this pair
    or raises what reading the message raises. *)
Theorem request_endpoint_and_format c settings user api_provider_name
    model_name model_options system_prompt user_prompt need_json call_target
    response_pydantic_model entries reads :
  let run := run_fresh c settings user api_provider_name model_name
               model_options system_prompt user_prompt need_json call_target
               response_pydantic_model entries reads in
  (vendor_calls (trace run.1) = []
   ∧ ∃ e, run.2 = Raise e
          ∧ option_block_raised c settings model_options
              (mkWorld entries reads []) e)
  ∨ ∃ req,
      vendor_calls (trace run.1) = [(req, vendor c req)]
      ∧ (endpoint req = BetaChatCompletionsParse
         ↔ need_json = true ∧ is_Some response_pydantic_model)
      ∧ (endpoint req = ChatCompletionsCreate
         ↔ need_json = false ∨ response_pydantic_model = None)
      ∧ response_format req
        = match need_json, response_pydantic_model with
          | true, Some m => PydanticModel m
          | true, None => JsonObject
          | false, _ => Text
          end
      ∧ response_format req ≠ JsonSchema
      ∧ model req = model_name
      ∧ system_content req = system_prompt
      ∧ user_content req = user_prompt
      ∧ (∀ s x, run.2 = Ok (s, x) →
                vendor c req = Ok x
                ∧ expected_response c need_json response_pydantic_model x = Ok s)
      ∧ (∀ x, vendor c req = Ok x → is_Some (usage x) →
              run.2 = match expected_response c need_json
                              response_pydantic_model x with
                      | Ok s => Ok (s, x)
                      | Raise e => Raise e
                      end).
Proof.
  intros run. subst run. unfold run_fresh.
  destruct (ApiUtilsFacts.run_shape c settings user api_provider_name
              model_name model_options system_prompt user_prompt need_json
              call_target response_pydantic_model (mkWorld entries reads []))
    as [(e & Hres & Hraised & _ & _ & Hcalls)
       | (t & mt & w1 & w2 & _ & _ & Hcalls & _ & Hanswer)].
  { left. split; [exact Hcalls |]. by exists e. }
  right. cbv zeta in Hcalls, Hanswer. eexists. split; [exact Hcalls |].
  unfold expected_request at 1 2 3 4 5 6 7, expected_format, uses_parse.
  cbn [endpoint response_format model system_content user_content].
  split; [| split; [| split; [reflexivity |]]].
  - destruct need_json, response_pydantic_model as [m |]; cbn;
      split; try discriminate; try (intros [? [? ?]]; discriminate);
      try (intros [? ?]; discriminate); by eauto.
  - destruct need_json, response_pydantic_model as [m |]; cbn;
      split; try discriminate; try (intros [? | ?]; discriminate); by eauto.
  - split; [by destruct need_json, response_pydantic_model |].
    repeat (split; [reflexivity |]).
    match type of Hanswer with
    | context [vendor c ?r] => set (req := r) in *
    end.
    destruct (vendor c req) as [x | e];
      [destruct (usage x) as [u |] eqn:Husage |];
      destruct Hanswer as [Hres _]; rewrite Hres; split.
    + intros s x'.
      destruct (expected_response c need_json response_pydantic_model x)
        as [s' | e] eqn:Hexp; [| discriminate].
      intros [= <- <-]. by split.
    + by intros x' [= <-] _.
    + intros s x' H. discriminate H.
    + intros x' [= <-] [u Hu]. rewrite Husage in Hu. discriminate Hu.
    + intros s x' H. discriminate H.
    + intros x' H. discriminate H.
Qed.

(** X13: a call that an option block stopped does not read the clock, sends
    nothing and writes nothing.  Every other call sends its one request and
    reads the clock exactly twice.  The usage store gains the one entry of the
    call exactly when the vendor raised (success False, token counts 0, -1 and
    -1, and the exception of the vendor leaves the call) or returned a
    completion that carries usage (success True and the token counts of the
    completion); for a completion without usage the call raises
    AttributeError and the store is left as it was.  The entry carries the
    first clock reading as its start and the second as its end, the user, the
    provider, the model, the prompts in full, the call target, the completion
    endpoint and is_batch False; with a clock that does not run backwards it
    never ends before it starts. *)
Theorem usage_entry_timing c settings user api_provider_name model_name
    model_options system_prompt user_prompt need_json call_target
    response_pydantic_model entries reads :
  let run := run_fresh c settings user api_provider_name model_name
               model_options system_prompt user_prompt need_json call_target
               response_pydantic_model entries reads in
  (∃ e, run.2 = Raise e
        ∧ option_block_raised c settings model_options
            (mkWorld entries reads []) e
        ∧ usage_store run.1 = entries
        ∧ clock_reads run.1 = reads
        ∧ vendor_calls (trace run.1) = [])
  ∨ ∃ req,
      vendor_calls (trace run.1) = [(req, vendor c req)]
      ∧ clock_reads run.1 = (reads + 2)%nat
      ∧ match vendor c req with
        | Ok x =>
            match usage x with
            | None =>
                usage_store run.1 = entries
                ∧ run.2 = Raise (AttributeError
                             "'NoneType' object has no attribute 'total_tokens'")
            | Some u =>
                ∃ entry,
                  usage_store run.1 = (entries ++ [entry])%list
                  ∧ success entry = true
                  ∧ total_token_count entry = total_tokens u
                  ∧ input_token_count entry = prompt_tokens u
                  ∧ output_token_count entry = completion_tokens u
                  ∧ start_timestamp_in_ms entry = clock c reads
                  ∧ end_timestamp_in_ms entry = clock c (S reads)
                  ∧ user_uuid entry = user
                  ∧ api_provider entry = api_provider_name
                  ∧ target_model_name entry = model_name
                  ∧ usage_system_prompt entry = system_prompt
                  ∧ usage_user_prompt entry = user_prompt
                  ∧ usage_call_target entry = call_target
                  ∧ usage_endpoint entry = API_CALL_ENDPOINT_COMPLETION
                  ∧ is_batch entry = false
                  ∧ ((∀ n, clock c n ≤ clock c (S n)) →
                     start_timestamp_in_ms entry ≤ end_timestamp_in_ms entry)
            end
        | Raise e =>
            run.2 = Raise e
            ∧ ∃ entry,
                usage_store run.1 = (entries ++ [entry])%list
                ∧ success entry = false
                ∧ total_token_count entry = 0
                ∧ input_token_count entry = -1
                ∧ output_token_count entry = -1
                ∧ start_timestamp_in_ms entry = clock c reads
                ∧ end_timestamp_in_ms entry = clock c (S reads)
                ∧ user_uuid entry = user
                ∧ api_provider entry = api_provider_name
                ∧ target_model_name entry = model_name
                ∧ usage_system_prompt entry = system_prompt
                ∧ usage_user_prompt entry = user_prompt
                ∧ usage_call_target entry = call_target
                ∧ usage_endpoint entry = API_CALL_ENDPOINT_COMPLETION
                ∧ is_batch entry = false
                ∧ ((∀ n, clock c n ≤ clock c (S n)) →
                   start_timestamp_in_ms entry ≤ end_timestamp_in_ms entry)
        end.
Proof.
  intros run. subst run. unfold run_fresh.
  destruct (ApiUtilsFacts.run_shape c settings user api_provider_name
              model_name model_options system_prompt user_prompt need_json
              call_target response_pydantic_model (mkWorld entries reads []))
    as [(e & Hres & Hraised & Hstore & Hreads & Hcalls)
       | (t & mt & w1 & w2 & _ & _ & Hcalls & Hreads & Hanswer)].
  { left. by exists e. }
  right. cbv zeta in Hcalls, Hanswer. eexists. split; [exact Hcalls |].
  cbn [clock_reads usage_store] in Hreads, Hanswer.
  split; [rewrite Hreads; lia |].
  match type of Hanswer with
  | context [vendor c ?r] => set (req := r) in *
  end.
  destruct (vendor c req) as [x | e]; [destruct (usage x) as [u |] |];
    destruct Hanswer as [Hres Hstore].
  - eexists. split; [exact Hstore |]. cbn.
    repeat (split; [reflexivity |]). auto.
  - by split.
  - split; [exact Hres |]. eexists. split; [exact Hstore |]. cbn.
    repeat (split; [reflexivity |]). auto.
Qed.

End ApiUtilsMoreFacts.


(** * Further properties of the topic planning step *)

Module PlanTopicMoreFacts.
Import PlanTopic PlanTopicTraces Tactics MoreTactics.

(** The map the step builds passes the check of the declared variables. *)
Lemma step_variables_pass cp nsi style query ci oli sli jfi content (tr : World) :
  require_prompt_variables (declared_variables topic_plan_prompt)
    (make_template_vars cp nsi style query ci oli sli jfi content) tr
  = (tr, Ok tt).
Proof. vm_compute. reflexivity. Qed.

(** After a check that passes: render, then infer, then validate, each one
    only when the one before returned. *)
Lemma check_render_and_infer_passes c p sp pm tv (tr : World) :
  require_prompt_variables (declared_variables p) tv tr = (tr, Ok tt) →
  check_render_and_infer c p sp pm tv tr
  = match render_template c (prompt_template p) tv with
    | Raise e => ((tr ++ [RenderTemplate (prompt_template p) tv (Raise e)])%list,
                  Raise e)
    | Ok up =>
        let req := mkInferenceCall sp up true "get_topic_list" pm in
        let tr1 := (tr ++ [RenderTemplate (prompt_template p) tv (Ok up)])%list in
        match run_inference_call c req with
        | Raise e => ((tr1 ++ [RunInferenceCall req (Raise e)])%list, Raise e)
        | Ok response =>
            ((tr1 ++ [RunInferenceCall req (Ok response)]
                  ++ [ModelValidateJson response (model_validate_json c response)])%list,
             model_validate_json c response)
        end
    end.
Proof.
  intros H. unfold check_render_and_infer, Py.bind at 1. rewrite H.
  unfold Py.bind, call.
  destruct (render_template c _ tv) as [up | e]; [| reflexivity]. cbv zeta.
  destruct (run_inference_call c _) as [response | e]; [| reflexivity].
  by rewrite <- app_assoc.
Qed.

(** What a run of the step is, by the answers of its collaborators. *)
Ltac plan_paths :=
  unfold trace_of, result_of, run_step, _step_plan_topic_for_style, pure_call, log,
    Py.bind, Py.modify, Py.ret, Py.raise;
  repeat match goal with
         | |- context [target_chat_query_item ?ei] =>
             destruct (target_chat_query_item ei) as [? |] eqn:?
         | |- context [get_int_option_value ?c ?o ?n ?d] =>
             destruct (get_int_option_value c o n d) as [? | ?] eqn:?
         | |- context [get_str_option_value ?c ?o ?n ?d] =>
             destruct (get_str_option_value c o n d) as [? | ?] eqn:?
         | |- context [get_search_lang ?c ?o ?q] =>
             destruct (get_search_lang c o q) as [? | ?] eqn:?
         | |- context [get_output_lang ?c ?o ?q] =>
             destruct (get_output_lang c o q) as [? | ?] eqn:?
         | |- context [limit_content ?c ?s ?m] =>
             destruct (limit_content c s m) as [? | ?] eqn:?
         end;
  try (change (used_prompt_templates !! COMPONENT_NAME) with (Some topic_plan_prompt);
       cbv iota beta;
       rewrite check_render_and_infer_passes by apply step_variables_pass;
       cbv zeta;
       repeat match goal with
              | |- context [render_template ?c ?t ?v] =>
                  destruct (render_template c t v) as [? | ?] eqn:?
              | |- context [run_inference_call ?c ?r] =>
                  destruct (run_inference_call c r) as [? | ?] eqn:?
              | |- context [model_validate_json ?c ?r] =>
                  destruct (model_validate_json c r) as [? | ?] eqn:?
              end);
  cbn [app fst snd calls inference_calls omap In].

(** X14: the inference call of the step asks for JSON under the call target
    get_topic_list, with the planning model that the options resolve to as the
    model override, the system prompt built from the resolved article style,
    and as user prompt the text that render_template returned for the step's
    own template; the rendered variables hold the query of the chat query item
    and the content as limit_content shortened it for the planning model.  The
    step makes no other inference call. *)
Theorem run_step_inference_call c exec_info content query_metadata req answer :
  let tr := trace_of (run_step c exec_info content query_metadata) in
  let options := exec_flow_options exec_info in
  In (RunInferenceCall req answer) tr →
  need_json req = true
  ∧ call_target req = "get_topic_list"
  ∧ get_str_option_value c options (FLOW_OPTION_PLANNING_MODEL c)
      (planning_model_default c) = Ok (override_model_name req)
  ∧ (∃ style,
       get_str_option_value c options (FLOW_OPTION_ARTICLE_STYLE c)
         (article_style_default c) = Ok style
       ∧ system_prompt req
         = "You are an expert of writing " ++ style ++ " for the specified query.")
  ∧ (∃ vars limited,
       In (RenderTemplate topic_plan_template_str vars (Ok (user_prompt req))) tr
       ∧ (∃ item, target_chat_query_item exec_info = Some item
                  ∧ vars !! "query" = Some (query_content item))
       ∧ limit_content c content (override_model_name req) = Ok limited
       ∧ vars !! "content" = Some limited)
  ∧ inference_calls tr = [(req, answer)].
Proof.
  intros tr options. subst tr options. plan_paths.
  all: intros H; in_cases H.
  all: injection H as <- <-; cbn [need_json call_target override_model_name
                                   system_prompt user_prompt] in *.
  all: repeat match goal with
              | H1 : ?t = _, H2 : ?t = _ |- _ =>
                  rewrite H1 in H2; first [discriminate H2 | injection H2 as <-]
              end.
  all: repeat (split; [reflexivity |]).
  all: split; [by eexists |].
  all: split; [| reflexivity].
  all: eexists _, _.
  all: split; [pick_event |].
  all: split; [eexists; split; [reflexivity | vm_compute; reflexivity] |].
  all: split; [reflexivity |].
  all: vm_compute; reflexivity.
Qed.

Lemma run_step_inference_call_witness :
  let c := answering (Ok "{}") (Ok two_topics) in
  let req := mkInferenceCall
               "You are an expert of writing research report for the specified query."
               "what is rocq: some summaries" true "get_topic_list" "o1-mini" in
  let tr := trace_of (run_step c the_exec_info "some summaries" None) in
  In (RunInferenceCall req (Ok "{}")) tr
  ∧ override_model_name req = "o1-mini"
  ∧ inference_calls tr = [(req, Ok "{}")].
Proof.
  intros c req tr.
  assert (Hin : In (RunInferenceCall req (Ok "{}")) tr) by (vm_compute; pick_event).
  split; [exact Hin |].
  split; [reflexivity |].
  exact (proj2 (proj2 (proj2 (proj2 (proj2
           (run_step_inference_call c the_exec_info "some summaries" None req
              (Ok "{}") Hin)))))).
Defined.

(** X15: when the step returns a topic list, it made exactly three calls, in
    this order: it rendered its template, ran one inference call on the
    rendered text, and validated the response string of that call; the topic
    list is the one the validation returned. *)
Theorem run_step_returns_validated_topics c exec_info content query_metadata
    topic_list :
  result_of (run_step c exec_info content query_metadata) = Ok topic_list →
  ∃ vars req response,
    calls (trace_of (run_step c exec_info content query_metadata))
    = [RenderTemplate topic_plan_template_str vars (Ok (user_prompt req));
       RunInferenceCall req (Ok response);
       ModelValidateJson response (Ok topic_list)]
    ∧ model_validate_json c response = Ok topic_list.
Proof.
  plan_paths. all: try discriminate.
  intros [= <-]. eexists _, (mkInferenceCall _ _ _ _ _), _.
  split; [reflexivity | assumption].
Qed.

Lemma run_step_returns_validated_topics_witness :
  let c := answering (Ok "{}") (Ok two_topics) in
  result_of (run_step c the_exec_info "some summaries" None) = Ok two_topics
  ∧ ∃ vars req response,
      calls (trace_of (run_step c the_exec_info "some summaries" None))
      = [RenderTemplate topic_plan_template_str vars (Ok (user_prompt req));
         RunInferenceCall req (Ok response);
         ModelValidateJson response (Ok two_topics)]
      ∧ model_validate_json c response = Ok two_topics.
Proof.
  intros c.
  assert (H : result_of (run_step c the_exec_info "some summaries" None)
              = Ok two_topics) by (vm_compute; reflexivity).
  split; [exact H |].
  exact (run_step_returns_validated_topics c the_exec_info "some summaries" None
           two_topics H).
Defined.

(** What the step raises, and where it stops. *)
Lemma run_step_raises c exec_info content query_metadata e :
  result_of (run_step c exec_info content query_metadata) = Raise e →
  let tr := calls (trace_of (run_step c exec_info content query_metadata)) in
  (target_chat_query_item exec_info = None
   ∧ e = AttributeError "'NoneType' object has no attribute 'query_content'"
   ∧ tr = [])
  ∨ (lookup_raised c exec_info content query_metadata e ∧ tr = [])
  ∨ (∃ vars,
       render_template c topic_plan_template_str vars = Raise e
       ∧ tr = [RenderTemplate topic_plan_template_str vars (Raise e)])
  ∨ (∃ vars req,
       run_inference_call c req = Raise e
       ∧ tr = [RenderTemplate topic_plan_template_str vars (Ok (user_prompt req));
               RunInferenceCall req (Raise e)])
  ∨ (∃ vars req response,
       model_validate_json c response = Raise e
       ∧ tr = [RenderTemplate topic_plan_template_str vars (Ok (user_prompt req));
               RunInferenceCall req (Ok response);
               ModelValidateJson response (Raise e)]).
Proof.
  plan_paths. all: try discriminate. all: intros [= <-].
  all: try (left; by repeat split).
  all: try (right; left; split; [| reflexivity]; unfold lookup_raised;
            cbv zeta;
            solve [ repeat first [ left; assumption
                                 | eexists; split; eassumption
                                 | right ] ]).
  - right. right. right. right.
    eexists _, (mkInferenceCall _ _ _ _ _), _. by split.
  - right. right. right. left. eexists _, (mkInferenceCall _ _ _ _ _). by split.
  - right. right. left. eexists. by split.
Qed.

(** X16: when the step raises, it raises what it was given and stops there.
    Either the exec_info has no chat query item, and the step raises
    AttributeError before calling anything; or a lookup of an option, of a
    language or of the content limit raised the exception, and nothing was
    rendered; or the rendering raised it, and nothing was sent to the model; or
    the inference call raised it, and nothing was validated; or the validation
    of the response raised it.  The step's own check of the template
    variables never raises: with a chat query item and collaborators that all
    return, the step returns a topic list.  The two examples are a run whose
    inference call raises and a run in which every collaborator returns. *)
Theorem run_step_stops_at_first_failure :
  (∀ c exec_info content query_metadata e,
     result_of (run_step c exec_info content query_metadata) = Raise e →
     let tr := calls (trace_of (run_step c exec_info content query_metadata)) in
     (target_chat_query_item exec_info = None
      ∧ e = AttributeError "'NoneType' object has no attribute 'query_content'"
      ∧ tr = [])
     ∨ (lookup_raised c exec_info content query_metadata e ∧ tr = [])
     ∨ (∃ vars,
          render_template c topic_plan_template_str vars = Raise e
          ∧ tr = [RenderTemplate topic_plan_template_str vars (Raise e)])
     ∨ (∃ vars req,
          run_inference_call c req = Raise e
          ∧ tr = [RenderTemplate topic_plan_template_str vars
                    (Ok (user_prompt req));
                  RunInferenceCall req (Raise e)])
     ∨ (∃ vars req response,
          model_validate_json c response = Raise e
          ∧ tr = [RenderTemplate topic_plan_template_str vars
                    (Ok (user_prompt req));
                  RunInferenceCall req (Ok response);
                  ModelValidateJson response (Raise e)]))
  ∧ (∀ c exec_info content query_metadata,
       is_Some (target_chat_query_item exec_info) →
       (∀ e, ¬ lookup_raised c exec_info content query_metadata e) →
       (∀ vars e, render_template c topic_plan_template_str vars ≠ Raise e) →
       (∀ req e, run_inference_call c req ≠ Raise e) →
       (∀ response e, model_validate_json c response ≠ Raise e) →
       ∃ topic_list,
         result_of (run_step c exec_info content query_metadata) = Ok topic_list)
  ∧ (let e := RaisedByCollaborator "openai" "rate limit" in
     let c := answering (Raise e) (Ok two_topics) in
     result_of (run_step c the_exec_info "some summaries" None) = Raise e
     ∧ ∃ vars req,
         calls (trace_of (run_step c the_exec_info "some summaries" None))
         = [RenderTemplate topic_plan_template_str vars (Ok (user_prompt req));
            RunInferenceCall req (Raise e)])
  ∧ result_of (run_step (answering (Ok "{}") (Ok two_topics)) the_exec_info
                 "some summaries" None) = Ok two_topics.
Proof.
  split; [exact run_step_raises |]. split; [| split].
  - intros c exec_info content query_metadata [item Hitem] Hlookup Hrender
      Hinfer Hvalidate.
    destruct (result_of (run_step c exec_info content query_metadata))
      as [topic_list | e] eqn:Hres; [by exists topic_list |].
    destruct (run_step_raises c exec_info content query_metadata e Hres)
      as [(Hnone & _) | [(Hraised & _) | [(vars & Hraised & _)
          | [(vars & req & Hraised & _)
            | (vars & req & response & Hraised & _)]]]].
    + congruence.
    + by destruct (Hlookup e).
    + by destruct (Hrender vars e).
    + by destruct (Hinfer req e).
    + by destruct (Hvalidate response e).
  - cbv zeta. split; [vm_compute; reflexivity |].
    eexists _, (mkInferenceCall _ _ _ _ _). vm_compute. reflexivity.
  - vm_compute. reflexivity.
Qed.

End PlanTopicMoreFacts.


(** * Properties of the Qwen embedder *)

Module DenseEmbedderQwenFacts.
Import PyMore DenseEmbedderQwen DenseEmbedderQwenTraces.

Lemma dashscope_inputs_app (tr1 tr2 : list Event) :
  dashscope_inputs (tr1 ++ tr2) = (dashscope_inputs tr1 ++ dashscope_inputs tr2)%list.
Proof. apply omap_app. Qed.

(** One turn of the loop. *)
Lemma for_sentence_in_cons c self sentence rest fr :
  for_sentence_in c self (sentence :: rest) fr
  = match mapped_model (model_name self) with
    | Raises e => (fr, Raises e)
    | Returns model =>
        let w := world fr in
        let answer := dashscope_call c (calls_before w) model
                                     (DASHSCORE_API_KEY self) sentence in
        let w1 := mkWorld (usage_store w) (clock_reads w)
                    (trace w ++ [DashscopeCall model (DASHSCORE_API_KEY self)
                                               sentence answer]) in
        match answer with
        | Raises e => (mkFrame w1 (resp fr) (rtn_list fr), Raises e)
        | Returns r =>
            if decide (status_code r = HTTPStatus_OK) then
              match first_embedding r with
              | Returns e =>
                  for_sentence_in c self rest
                    (mkFrame w1 (Some r) (rtn_list fr ++ [e]))
              | Raises e => (mkFrame w1 (Some r) (rtn_list fr), Raises e)
              end
            else
              (mkFrame
                 (mkWorld (usage_store w) (clock_reads w)
                    (trace w1 ++ [Log ERROR ("Qwen embedding failed: "
                                             ++ resp_str r)]))
                 (Some r) (rtn_list fr),
               Raises (Exception ("Qwen embedding failed: " ++ resp_str r)))
        end
    end.
Proof.
  cbn [for_sentence_in]. unfold bind at 1, lift.
  destruct (mapped_model (model_name self)) as [model | e]; [| reflexivity].
  cbv zeta. unfold bind at 1, call_dashscope, calls_before.
  destruct (dashscope_call c _ model _ sentence) as [r | e]; [| reflexivity].
  unfold bind at 1.
  destruct (decide (status_code r = HTTPStatus_OK)) as [Hok | Hbad].
  - unfold bind at 1, lift.
    destruct (first_embedding r) as [e | e]; reflexivity.
  - reflexivity.
Qed.

(** The loop writes no usage entry and does not read the clock. *)
Lemma loop_keeps_store c self sentences fr :
  usage_store (world (for_sentence_in c self sentences fr).1)
  = usage_store (world fr)
  ∧ clock_reads (world (for_sentence_in c self sentences fr).1)
    = clock_reads (world fr).
Proof.
  revert fr. induction sentences as [| sentence rest IH]; intros fr.
  - by split.
  - rewrite for_sentence_in_cons.
    destruct (mapped_model (model_name self)) as [model | e]; [| by split].
    cbv zeta.
    destruct (dashscope_call c _ model _ sentence) as [r | e]; [| by split].
    destruct (decide (status_code r = HTTPStatus_OK)) as [Hok | Hbad]; [| by split].
    destruct (first_embedding r) as [e | e]; [| by split].
    destruct (IH (mkFrame
                    (mkWorld (usage_store (world fr)) (clock_reads (world fr))
                       (trace (world fr)
                        ++ [DashscopeCall model (DASHSCORE_API_KEY self) sentence
                                          (Returns r)]))
                    (Some r) (rtn_list fr ++ [e]))) as [H1 H2].
    by split.
Qed.

(** The loop over sentences that are all answered by accepted responses. *)
Lemma loop_accepted c self model pre rest res fr :
  mapped_model (model_name self) = Returns model →
  answers c model (DASHSCORE_API_KEY self) (calls_before (world fr)) pre
  = returned res →
  Forall accepted res →
  for_sentence_in c self (pre ++ rest) fr
  = for_sentence_in c self rest
      (mkFrame
         (mkWorld (usage_store (world fr)) (clock_reads (world fr))
            (trace (world fr)
             ++ call_events model (DASHSCORE_API_KEY self) pre res.*1))
         (match last res with Some re => Some re.1 | None => resp fr end)
         (rtn_list fr ++ res.*2)).
Proof.
  intros Hmodel. revert res fr.
  induction pre as [| sentence pre IH]; intros res fr Hans Hacc.
  - destruct res; [| discriminate]. destruct fr as [[us cr tr] rs rl].
    cbn. by rewrite !app_nil_r.
  - destruct res as [| [r e] res]; [discriminate |].
    injection Hans as Hfirst Hans. apply Forall_cons in Hacc as [[Hok Hemb] Hacc].
    cbn in Hok, Hemb.
    change ((sentence :: pre) ++ rest)%list with (sentence :: (pre ++ rest))%list.
    rewrite for_sentence_in_cons, Hmodel. cbv zeta. rewrite Hfirst.
    rewrite decide_True by exact Hok. rewrite Hemb.
    rewrite (IH res); [| | exact Hacc]; cycle 1.
    { unfold calls_before. cbn [world trace].
      rewrite dashscope_inputs_app, length_app. cbn.
      unfold calls_before in Hans. by rewrite Nat.add_1_r. }
    cbn [world usage_store clock_reads trace resp rtn_list fmap list_fmap fst snd
         call_events].
    rewrite last_cons, <- !app_assoc. cbn [app].
    by destruct (last res) as [[? ?] |].
Qed.

(** The inputs of the sentences that were answered. *)
Lemma inputs_of_call_events model key sentences rs :
  length sentences = length rs →
  dashscope_inputs (call_events model key sentences rs) = sentences.
Proof.
  revert rs. induction sentences as [| s sentences IH]; intros [| r rs] Hlen;
    try discriminate; [reflexivity |].
  cbn. f_equal. apply IH. by injection Hlen.
Qed.

Lemma answers_length c model key n sentences :
  length (answers c model key n sentences) = length sentences.
Proof.
  revert n. induction sentences as [| s sentences IH]; intros n; [reflexivity |].
  cbn. by rewrite IH.
Qed.

(** embed, by what its loop did: the except clause logs, the finally block
    reads the clock, reads resp and writes the entry. *)
Lemma embed_by_loop c self sentences w fr o :
  for_sentence_in c self sentences
    (mkFrame (mkWorld (usage_store w) (S (clock_reads w)) (trace w)) None [])
  = (fr, o) →
  let tr := match o with
            | Returns _ => trace (world fr)
            | Raises e =>
                (trace (world fr)
                 ++ [Log ERROR ("Qwen embedding failed: " ++ str_of_exc c e)])%list
            end in
  let result := match o with
                | Returns _ => Returns (rtn_list fr)
                | Raises e => Raises e
                end in
  embed c self sentences w
  = match resp fr with
    | None => (mkWorld (usage_store w) (S (S (clock_reads w))) tr,
               Raises (UnboundLocalError "resp"))
    | Some r =>
        if decide (status_code r = HTTPStatus_OK) then
          match usage_total_tokens r with
          | Returns t =>
              (mkWorld (usage_store w ++ [entry_of_success c self sentences w t])
                       (S (S (clock_reads w))) tr, result)
          | Raises e => (mkWorld (usage_store w) (S (S (clock_reads w))) tr,
                         Raises e)
          end
        else
          (mkWorld (usage_store w ++ [entry_of_failure c self sentences w])
                   (S (S (clock_reads w))) tr, result)
    end.
Proof.
  intros Hloop.
  pose proof (loop_keeps_store c self sentences
                (mkFrame (mkWorld (usage_store w) (S (clock_reads w)) (trace w))
                         None [])) as [Hstore Hclock].
  rewrite Hloop in Hstore, Hclock. cbn in Hstore, Hclock.
  destruct fr as [[us cr tr0] rs rl]. cbn in Hstore, Hclock. subst us cr.
  unfold embed, embed_frame, bind at 1, cur_timestamp_in_ms at 1. cbn [world].
  unfold bind at 1, try_finally, try_except.
  cbn [world resp rtn_list]. rewrite Hloop.
  unfold entry_of_success, entry_of_failure, usage_entry.
  destruct o as [[] | e]; cbn [resp world trace rtn_list].
  - unfold record_usage, bind, cur_timestamp_in_ms, read_resp, lift, ret,
      record_api_call, in_world, modify. cbn.
    destruct rs as [r |]; [| reflexivity].
    destruct (decide (status_code r = HTTPStatus_OK)) as [Hok | Hbad]; [| reflexivity].
    destruct (usage_total_tokens r) as [t |]; [| reflexivity].
    cbn. by rewrite Z.sub_diag.
  - unfold record_usage, bind, cur_timestamp_in_ms, read_resp, lift, ret, raise,
      record_api_call, log, in_world, modify. cbn.
    destruct rs as [r |]; [| reflexivity].
    destruct (decide (status_code r = HTTPStatus_OK)) as [Hok | Hbad]; [| reflexivity].
    destruct (usage_total_tokens r) as [t |]; [| reflexivity].
    cbn. by rewrite Z.sub_diag.
Qed.

(** The loop from the frame in which embed starts it. *)
Lemma loop_accepted_from_start c self model pre rest res w :
  mapped_model (model_name self) = Returns model →
  answers c model (DASHSCORE_API_KEY self) (calls_before w) pre = returned res →
  Forall accepted res →
  for_sentence_in c self (pre ++ rest)
    (mkFrame (mkWorld (usage_store w) (S (clock_reads w)) (trace w)) None [])
  = for_sentence_in c self rest
      (mkFrame
         (mkWorld (usage_store w) (S (clock_reads w))
            (trace w ++ call_events model (DASHSCORE_API_KEY self) pre res.*1))
         (match last res with Some re => Some re.1 | None => None end)
         res.*2).
Proof.
  intros Hmodel Hans Hacc.
  by rewrite (loop_accepted c self model pre rest res
                (mkFrame (mkWorld (usage_store w) (S (clock_reads w)) (trace w))
                         None [])
                Hmodel Hans Hacc).
Qed.

Lemma returned_length c model key n sentences res :
  answers c model key n sentences = returned res →
  length sentences = length res.*1.
Proof.
  intros H. rewrite <- (answers_length c model key n sentences), H.
  unfold returned. by rewrite !length_map.
Qed.

Lemma last_accepted res r e :
  Forall accepted res → last res = Some (r, e) → status_code r = HTTPStatus_OK.
Proof.
  intros Hacc Hlast. apply last_Some_elem_of in Hlast.
  by destruct (proj1 (Forall_forall _ _) Hacc _ Hlast).
Qed.

(** X17: embed on a request without sentences never returns the empty list
    of embeddings: the finally block reads resp, which no call has bound, so
    the call raises UnboundLocalError after two clock readings, without
    calling dashscope and without writing a usage entry. *)
Theorem embed_no_sentence c self w :
  embed c self [] w
  = (mkWorld (usage_store w) (S (S (clock_reads w))) (trace w),
     Raises (UnboundLocalError "resp")).
Proof. by rewrite (embed_by_loop c self [] w _ (Returns tt) eq_refl). Qed.

(** X18: when the model name of the embedder is no key of
    EMBEDDER_MODEL_MAPPNG, embed of a non-empty request does not raise the
    KeyError of the lookup: the KeyError is logged, and the caller gets the
    UnboundLocalError of the finally block.  Dashscope is not called and no
    usage entry is written. *)
Theorem embed_unknown_model c self sentence rest w e :
  mapped_model (model_name self) = Raises e →
  (∃ key, e = KeyError key)
  ∧ embed c self (sentence :: rest) w
    = (mkWorld (usage_store w) (S (S (clock_reads w)))
         (trace w ++ [Log ERROR ("Qwen embedding failed: " ++ str_of_exc c e)]),
       Raises (UnboundLocalError "resp")).
Proof.
  intros Hmodel. split.
  - unfold mapped_model in Hmodel.
    destruct (model_name self) as [| s | n]; [| destruct (_ !! s) |];
      simplify_eq; by eexists.
  - rewrite (embed_by_loop c self (sentence :: rest) w
               (mkFrame (mkWorld (usage_store w) (S (clock_reads w)) (trace w))
                        None [])
               (Raises e)); [reflexivity |].
    by rewrite for_sentence_in_cons, Hmodel.
Qed.

Lemma embed_unknown_model_witness :
  let self := mkEmbedder "user-1" "aliyuncs" None (PStr "text-embedding-v3")
                         (PInt 1024) in
  let c := up_to 5 (Raises (Raised "dashscope" "down")) in
  mapped_model (model_name self) = Raises (KeyError "text-embedding-v3")
  ∧ embed c self ["a sentence"] fresh
    = (mkWorld [] 2 [Log ERROR "Qwen embedding failed: text-embedding-v3"],
       Raises (UnboundLocalError "resp")).
Proof.
  intros self c.
  assert (H : mapped_model (model_name self) = Raises (KeyError "text-embedding-v3"))
    by (vm_compute; reflexivity).
  split; [exact H |].
  exact (proj2 (embed_unknown_model c self "a sentence" [] fresh _ H)).
Defined.

(** X19: when the first call to dashscope raises, the caller does not see
    that exception either: it is logged, resp is still unbound in the finally
    block, and embed raises UnboundLocalError without a usage entry for the
    failed call.  The other sentences are not sent. *)
Theorem embed_first_call_raises c self model sentence rest w e :
  mapped_model (model_name self) = Returns model →
  dashscope_call c (calls_before w) model (DASHSCORE_API_KEY self) sentence
  = Raises e →
  embed c self (sentence :: rest) w
  = (mkWorld (usage_store w) (S (S (clock_reads w)))
       (trace w ++ [DashscopeCall model (DASHSCORE_API_KEY self) sentence
                                  (Raises e);
                    Log ERROR ("Qwen embedding failed: " ++ str_of_exc c e)]),
     Raises (UnboundLocalError "resp")).
Proof.
  intros Hmodel Hcall.
  rewrite (embed_by_loop c self (sentence :: rest) w
             (mkFrame (mkWorld (usage_store w) (S (clock_reads w))
                         (trace w ++ [DashscopeCall model (DASHSCORE_API_KEY self)
                                        sentence (Raises e)]))
                      None [])
             (Raises e)).
  - cbn. by rewrite <- app_assoc.
  - rewrite for_sentence_in_cons, Hmodel. cbv zeta.
    change (calls_before (world _)) with (calls_before w). by rewrite Hcall.
Qed.

Lemma embed_first_call_raises_witness :
  let e := Raised "dashscope" "connection refused" in
  let c := up_to 0 (Raises e) in
  mapped_model (model_name the_embedder) = Returns text_embedding_v2
  ∧ dashscope_call c (calls_before fresh) text_embedding_v2
      (DASHSCORE_API_KEY the_embedder) "first" = Raises e
  ∧ embed c the_embedder ["first"; "second"] fresh
    = (mkWorld [] 2
         [DashscopeCall text_embedding_v2 (Some "sk-key") "first" (Raises e);
          Log ERROR "Qwen embedding failed: connection refused"],
       Raises (UnboundLocalError "resp")).
Proof.
  intros e c.
  assert (H1 : mapped_model (model_name the_embedder) = Returns text_embedding_v2)
    by (vm_compute; reflexivity).
  assert (H2 : dashscope_call c (calls_before fresh) text_embedding_v2
                 (DASHSCORE_API_KEY the_embedder) "first" = Raises e)
    by reflexivity.
  split; [exact H1 |]. split; [exact H2 |].
  exact (embed_first_call_raises c the_embedder text_embedding_v2 "first"
           ["second"] fresh e H1 H2).
Defined.

(** X20: when dashscope answers every sentence with status OK, embed
    returns one embedding per sentence, in the order of the sentences, after
    sending each sentence once.  It writes one usage entry for the whole
    request, whose token counts are those of the last response alone: total
    and input are its total_tokens and output is 0; the tokens of the earlier
    responses are not counted. *)
Theorem embed_all_accepted c self model sentences res r e t w :
  mapped_model (model_name self) = Returns model →
  answers c model (DASHSCORE_API_KEY self) (calls_before w) sentences
  = returned res →
  Forall accepted res →
  last res = Some (r, e) →
  usage_total_tokens r = Returns t →
  let run := embed c self sentences w in
  run.2 = Returns res.*2
  ∧ usage_store run.1
    = (usage_store w ++ [entry_of_success c self sentences w t])%list
  ∧ dashscope_inputs (trace run.1)
    = (dashscope_inputs (trace w) ++ sentences)%list.
Proof.
  intros Hmodel Hans Hacc Hlast Ht run. subst run.
  pose proof (loop_accepted_from_start c self model sentences [] res w
                Hmodel Hans Hacc) as Hloop.
  rewrite app_nil_r, Hlast in Hloop. cbn [for_sentence_in ret fst] in Hloop.
  rewrite (embed_by_loop c self sentences w _ _ Hloop). cbn [resp].
  rewrite decide_True by exact (last_accepted res r e Hacc Hlast).
  rewrite Ht. cbn [fst snd usage_store trace world rtn_list].
  split; [reflexivity |]. split; [reflexivity |].
  rewrite dashscope_inputs_app, inputs_of_call_events; [reflexivity |].
  exact (returned_length _ _ _ _ _ _ Hans).
Qed.

Lemma embed_all_accepted_witness :
  let c := up_to 5 (Raises (Raised "dashscope" "down")) in
  let r0 := mkResponse 200 (Returns [0%Q]) (Returns 5) "ok" in
  let r1 := mkResponse 200 (Returns [1%Q]) (Returns 10) "ok" in
  let res := [(r0, [0%Q]); (r1, [1%Q])] in
  let sentences := ["first"; "second one"] in
  let run := embed c the_embedder sentences fresh in
  answers c text_embedding_v2 (Some "sk-key") 0 sentences = returned res
  ∧ Forall accepted res
  ∧ run.2 = Returns [[0%Q]; [1%Q]]
  ∧ usage_store run.1 = [entry_of_success c the_embedder sentences fresh 10]
  ∧ dashscope_inputs (trace run.1) = sentences.
Proof.
  intros c r0 r1 res sentences run.
  assert (Hmodel : mapped_model (model_name the_embedder)
                   = Returns text_embedding_v2) by (vm_compute; reflexivity).
  assert (Hans : answers c text_embedding_v2 (DASHSCORE_API_KEY the_embedder)
                   (calls_before fresh) sentences = returned res)
    by reflexivity.
  assert (Hacc : Forall accepted res) by (repeat constructor).
  split; [exact Hans |]. split; [exact Hacc |].
  exact (embed_all_accepted c the_embedder text_embedding_v2 sentences res r1
           [1%Q] 10 fresh Hmodel Hans Hacc eq_refl eq_refl).
Defined.

(** One more turn after the accepted sentences [pre]. *)
Lemma loop_after_accepted c self model pre sentence rest res w :
  mapped_model (model_name self) = Returns model →
  answers c model (DASHSCORE_API_KEY self) (calls_before w) pre = returned res →
  Forall accepted res →
  for_sentence_in c self (pre ++ sentence :: rest)
    (mkFrame (mkWorld (usage_store w) (S (clock_reads w)) (trace w)) None [])
  = let key := DASHSCORE_API_KEY self in
    let tr := (trace w ++ call_events model key pre res.*1)%list in
    let bound := match last res with Some re => Some re.1 | None => None end in
    let answer := dashscope_call c (calls_before w + length pre) model key
                                 sentence in
    let w1 := mkWorld (usage_store w) (S (clock_reads w))
                      (tr ++ [DashscopeCall model key sentence answer]) in
    match answer with
    | Raises e => (mkFrame w1 bound res.*2, Raises e)
    | Returns r =>
        if decide (status_code r = HTTPStatus_OK) then
          match first_embedding r with
          | Returns e =>
              for_sentence_in c self rest (mkFrame w1 (Some r) (res.*2 ++ [e]))
          | Raises e => (mkFrame w1 (Some r) res.*2, Raises e)
          end
        else
          (mkFrame
             (mkWorld (usage_store w) (S (clock_reads w))
                (trace w1 ++ [Log ERROR ("Qwen embedding failed: "
                                         ++ resp_str r)]))
             (Some r) res.*2,
           Raises (Exception ("Qwen embedding failed: " ++ resp_str r)))
    end.
Proof.
  intros Hmodel Hans Hacc.
  rewrite (loop_accepted_from_start c self model pre (sentence :: rest) res w
             Hmodel Hans Hacc).
  rewrite for_sentence_in_cons, Hmodel. cbv zeta.
  cbn [world usage_store clock_reads trace resp rtn_list].
  replace (calls_before _) with (calls_before w + length pre)%nat; [reflexivity |].
  unfold calls_before. cbn [trace].
  rewrite dashscope_inputs_app, length_app, inputs_of_call_events; [reflexivity |].
  exact (returned_length _ _ _ _ _ _ Hans).
Qed.

(** X21: when dashscope answers a sentence with a status other than OK,
    after it accepted the sentences before it, embed raises an Exception that
    carries the response, writes one usage entry with success False and the
    counts 0, -1 and -1, and sends none of the sentences after the rejected
    one; the embeddings already received are dropped. *)
Theorem embed_rejected_response c self model pre sentence rest res r w :
  mapped_model (model_name self) = Returns model →
  answers c model (DASHSCORE_API_KEY self) (calls_before w) pre = returned res →
  Forall accepted res →
  dashscope_call c (calls_before w + length pre) model (DASHSCORE_API_KEY self)
                 sentence = Returns r →
  status_code r ≠ HTTPStatus_OK →
  let sentences := (pre ++ sentence :: rest)%list in
  let run := embed c self sentences w in
  run.2 = Raises (Exception ("Qwen embedding failed: " ++ resp_str r))
  ∧ usage_store run.1
    = (usage_store w ++ [entry_of_failure c self sentences w])%list
  ∧ dashscope_inputs (trace run.1)
    = (dashscope_inputs (trace w) ++ pre ++ [sentence])%list.
Proof.
  intros Hmodel Hans Hacc Hcall Hbad sentences run. subst sentences run.
  pose proof (loop_after_accepted c self model pre sentence rest res w
                Hmodel Hans Hacc) as Hloop.
  cbv zeta in Hloop. rewrite Hcall, decide_False in Hloop by exact Hbad.
  rewrite (embed_by_loop c self _ w _ _ Hloop). cbn [resp].
  rewrite decide_False by exact Hbad.
  cbn [fst snd usage_store trace world].
  split; [reflexivity |]. split; [reflexivity |].
  rewrite !dashscope_inputs_app. cbn [dashscope_inputs omap list_omap app].
  rewrite ?app_nil_r.
  rewrite inputs_of_call_events by exact (returned_length _ _ _ _ _ _ Hans).
  by rewrite <- app_assoc.
Qed.

Lemma embed_rejected_response_witness :
  let c := up_to 1 (Returns rejected_response) in
  let r0 := mkResponse 200 (Returns [0%Q]) (Returns 5) "ok" in
  let sentences := ["first"; "second"; "third"] in
  let run := embed c the_embedder sentences fresh in
  dashscope_call c 1 text_embedding_v2 (Some "sk-key") "second"
  = Returns rejected_response
  ∧ run.2 = Raises (Exception "Qwen embedding failed: Throttling")
  ∧ usage_store run.1 = [entry_of_failure c the_embedder sentences fresh]
  ∧ dashscope_inputs (trace run.1) = ["first"; "second"].
Proof.
  intros c r0 sentences run.
  assert (Hmodel : mapped_model (model_name the_embedder)
                   = Returns text_embedding_v2) by (vm_compute; reflexivity).
  assert (Hans : answers c text_embedding_v2 (DASHSCORE_API_KEY the_embedder)
                   (calls_before fresh) ["first"] = returned [(r0, [0%Q])])
    by reflexivity.
  assert (Hacc : Forall accepted [(r0, [0%Q])]) by (repeat constructor).
  assert (Hcall : dashscope_call c (calls_before fresh + length ["first"])
                    text_embedding_v2 (DASHSCORE_API_KEY the_embedder) "second"
                  = Returns rejected_response) by reflexivity.
  assert (Hbad : status_code rejected_response ≠ HTTPStatus_OK) by discriminate.
  split; [exact Hcall |].
  exact (embed_rejected_response c the_embedder text_embedding_v2 ["first"]
           "second" ["third"] [(r0, [0%Q])] rejected_response fresh
           Hmodel Hans Hacc Hcall Hbad).
Defined.

(** X22: when a call to dashscope raises after an earlier sentence was
    accepted, embed raises that exception, but the finally block still sees
    the response of the earlier sentence: the usage entry it writes says
    success True, with the token count of that earlier response.  The
    sentences after the failed one are not sent. *)
Theorem embed_later_call_raises c self model pre sentence rest res r e0 t e w :
  mapped_model (model_name self) = Returns model →
  answers c model (DASHSCORE_API_KEY self) (calls_before w) pre = returned res →
  Forall accepted res →
  last res = Some (r, e0) →
  usage_total_tokens r = Returns t →
  dashscope_call c (calls_before w + length pre) model (DASHSCORE_API_KEY self)
                 sentence = Raises e →
  let sentences := (pre ++ sentence :: rest)%list in
  let run := embed c self sentences w in
  run.2 = Raises e
  ∧ usage_store run.1
    = (usage_store w ++ [entry_of_success c self sentences w t])%list
  ∧ success (entry_of_success c self sentences w t) = true
  ∧ dashscope_inputs (trace run.1)
    = (dashscope_inputs (trace w) ++ pre ++ [sentence])%list.
Proof.
  intros Hmodel Hans Hacc Hlast Ht Hcall sentences run. subst sentences run.
  pose proof (loop_after_accepted c self model pre sentence rest res w
                Hmodel Hans Hacc) as Hloop.
  cbv zeta in Hloop. rewrite Hcall, Hlast in Hloop.
  rewrite (embed_by_loop c self _ w _ _ Hloop). cbn [resp fst].
  rewrite decide_True by exact (last_accepted res r e0 Hacc Hlast).
  rewrite Ht. cbn [fst snd usage_store trace world].
  split; [reflexivity |]. split; [reflexivity |]. split; [reflexivity |].
  rewrite !dashscope_inputs_app. cbn [dashscope_inputs omap list_omap app].
  rewrite ?app_nil_r.
  rewrite inputs_of_call_events by exact (returned_length _ _ _ _ _ _ Hans).
  by rewrite <- app_assoc.
Qed.

Lemma embed_later_call_raises_witness :
  let e := Raised "dashscope" "connection reset" in
  let c := up_to 1 (Raises e) in
  let r0 := mkResponse 200 (Returns [0%Q]) (Returns 5) "ok" in
  let sentences := ["first"; "second"; "third"] in
  let run := embed c the_embedder sentences fresh in
  dashscope_call c 1 text_embedding_v2 (Some "sk-key") "second" = Raises e
  ∧ run.2 = Raises e
  ∧ usage_store run.1 = [entry_of_success c the_embedder sentences fresh 5]
  ∧ success (entry_of_success c the_embedder sentences fresh 5) = true
  ∧ dashscope_inputs (trace run.1) = ["first"; "second"].
Proof.
  intros e c r0 sentences run.
  assert (Hmodel : mapped_model (model_name the_embedder)
                   = Returns text_embedding_v2) by (vm_compute; reflexivity).
  assert (Hans : answers c text_embedding_v2 (DASHSCORE_API_KEY the_embedder)
                   (calls_before fresh) ["first"] = returned [(r0, [0%Q])])
    by reflexivity.
  assert (Hacc : Forall accepted [(r0, [0%Q])]) by (repeat constructor).
  assert (Hcall : dashscope_call c (calls_before fresh + length ["first"])
                    text_embedding_v2 (DASHSCORE_API_KEY the_embedder) "second"
                  = Raises e) by reflexivity.
  split; [exact Hcall |].
  exact (embed_later_call_raises c the_embedder text_embedding_v2 ["first"]
           "second" ["third"] [(r0, [0%Q])] r0 [0%Q] 5 e fresh
           Hmodel Hans Hacc eq_refl eq_refl Hcall).
Defined.

(** What the loop leaves in resp and rtn_list. *)
Lemma loop_shape c self sentences fr :
  let run := for_sentence_in c self sentences fr in
  (resp run.1 = resp fr
   ∨ ∃ r model, resp run.1 = Some r
                ∧ mapped_model (model_name self) = Returns model)
  ∧ (run.2 = Returns tt →
     length (rtn_list run.1) = (length (rtn_list fr) + length sentences)%nat
     ∧ (sentences ≠ [] →
        ∃ r, resp run.1 = Some r ∧ status_code r = HTTPStatus_OK)).
Proof.
  revert fr. induction sentences as [| sentence rest IH]; intros fr; cbv zeta.
  - cbn. split; [by left |]. intros _. split; [lia | done].
  - rewrite for_sentence_in_cons.
    destruct (mapped_model (model_name self)) as [model | e] eqn:Hmodel;
      [| split; [by left | discriminate]].
    cbv zeta.
    destruct (dashscope_call c _ model _ sentence) as [r | e];
      [| split; [by left | discriminate]].
    destruct (decide (status_code r = HTTPStatus_OK)) as [Hok | Hbad];
      [| split; [right; by eexists _, _ | discriminate]].
    destruct (first_embedding r) as [e | e];
      [| split; [right; by eexists _, _ | discriminate]].
    match goal with
    | |- context [for_sentence_in c self rest ?fr1] =>
        destruct (IH fr1) as [Hresp Hret]
    end.
    cbn [resp rtn_list] in Hresp, Hret. split.
    + right. destruct Hresp as [-> | (r1 & m1 & -> & _)]; by eexists _, _.
    + intros Hrun. destruct (Hret Hrun) as [Hlen Hlast]. split.
      * rewrite Hlen, length_app. cbn. lia.
      * intros _. destruct rest as [| s1 rest1]; [by exists r |].
        by apply Hlast.
Qed.

(** X23: a call of embed reads the clock twice and writes at most one usage
    entry.  An entry is only written for an embedder whose model name is a key
    of EMBEDDER_MODEL_MAPPNG; it carries that model name and the sentences
    joined by newlines, and its output count is 0 on success and -1 on
    failure.  When embed returns, it returns as many embeddings as there were
    sentences, and it has written an entry that says success. *)
Theorem embed_writes_at_most_one_entry c self sentences w :
  let run := embed c self sentences w in
  clock_reads run.1 = S (S (clock_reads w))
  ∧ (usage_store run.1 = usage_store w
     ∨ ∃ u model,
         usage_store run.1 = (usage_store w ++ [u])%list
         ∧ mapped_model (model_name self) = Returns model
         ∧ target_model_name u = model_name self
         ∧ user_prompt u = String.concat newline sentences
         ∧ output_token_count u = (if success u then 0 else -1)
         ∧ input_token_count u = (if success u then total_token_count u else -1))
  ∧ (∀ embeddings, run.2 = Returns embeddings →
       length embeddings = length sentences
       ∧ ∃ u, usage_store run.1 = (usage_store w ++ [u])%list
              ∧ success u = true).
Proof.
  cbv zeta.
  destruct (for_sentence_in c self sentences
              (mkFrame (mkWorld (usage_store w) (S (clock_reads w)) (trace w))
                       None [])) as [fr o] eqn:Hloop.
  rewrite (embed_by_loop c self sentences w fr o Hloop).
  pose proof (loop_shape c self sentences
                (mkFrame (mkWorld (usage_store w) (S (clock_reads w)) (trace w))
                         None [])) as [Hresp Hret].
  rewrite Hloop in Hresp, Hret. cbn [fst snd resp rtn_list] in Hresp, Hret.
  destruct (resp fr) as [r |] eqn:Hr.
  - destruct Hresp as [[=] | (r1 & model & _ & Hmodel)].
    destruct (decide (status_code r = HTTPStatus_OK)) as [Hok | Hbad];
      [destruct (usage_total_tokens r) as [t | e] |]; cbn [fst snd clock_reads
                                                             usage_store].
    + split; [reflexivity |]. split; [right; by eexists _, _ |].
      intros embeddings Hrun. destruct o as [[] | e]; [| discriminate].
      injection Hrun as <-. destruct (Hret eq_refl) as [Hlen _].
      split; [exact Hlen |]. by eexists.
    + split; [reflexivity |]. split; [by left | discriminate].
    + split; [reflexivity |]. split; [right; by eexists _, _ |].
      intros embeddings Hrun. destruct o as [[] | e]; [| discriminate].
      destruct (Hret eq_refl) as [_ Hlast].
      destruct sentences as [| s sentences];
        [cbn in Hloop; injection Hloop as <-; discriminate Hr |].
      destruct (Hlast ltac:(discriminate)) as (r2 & [= <-] & Hok). contradiction.
  - cbn [fst snd clock_reads usage_store].
    split; [reflexivity |]. split; [by left | discriminate].
Qed.

(** X24: the parameters of get_default_params build the embedder that no
    parameters build, as long as the model key and the dimension key are two
    different names: its dimension is 1536 and its model is the one of
    DEFAULT_EMBEDDING_QWEN_MODEL, or text-embedding-v2, a model that embed can
    map, when the environment does not name one. *)
Theorem init_default_params c environ uuid :
  DENSE_EMBED_PARAM_MODEL c ≠ DENSE_EMBED_PARAM_DIM c →
  ∃ self,
    __init__ c environ uuid (Some (get_default_params c environ)) = Returns self
    ∧ __init__ c environ uuid None = Returns self
    ∧ get_dimension self = PInt 1536
    ∧ model_name self
      = PStr (default "text-embedding-v2"
                (environ !! "DEFAULT_EMBEDDING_QWEN_MODEL"))
    ∧ (environ !! "DEFAULT_EMBEDDING_QWEN_MODEL" = None →
       mapped_model (model_name self) = Returns text_embedding_v2).
Proof.
  intros Hne. eexists. split; [| split; [reflexivity |]].
  - unfold __init__, get_default_params. cbn [mbind option_bind].
    rewrite lookup_insert_ne by congruence. rewrite lookup_insert_eq.
    by rewrite lookup_insert_eq.
  - split; [reflexivity |]. split; [reflexivity |].
    cbn [model_name]. by intros ->.
Qed.

Lemma init_default_params_witness :
  let c := up_to 0 (Raises (Raised "dashscope" "down")) in
  let environ : gmap string string :=
    {[ "DEFAULT_EMBEDDING_QWEN_MODEL" := "text-embedding-v1" ]} in
  DENSE_EMBED_PARAM_MODEL c ≠ DENSE_EMBED_PARAM_DIM c
  ∧ ∃ self,
      __init__ c environ "user-1" (Some (get_default_params c environ))
      = Returns self
      ∧ __init__ c environ "user-1" None = Returns self
      ∧ get_dimension self = PInt 1536
      ∧ model_name self
        = PStr (default "text-embedding-v2"
                  (environ !! "DEFAULT_EMBEDDING_QWEN_MODEL"))
      ∧ (environ !! "DEFAULT_EMBEDDING_QWEN_MODEL" = None →
         mapped_model (model_name self) = Returns text_embedding_v2).
Proof.
  intros c environ.
  assert (Hne : DENSE_EMBED_PARAM_MODEL c ≠ DENSE_EMBED_PARAM_DIM c)
    by discriminate.
  split; [exact Hne |].
  exact (init_default_params c environ "user-1" Hne).
Defined.

(** X25: the constructor raises exactly when the parameters hold the model
    key and either lack the dimension key or hold None as the model; what it
    raises is the ConfigValueException that names the dimension key, also when
    the model is what is missing.  A dimension entry that is None is accepted:
    the embedder is built and get_dimension returns None. *)
Theorem init_raises_iff c environ uuid params :
  ((∃ e, __init__ c environ uuid params = Raises e)
   ↔ ∃ p, params = Some p
          ∧ is_Some (p !! DENSE_EMBED_PARAM_MODEL c)
          ∧ (p !! DENSE_EMBED_PARAM_DIM c = None
             ∨ p !! DENSE_EMBED_PARAM_MODEL c = Some PNone))
  ∧ (∀ e, __init__ c environ uuid params = Raises e →
          e = ConfigValueException (DENSE_EMBED_PARAM_DIM c)
                "Qwen embedding model dim not specified.")
  ∧ (∀ p model, params = Some p →
       p !! DENSE_EMBED_PARAM_MODEL c = Some model → model ≠ PNone →
       p !! DENSE_EMBED_PARAM_DIM c = Some PNone →
       ∃ self, __init__ c environ uuid params = Returns self
               ∧ model_name self = model
               ∧ get_dimension self = PNone).
Proof.
  unfold __init__. destruct params as [p |]; cbn [mbind option_bind].
  - destruct (p !! DENSE_EMBED_PARAM_MODEL c) as [[| s | n] |] eqn:Hm;
      destruct (p !! DENSE_EMBED_PARAM_DIM c) as [dim |] eqn:Hd.
    all: split; [split | split].
    all: try (intros [e He];
              first [ discriminate He
                    | exists p; split; [reflexivity |]; rewrite ?Hm, ?Hd;
                      split; [by eexists | first [by left | by right]] ]).
    all: try (intros (p' & [= <-] & [x Hx] & Hor); rewrite Hm in Hx;
              rewrite ?Hm, ?Hd in Hor; destruct Hor; simplify_eq;
              by eexists).
    all: try (intros e He; try discriminate He; by injection He as <-).
    all: intros p' model' [= <-] Hm' Hne Hd'; rewrite Hm in Hm';
      rewrite Hd in Hd'; simplify_eq; by eexists.
  - split; [split | split].
    + intros [e [=]].
    + intros (p & [=] & _).
    + intros e [=].
    + intros p model [=].
Qed.

End DenseEmbedderQwenFacts.


(** * Properties of the settings *)

Module SettingsPyFacts.
Import PyMore SettingsPy SettingsPyTraces.

(** A sequence returns only when its first part returned. *)
Lemma bind_returned {W A B} (m : E W A) (k : A → E W B) w w' b :
  bind m k w = (w', Returns b) →
  ∃ w1 a, m w = (w1, Returns a) ∧ k a w1 = (w', Returns b).
Proof.
  unfold bind. destruct (m w) as [w1 [a | e]]; [| discriminate].
  intros H. by exists w1, a.
Qed.

(** One turn of the loop over the fields. *)
Lemma field_turn c field w :
  ∃ w1,
    (if bool_decide (field ∈ class_vars) then ret tt
     else bind (environ_get (ENV_VAR_PREFIX c ++ upper field))
            (λ env_var,
               match env_var with
               | Some value =>
                   bind (debug ("Setting from environment variable: "
                                  ++ field ++ "=" ++ value))
                        (λ _, set_attr field (VStr value))
               | None => ret tt
               end)) w
    = (w1, Returns tt)
    ∧ environ w1 = environ w
    ∧ ∀ f, self w1 f
           = if bool_decide (f = field ∧ f ∉ class_vars)
             then from_option VStr (self w f)
                    (environ w !! (ENV_VAR_PREFIX c ++ upper f))
             else self w f.
Proof.
  case_bool_decide as Hcv.
  - exists w. split; [reflexivity |]. split; [reflexivity |]. intros f.
    case_bool_decide as Hf; [| reflexivity]. destruct Hf as [-> Hf]. done.
  - unfold bind, environ_get.
    destruct (environ w !! (ENV_VAR_PREFIX c ++ upper field)) as [v |] eqn:Hv.
    + eexists. split; [reflexivity |]. split; [reflexivity |]. intros f.
      cbn [self]. unfold setattr.
      destruct (decide (f = field)) as [-> | Hne].
      * rewrite bool_decide_true by done. by rewrite Hv.
      * rewrite bool_decide_false; [done |]. by intros [? _].
    + exists w. split; [reflexivity |]. split; [reflexivity |]. intros f.
      case_bool_decide as Hf; [| reflexivity]. destruct Hf as [-> _].
      by rewrite Hv.
Qed.

(** The loop over the fields: it returns, leaves the environment alone, and
    gives every field that is no class variable the text of its environment
    variable, if there is one. *)
Lemma for_field_name_in_spec c fields w :
  ∃ w',
    for_field_name_in c fields w = (w', Returns tt)
    ∧ environ w' = environ w
    ∧ ∀ f, self w' f
           = if bool_decide (f ∈ fields ∧ f ∉ class_vars)
             then from_option VStr (self w f)
                    (environ w !! (ENV_VAR_PREFIX c ++ upper f))
             else self w f.
Proof.
  revert w. induction fields as [| field rest IH]; intros w.
  - exists w. split; [reflexivity |]. split; [reflexivity |]. intros f.
    rewrite bool_decide_false; [done |]. intros [Hin _]. by apply elem_of_nil in Hin.
  - cbn [for_field_name_in]. unfold bind at 1.
    destruct (field_turn c field w) as (w1 & -> & Henv1 & Hself1).
    destruct (IH w1) as (w' & -> & Henv & Hself).
    exists w'. split; [reflexivity |]. split; [congruence |]. intros f.
    rewrite Hself, Hself1, Henv1.
    destruct (decide (f ∈ class_vars)) as [Hcv | Hcv].
    { rewrite !bool_decide_false; [done | by intros [_ ?] ..]. }
    destruct (decide (f = field)) as [-> | Hne].
    + rewrite (bool_decide_true (field = field ∧ _)) by done.
      rewrite (bool_decide_true (field ∈ field :: rest ∧ _))
        by (split; [by left | done]).
      case_bool_decide; [| reflexivity].
      by destruct (environ w !! (ENV_VAR_PREFIX c ++ upper field)).
    + rewrite (bool_decide_false (f = field ∧ _)) by (by intros [? _]).
      assert (Hiff : (f ∈ rest ∧ f ∉ class_vars)
                     ↔ (f ∈ field :: rest ∧ f ∉ class_vars)).
      { split.
        - intros [Hin ?]. split; [by right | done].
        - intros [Hin ?]. split; [| done].
          apply elem_of_cons in Hin as [? | ?]; done. }
      by rewrite (bool_decide_ext _ _ Hiff).
Qed.

(** Steps that keep values, in sequence. *)
Lemma keeps_values_bind (m k : E World unit) :
  keeps_values m → keeps_values k → keeps_values (bind m (λ _, k)).
Proof.
  intros Hm Hk w. unfold bind.
  destruct (Hm w) as (Henv & Hself & Hout).
  destruct (m w) as [w1 [[] | e]] eqn:Hmw; cbn [fst snd] in *.
  - destruct (Hk w1) as (Henv1 & Hself1 & Hout1).
    split; [congruence |]. split; [| exact Hout1].
    intros f Hf. rewrite Hself1; rewrite Hself; done.
  - done.
Qed.

Lemma keeps_values_if_none name (value : E World Value) :
  (∀ w, (value w).1 = w
        ∧ ((∃ v, (value w).2 = Returns v)
           ∨ ∃ msg, (value w).2 = Raises (TypeError msg))) →
  keeps_values (if_none name value).
Proof.
  intros Hvalue w. unfold if_none, bind, getattr.
  destruct (self w name) eqn:Hname; try (split; [| split]; by auto).
  destruct (Hvalue w) as [Hw Hout]. destruct (value w) as [w1 o].
  cbn [fst snd] in Hw, Hout. subst w1.
  destruct Hout as [[v ->] | [msg ->]]; cbn [fst snd].
  - split; [reflexivity |]. split; [| by left]. intros f Hf.
    unfold set_attr, modify. cbn [fst self]. unfold setattr.
    destruct (decide (f = name)) as [-> | _]; congruence.
  - split; [reflexivity |]. split; [done |]. right. by eexists.
Qed.

Lemma under_data_root_pure suffix w :
  (under_data_root suffix w).1 = w
  ∧ ((∃ v, (under_data_root suffix w).2 = Returns v)
     ∨ ∃ msg, (under_data_root suffix w).2 = Raises (TypeError msg)).
Proof.
  unfold under_data_root, bind, getattr, lift, plus_str.
  destruct (self w "DATA_ROOT"); cbn; split; by eauto.
Qed.

Lemma set_derived_values_keeps_values c : keeps_values (set_derived_values c).
Proof.
  unfold set_derived_values.
  repeat apply keeps_values_bind;
    apply keeps_values_if_none; try apply under_data_root_pure.
  intros w. unfold bind, getattr, lift, div_str.
  destruct (self w "CODE_ROOT_PATH"); cbn; split; by eauto.
Qed.

(** check_required_env_vars, by the two variables it asks for. *)
Lemma check_required_env_vars_spec w :
  check_required_env_vars w
  = (w, match environ w !! "EDS_DATA_ROOT", environ w !! "EDS_LOG_ROOT" with
        | None, _ =>
            Raises (EnvironmentError
                      "Required environment variable EDS_DATA_ROOT is not set.")
        | Some _, None =>
            Raises (EnvironmentError
                      "Required environment variable EDS_LOG_ROOT is not set.")
        | Some _, Some _ => Returns tt
        end).
Proof.
  unfold check_required_env_vars, REQUIRED_ENV_VARS. cbn [for_var_in].
  unfold bind, environ_get, raise, ret.
  destruct (environ w !! "EDS_DATA_ROOT"); [| reflexivity].
  by destruct (environ w !! "EDS_LOG_ROOT").
Qed.

(** initialize up to the check of the environment. *)
Lemma initialize_start c env_file_path override w :
  initialize c env_file_path override w
  = bind check_required_env_vars
      (λ _, bind (for_field_name_in c model_fields)
              (λ _, bind (set_derived_values c)
                      (λ _, bind (debug "Finished initializing settings.")
                              (λ _ w, (w, Returns (self w))))))
      (mkWorld (load_dotenv c env_file_path override (environ w)) (self w)
         ((trace w ++ ["Initializing settings with default values."])
          ++ ["Loading environment variables from .env file: "
              ++ env_file_path])).
Proof. reflexivity. Qed.

(** initialize, when a required variable is missing. *)
Lemma initialize_unchecked c env_file_path override w :
  let env := load_dotenv c env_file_path override (environ w) in
  let w0 := mkWorld env (self w)
              ((trace w ++ ["Initializing settings with default values."])
               ++ ["Loading environment variables from .env file: "
                   ++ env_file_path]) in
  (env !! "EDS_DATA_ROOT" = None →
   initialize c env_file_path override w
   = (w0, Raises (EnvironmentError
                    "Required environment variable EDS_DATA_ROOT is not set.")))
  ∧ (is_Some (env !! "EDS_DATA_ROOT") → env !! "EDS_LOG_ROOT" = None →
     initialize c env_file_path override w
     = (w0, Raises (EnvironmentError
                      "Required environment variable EDS_LOG_ROOT is not set."))).
Proof.
  cbv zeta. rewrite initialize_start. split.
  - intros H. unfold bind at 1.
    rewrite check_required_env_vars_spec. cbn [environ]. by rewrite H.
  - intros [root H1] H2. unfold bind at 1.
    rewrite check_required_env_vars_spec. cbn [environ]. by rewrite H1, H2.
Qed.

(** initialize, when both required variables are set: the loop over the
    fields, the derived values, and the return. *)
Lemma initialize_checked c env_file_path override w root logs :
  let env := load_dotenv c env_file_path override (environ w) in
  env !! "EDS_DATA_ROOT" = Some root →
  env !! "EDS_LOG_ROOT" = Some logs →
  ∃ w1 w2 o,
    environ w1 = env
    ∧ (∀ f, self w1 f
            = if bool_decide (f ∈ model_fields ∧ f ∉ class_vars)
              then from_option VStr (self w f)
                     (env !! (ENV_VAR_PREFIX c ++ upper f))
              else self w f)
    ∧ set_derived_values c w1 = (w2, o)
    ∧ initialize c env_file_path override w
      = match o with
        | Returns _ =>
            (mkWorld (environ w2) (self w2)
                     (trace w2 ++ ["Finished initializing settings."]),
             Returns (self w2))
        | Raises e => (w2, Raises e)
        end.
Proof.
  cbv zeta. intros Hroot Hlogs. rewrite initialize_start. unfold bind at 1.
  rewrite check_required_env_vars_spec. cbn [environ]. rewrite Hroot, Hlogs.
  unfold bind at 1.
  match goal with
  | |- context [for_field_name_in c model_fields ?w0] =>
      destruct (for_field_name_in_spec c model_fields w0)
        as (w1 & Hloop & Henv1 & Hself1)
  end.
  rewrite Hloop. cbn [environ self] in Henv1, Hself1. unfold bind at 1.
  destruct (set_derived_values c w1) as [w2 o] eqn:Hderived.
  exists w1, w2, o. split; [exact Henv1 |]. split; [exact Hself1 |].
  split; [exact Hderived |]. by destruct o as [[] | e].
Qed.

(** A name that is in a listed collection. *)
Ltac listed := apply (bool_decide_unpack _); by vm_compute.

(** No model field is a class variable. *)
Lemma model_field_no_class_var field :
  field ∈ model_fields → field ∉ class_vars.
Proof.
  intros Hin Hcv. revert Hin. unfold class_vars in Hcv.
  repeat (apply elem_of_cons in Hcv as [-> | Hcv];
          [apply (bool_decide_unpack _); by vm_compute |]).
  by apply elem_of_nil in Hcv.
Qed.

(** X26: initialize loads the .env file and then asks for EDS_DATA_ROOT and
    EDS_LOG_ROOT, in this order: when one of them is missing from the
    environment it raises EnvironmentError for the first missing one and has
    not touched the settings object.  It raises EnvironmentError in no other
    case. *)
Theorem initialize_requires_env_vars c env_file_path override w :
  let env := load_dotenv c env_file_path override (environ w) in
  let run := initialize c env_file_path override w in
  (env !! "EDS_DATA_ROOT" = None →
   run.2 = Raises (EnvironmentError
                     "Required environment variable EDS_DATA_ROOT is not set."))
  ∧ (is_Some (env !! "EDS_DATA_ROOT") → env !! "EDS_LOG_ROOT" = None →
     run.2 = Raises (EnvironmentError
                       "Required environment variable EDS_LOG_ROOT is not set."))
  ∧ (∀ msg, run.2 = Raises (EnvironmentError msg) →
       (env !! "EDS_DATA_ROOT" = None ∨ env !! "EDS_LOG_ROOT" = None)
       ∧ environ run.1 = env
       ∧ ∀ f, self run.1 f = self w f).
Proof.
  cbv zeta.
  destruct (initialize_unchecked c env_file_path override w) as [Hdata Hlog].
  cbv zeta in Hdata, Hlog.
  split; [by intros H; rewrite (Hdata H) |].
  split; [by intros H1 H2; rewrite (Hlog H1 H2) |].
  intros msg Hrun.
  destruct (load_dotenv c env_file_path override (environ w) !! "EDS_DATA_ROOT")
    as [root |] eqn:Hroot.
  2: { rewrite (Hdata eq_refl). split; [by left |]. by split. }
  destruct (load_dotenv c env_file_path override (environ w) !! "EDS_LOG_ROOT")
    as [logs |] eqn:Hlogs.
  2: { rewrite (Hlog ltac:(by eexists) eq_refl). split; [by right |]. by split. }
  exfalso.
  destruct (initialize_checked c env_file_path override w root logs Hroot Hlogs)
    as (w1 & w2 & o & _ & _ & Hderived & Hinit).
  rewrite Hinit in Hrun.
  destruct (set_derived_values_keeps_values c w1) as (_ & _ & Hout).
  rewrite Hderived in Hout. cbn [snd] in Hout.
  destruct Hout as [-> | [m ->]]; cbn in Hrun; discriminate.
Qed.

(** X27: when initialize returns, it returns the settings object itself, and
    every model field whose environment variable (the prefix followed by the
    field name in upper case) is set holds the text of that variable as a str,
    whatever type the field is declared with.  An attribute that had a value
    and whose variable is not set keeps that value. *)
Theorem initialize_reads_environment c env_file_path override w settings :
  (initialize c env_file_path override w).2 = Returns settings →
  let env := load_dotenv c env_file_path override (environ w) in
  (∀ f, self (initialize c env_file_path override w).1 f = settings f)
  ∧ (∀ field value,
       field ∈ model_fields →
       env !! (ENV_VAR_PREFIX c ++ upper field) = Some value →
       settings field = VStr value)
  ∧ (∀ field,
       field ∉ model_fields ∨ env !! (ENV_VAR_PREFIX c ++ upper field) = None →
       self w field ≠ VNone →
       settings field = self w field).
Proof.
  intros Hret. cbv zeta.
  destruct (initialize_unchecked c env_file_path override w) as [Hdata Hlog].
  cbv zeta in Hdata, Hlog.
  destruct (load_dotenv c env_file_path override (environ w) !! "EDS_DATA_ROOT")
    as [root |] eqn:Hroot; [| by rewrite (Hdata eq_refl) in Hret].
  destruct (load_dotenv c env_file_path override (environ w) !! "EDS_LOG_ROOT")
    as [logs |] eqn:Hlogs;
    [| by rewrite (Hlog ltac:(by eexists) eq_refl) in Hret].
  destruct (initialize_checked c env_file_path override w root logs Hroot Hlogs)
    as (w1 & w2 & o & Henv1 & Hself1 & Hderived & Hinit).
  rewrite Hinit in Hret |- *.
  destruct (set_derived_values_keeps_values c w1) as (_ & Hself2 & _).
  rewrite Hderived in Hself2. cbn [fst] in Hself2.
  destruct o as [[] | e]; [| discriminate]. cbn [fst snd self] in Hret |- *.
  injection Hret as <-. split; [done |]. split.
  - intros field value Hin Hvalue.
    assert (H1 : self w1 field = VStr value).
    { rewrite Hself1, bool_decide_true, Hvalue; [done |].
      split; [exact Hin | by apply model_field_no_class_var]. }
    rewrite Hself2; [exact H1 |]. by rewrite H1.
  - intros field Hunset Hvalue.
    assert (H1 : self w1 field = self w field).
    { rewrite Hself1. case_bool_decide as Hin; [| reflexivity].
      destruct Hunset as [Hout | ->]; [| reflexivity]. by destruct Hin. }
    rewrite Hself2; [exact H1 |]. by rewrite H1.
Qed.

Lemma initialize_reads_environment_witness :
  let env : gmap string string :=
    {[ "EDS_DATA_ROOT" := "/data"; "EDS_LOG_ROOT" := "/logs";
       "EDS_WEB_SITE_CRAWL_DEPTH" := "5" ]} in
  ∃ settings,
    (initialize plain ".env" false (start_with env)).2 = Returns settings
    ∧ some_settings "WEB_SITE_CRAWL_DEPTH" = VInt 3
    ∧ settings "WEB_SITE_CRAWL_DEPTH" = VStr "5"
    ∧ settings "scheduler_max_retries" = VInt 3.
Proof.
  intros env.
  assert (H : ∃ settings,
            (initialize plain ".env" false (start_with env)).2 = Returns settings)
    by (vm_compute; eexists; reflexivity).
  destruct H as [settings H]. exists settings. split; [exact H |].
  destruct (initialize_reads_environment plain ".env" false (start_with env)
              settings H) as (_ & Hset & Hkept).
  split; [reflexivity |]. split.
  - apply Hset; [| reflexivity].
    listed.
  - rewrite Hkept; [reflexivity | right; reflexivity | discriminate].
Defined.

(** A derived value that is already there. *)
Lemma if_none_has_value name value w :
  self w name ≠ VNone → if_none name value w = (w, Returns tt).
Proof.
  intros H. unfold if_none, bind, getattr. by destruct (self w name).
Qed.

(** A directory that defaults to a place under DATA_ROOT. *)
Lemma if_none_under_data_root name suffix w root :
  name ≠ "DATA_ROOT" →
  self w "DATA_ROOT" = VStr root →
  ∃ w',
    if_none name (under_data_root suffix) w = (w', Returns tt)
    ∧ environ w' = environ w
    ∧ self w' name = match self w name with
                     | VNone => VStr (root ++ suffix)
                     | v => v
                     end
    ∧ ∀ f, f ≠ name → self w' f = self w f.
Proof.
  intros Hname Hroot.
  unfold if_none, under_data_root, bind, getattr, lift, plus_str.
  destruct (self w name) eqn:Hcur;
    try (exists w; rewrite ?Hcur; by repeat split).
  rewrite Hroot.
  eexists. split; [reflexivity |]. unfold set_attr, modify. cbn [fst self environ].
  split; [reflexivity |]. unfold setattr. split.
  - by rewrite decide_True.
  - intros f Hf. by rewrite decide_False.
Qed.

(** X28: with the prefix EDS_, initialize returns whenever the two required
    variables are set and EXTENSION_PATH has a value.  DATA_ROOT and LOG_ROOT
    then hold the text of their variables, and each of DOCSINK_LOCAL_DIR,
    DOCUMENT_LOCAL_DIR, STRATEGY_PATH and DUCKDB_PATH holds the text of its own
    variable if that is set, else the value it had, else DATA_ROOT followed by
    /docsink, /document, /strategy or /duckdb. *)
Theorem initialize_derives_directories c env_file_path override w root logs :
  let env := load_dotenv c env_file_path override (environ w) in
  ENV_VAR_PREFIX c = "EDS_" →
  env !! "EDS_DATA_ROOT" = Some root →
  env !! "EDS_LOG_ROOT" = Some logs →
  self w "EXTENSION_PATH" ≠ VNone →
  ∃ settings,
    (initialize c env_file_path override w).2 = Returns settings
    ∧ settings "DATA_ROOT" = VStr root
    ∧ settings "LOG_ROOT" = VStr logs
    ∧ ∀ name suffix,
        (name, suffix) ∈ directories_under_data_root →
        settings name
        = match env !! ("EDS_" ++ name) with
          | Some value => VStr value
          | None => match self w name with
                    | VNone => VStr (root ++ suffix)
                    | v => v
                    end
          end.
Proof.
  cbv zeta. intros Hprefix Hroot Hlogs Hext.
  destruct (initialize_checked c env_file_path override w root logs Hroot Hlogs)
    as (w1 & w2 & o & Henv1 & Hself1 & Hderived & Hinit).
  rewrite Hprefix in Hself1.
  assert (Hfield : ∀ f, f ∈ model_fields → upper f = f →
            self w1 f = from_option VStr (self w f)
                          (load_dotenv c env_file_path override (environ w)
                           !! ("EDS_" ++ f))).
  { intros f Hin Hup. rewrite Hself1, bool_decide_true, Hup; [done |].
    split; [exact Hin | by apply model_field_no_class_var]. }
  pose proof (Hfield "DATA_ROOT" ltac:(listed) eq_refl) as Hdata.
  pose proof (Hfield "LOG_ROOT" ltac:(listed) eq_refl) as Hlog.
  pose proof (Hfield "EXTENSION_PATH" ltac:(listed) eq_refl) as Hextension.
  pose proof (Hfield "DOCSINK_LOCAL_DIR" ltac:(listed) eq_refl) as Hdocsink.
  pose proof (Hfield "DOCUMENT_LOCAL_DIR" ltac:(listed) eq_refl) as Hdocument.
  pose proof (Hfield "STRATEGY_PATH" ltac:(listed) eq_refl) as Hstrategy.
  pose proof (Hfield "DUCKDB_PATH" ltac:(listed) eq_refl) as Hduckdb.
  change ("EDS_" ++ "DATA_ROOT") with "EDS_DATA_ROOT" in Hdata.
  change ("EDS_" ++ "LOG_ROOT") with "EDS_LOG_ROOT" in Hlog.
  rewrite Hroot in Hdata. rewrite Hlogs in Hlog.
  cbn [from_option] in Hdata, Hlog.
  assert (Hext1 : self w1 "EXTENSION_PATH" ≠ VNone).
  { rewrite Hextension.
    match goal with
    | |- from_option _ _ ?v ≠ _ => destruct v; cbn; [discriminate | exact Hext]
    end. }
  unfold set_derived_values in Hderived. unfold bind at 1 in Hderived.
  rewrite (if_none_has_value _ _ w1 Hext1) in Hderived.
  destruct (if_none_under_data_root "DOCSINK_LOCAL_DIR" "/docsink" w1 root
              ltac:(discriminate) Hdata) as (wa & Ha & _ & Hadir & Haother).
  unfold bind at 1 in Hderived. rewrite Ha in Hderived.
  destruct (if_none_under_data_root "DOCUMENT_LOCAL_DIR" "/document" wa root
              ltac:(discriminate))
    as (wb & Hb & _ & Hbdir & Hbother); [by rewrite Haother |].
  unfold bind at 1 in Hderived. rewrite Hb in Hderived.
  destruct (if_none_under_data_root "STRATEGY_PATH" "/strategy" wb root
              ltac:(discriminate))
    as (wc & Hc & _ & Hcdir & Hcother);
    [by rewrite Hbother, Haother |].
  unfold bind at 1 in Hderived. rewrite Hc in Hderived.
  destruct (if_none_under_data_root "DUCKDB_PATH" "/duckdb" wc root
              ltac:(discriminate))
    as (wd & Hd & _ & Hddir & Hdother);
    [by rewrite Hcother, Hbother, Haother |].
  rewrite Hd in Hderived. injection Hderived as <- <-.
  rewrite Hinit. cbn [snd self]. eexists. split; [reflexivity |].
  split; [by rewrite Hdother, Hcother, Hbother, Haother |].
  split; [by rewrite Hdother, Hcother, Hbother, Haother |].
  intros name suffix Hdir. unfold directories_under_data_root in Hdir.
  repeat (apply elem_of_cons in Hdir as [[= -> ->] | Hdir]);
    [| | | | by apply elem_of_nil in Hdir].
  - rewrite Hdother, Hcother, Hbother, Hadir, Hdocsink by discriminate.
    match goal with |- context [from_option _ _ ?v] => by destruct v end.
  - rewrite Hdother, Hcother, Hbdir, Haother, Hdocument by discriminate.
    match goal with |- context [from_option _ _ ?v] => by destruct v end.
  - rewrite Hdother, Hcdir, Hbother, Haother, Hstrategy by discriminate.
    match goal with |- context [from_option _ _ ?v] => by destruct v end.
  - rewrite Hddir, Hcother, Hbother, Haother, Hduckdb by discriminate.
    match goal with |- context [from_option _ _ ?v] => by destruct v end.
Qed.

Lemma initialize_derives_directories_witness :
  let env : gmap string string :=
    {[ "EDS_DATA_ROOT" := "/data"; "EDS_LOG_ROOT" := "/logs";
       "EDS_DUCKDB_PATH" := "/fast/duckdb" ]} in
  ∃ settings,
    (initialize plain ".env" false (start_with env)).2 = Returns settings
    ∧ settings "DATA_ROOT" = VStr "/data"
    ∧ settings "DOCSINK_LOCAL_DIR" = VStr "/data/docsink"
    ∧ settings "DUCKDB_PATH" = VStr "/fast/duckdb".
Proof.
  intros env.
  destruct (initialize_derives_directories plain ".env" false (start_with env)
              "/data" "/logs" eq_refl eq_refl eq_refl ltac:(discriminate))
    as (settings & Hret & Hdata & _ & Hdirs).
  exists settings. split; [exact Hret |]. split; [exact Hdata |]. split.
  - rewrite (Hdirs "DOCSINK_LOCAL_DIR" "/docsink"); [reflexivity | listed].
  - rewrite (Hdirs "DUCKDB_PATH" "/duckdb"); [reflexivity | listed].
Defined.

Lemma chars_app (s1 s2 : string) :
  String.list_ascii_of_string (s1 ++ s2)
  = (String.list_ascii_of_string s1 ++ String.list_ascii_of_string s2)%list.
Proof.
  induction s1 as [| a s1 IH]; [reflexivity |].
  change (String a s1 ++ s2) with (String a (s1 ++ s2)).
  cbn [String.list_ascii_of_string app]. by rewrite IH.
Qed.

Lemma chars_dots n :
  String.list_ascii_of_string (dots n) = replicate n "."%char.
Proof. induction n as [| n IH]; cbn; [reflexivity | by rewrite IH]. Qed.

Lemma lstrip_dots_replicate n l :
  lstrip_dots (replicate n "."%char ++ l) = lstrip_dots l.
Proof. induction n as [| n IH]; cbn; [reflexivity | by rewrite decide_True]. Qed.

(** What lstrip removes is a run of dots. *)
Lemma lstrip_dots_split l :
  ∃ n, l = (replicate n "."%char ++ lstrip_dots l)%list.
Proof.
  induction l as [| a l [n IH]]; [by exists O |]. cbn.
  destruct (decide (a = "."%char)) as [-> | Hne].
  - exists (S n). cbn. by rewrite <- IH.
  - by exists O.
Qed.

Lemma rev_replicate_dots n : rev (replicate n "."%char) = replicate n "."%char.
Proof.
  induction n as [| n IH]; [reflexivity |]. cbn [replicate rev]. rewrite IH.
  clear IH. induction n as [| n IH]; [reflexivity |]. cbn. by rewrite IH.
Qed.

(** A string is its stripped part between two runs of dots. *)
Lemma strip_dots_split (s : string) :
  ∃ n m, s = dots n ++ strip_dots s ++ dots m.
Proof.
  unfold strip_dots.
  destruct (lstrip_dots_split (String.list_ascii_of_string s)) as [n Hn].
  destruct (lstrip_dots_split
              (rev (lstrip_dots (String.list_ascii_of_string s)))) as [m Hm].
  exists n, m.
  rewrite <- (String.string_of_list_ascii_of_string s) at 1.
  rewrite <- (String.string_of_list_ascii_of_string (dots n ++ _)).
  f_equal. rewrite !chars_app, !chars_dots,
    String.list_ascii_of_string_of_list_ascii.
  rewrite Hn at 1. f_equal.
  rewrite <- (rev_involutive (lstrip_dots (String.list_ascii_of_string s))) at 1.
  rewrite Hm at 1. by rewrite rev_app_distr, rev_replicate_dots.
Qed.

(** Dots around a string that neither starts nor ends with a dot are all
    that strip removes. *)
Lemma strip_dots_around n m (x : string) :
  strip_dots x = x →
  lstrip_dots (String.list_ascii_of_string x) = String.list_ascii_of_string x →
  x ≠ EmptyString →
  strip_dots (dots n ++ x ++ dots m) = x.
Proof.
  intros Hstrip Hleft Hne. unfold strip_dots in *.
  rewrite !chars_app, !chars_dots, lstrip_dots_replicate.
  assert (Hl : lstrip_dots (String.list_ascii_of_string x ++ replicate m "."%char)
               = (String.list_ascii_of_string x ++ replicate m "."%char)%list).
  { destruct x as [| a x]; [done |]. cbn in Hleft |- *.
    destruct (decide (a = "."%char)) as [-> | _]; [| reflexivity].
    exfalso. destruct (lstrip_dots_split (String.list_ascii_of_string x))
      as [k Hk].
    apply (f_equal length) in Hleft. rewrite Hk in Hleft at 2.
    cbn in Hleft. rewrite length_app in Hleft. lia. }
  rewrite Hl, rev_app_distr, rev_replicate_dots, lstrip_dots_replicate.
  rewrite Hleft in Hstrip. exact Hstrip.
Qed.

(** X29: is_media_file accepts exactly the audio, image and video extensions
    of the three lists, written with any number of dots before and after
    (mp3, .mp3 and ..mp3. alike); the comparison is exact otherwise.  None of
    the document extensions of supported_file_extensions is a media file. *)
Theorem is_media_file_spec (file_ext : string) :
  (is_media_file file_ext = true
   ↔ ∃ n m ext, ext ∈ supported_media_file_extensions
                ∧ file_ext = dots n ++ ext ++ dots m)
  ∧ (file_ext ∈ supported_file_extensions → is_media_file file_ext = false).
Proof.
  split; [split |].
  - intros H. apply bool_decide_eq_true_1 in H.
    destruct (strip_dots_split file_ext) as (n & m & Hsplit).
    by exists n, m, (strip_dots file_ext).
  - intros (n & m & ext & Hin & ->). apply bool_decide_eq_true_2.
    rewrite strip_dots_around; [exact Hin | | |].
    all: revert Hin; unfold supported_media_file_extensions,
           supported_audio_file_extensions, supported_image_file_extensions,
           supported_video_file_extensions; cbn [app]; intros Hin.
    all: repeat (apply elem_of_cons in Hin as [-> | Hin]; [by vm_compute |]).
    all: by apply elem_of_nil in Hin.
  - unfold supported_file_extensions. intros Hin.
    repeat (apply elem_of_cons in Hin as [-> | Hin]; [by vm_compute |]).
    by apply elem_of_nil in Hin.
Qed.

End SettingsPyFacts.


(** * Properties of the rerank client *)

Module ApiClientsFacts.
Import PyMore ApiClients Tactics MoreTactics.

Ltac client_paths :=
  unfold get_rerank_client_for_user, get_default_rerank_api_provider_config,
    value_from_settings, traced, log, lift, bind, ret, raise, modify;
  repeat (cbn [fst snd app clients omap list_omap key_preview api_key base_url];
          match goal with
         | |- context [get_settings_for_user ?c ?u] =>
             destruct (get_settings_for_user c u) as [? | ?]
         | |- context [get_value_from_settings ?c ?s ?e ?k ?a] =>
             destruct (get_value_from_settings c s e k a) as [[? |] | ?] eqn:?
         | |- context [get_first_level_domain_from_url ?c ?u] =>
             destruct (get_first_level_domain_from_url c u) as [? | ?]
         | |- context [cohere_Client ?c ?x] =>
             destruct (cohere_Client c x) as [? | ?]
         end);
  cbn [fst snd app clients omap list_omap key_preview api_key base_url].

(** X30: asked without a configuration, get_rerank_client_for_user never
    relies on the default base url of cohere: every client it asks cohere for
    has a base url, and when the lookup of COHERE_BASE_URL answers None it
    raises the ConfigValueException for COHERE_BASE_URL without building a
    client.  When it returns, it has built exactly the client it returns, from
    a key that is a str and a base url. *)
Theorem rerank_client_without_config {UserSettings}
    (c : Collaborators UserSettings) (user : string) :
  let run := get_rerank_client_for_user c user None [] in
  (∀ client answer, In (NewCohereClient client answer) run.1 →
                    is_Some (client_base_url client))
  ∧ (∀ client, run.2 = Returns client →
       ∃ key url, client = mkCohereClient (Some key) (Some url)
                  ∧ clients run.1 = [client])
  ∧ (In (GetValueFromSettings "COHERE_BASE_URL" "COHERE_BASE_URL" true
                              (Returns None)) run.1 →
     run.2 = Raises
               (ConfigValueException "COHERE_BASE_URL"
                  "COHERE_BASE_URL is not set. Please set COHERE_BASE_URL in the environment or user settings.")
     ∧ clients run.1 = []).
Proof.
  cbv zeta. split; [| split].
  - client_paths. all: intros client answer H; in_cases H.
    all: injection H as <- _; by eexists.
  - client_paths. all: try discriminate.
    all: intros client [= <-]; by eexists _, _.
  - client_paths. all: intros H; in_cases H.
    all: by split.
Qed.

End ApiClientsFacts.
